(** * The SQLite alert storage of the alerts capability agent

    A shallow embedding of [CapabilityAgents/Alerts/src/Storage/SQLiteAlertStorage.cpp]
    and the properties of its repository contract: round trip of [store] and
    [load], the V1 to V2 migration run by [open], token uniqueness, the scope
    of [modify], the two [erase] overloads, id allocation and the ordering of
    the play-order items on load.

    The storage object, the database file it is bound to and the outcomes of
    the calls into the SQLite engine are one explicit state, threaded through
    a state monad.  C++ [int] values are integers of [Z]; every conversion
    into an [int] is written out with [int_of]. *)

From Stdlib Require Import ZArith String List Lia DecimalString DecimalZ.
From Stdlib Require Import Sorted Permutation.
From stdpp Require Import base option list gmap strings sorting.

Open Scope string_scope.
Open Scope list_scope.
Open Scope Z_scope.

(** ** C++ integers *)

Definition INT_MIN : Z := -2147483648.
Definition INT_MAX : Z := 2147483647.

(** Conversion of an integer into a 32-bit [int]: the value modulo [2^32],
    as a signed number. *)
Definition int_of (z : Z) : Z := (z + 2147483648) mod 4294967296 - 2147483648.

Definition is_int (z : Z) : Prop := INT_MIN <= z <= INT_MAX.

(** ** Codec: the integer codes stored in the rows *)

Definition ALERT_EVENT_TYPE_ALARM : Z := 1.
Definition ALERT_EVENT_TYPE_TIMER : Z := 2.
Definition ALERT_EVENT_TYPE_REMINDER : Z := 3.

Definition ALERT_EVENT_TYPE_ALARM_STRING : string := "ALARM".
Definition ALERT_EVENT_TYPE_TIMER_STRING : string := "TIMER".
Definition ALERT_EVENT_TYPE_REMINDER_STRING : string := "REMINDER".

Definition ALERT_STATE_UNSET : Z := 1.
Definition ALERT_STATE_SET : Z := 2.
Definition ALERT_STATE_ACTIVATING : Z := 3.
Definition ALERT_STATE_ACTIVE : Z := 4.
Definition ALERT_STATE_SNOOZING : Z := 5.
Definition ALERT_STATE_SNOOZED : Z := 6.
Definition ALERT_STATE_STOPPING : Z := 7.
Definition ALERT_STATE_STOPPED : Z := 8.
Definition ALERT_STATE_COMPLETED : Z := 9.
Definition ALERT_STATE_READY : Z := 10.

Definition ALERTS_DATABASE_VERSION_ONE : Z := 1.
Definition ALERTS_DATABASE_VERSION_TWO : Z := 2.

(** [Alert::State], an enumeration of ten values. *)
Inductive State : Type :=
| UNSET | SET | READY | ACTIVATING | ACTIVE
| SNOOZING | SNOOZED | STOPPING | STOPPED | COMPLETED.

(** [alertTypeToDbField]: [None] is the [return false] of the source. *)
Definition alertTypeToDbField (alertType : string) : option Z :=
  if String.eqb ALERT_EVENT_TYPE_ALARM_STRING alertType then Some ALERT_EVENT_TYPE_ALARM
  else if String.eqb ALERT_EVENT_TYPE_TIMER_STRING alertType then Some ALERT_EVENT_TYPE_TIMER
  else if String.eqb ALERT_EVENT_TYPE_REMINDER_STRING alertType then Some ALERT_EVENT_TYPE_REMINDER
  else None.

(** [alertStateToDbField]: the [switch] covers every value of the
    enumeration, so the failing exit after it is never taken. *)
Definition alertStateToDbField (state : State) : option Z :=
  match state with
  | UNSET => Some ALERT_STATE_UNSET
  | SET => Some ALERT_STATE_SET
  | READY => Some ALERT_STATE_READY
  | ACTIVATING => Some ALERT_STATE_ACTIVATING
  | ACTIVE => Some ALERT_STATE_ACTIVE
  | SNOOZING => Some ALERT_STATE_SNOOZING
  | SNOOZED => Some ALERT_STATE_SNOOZED
  | STOPPING => Some ALERT_STATE_STOPPING
  | STOPPED => Some ALERT_STATE_STOPPED
  | COMPLETED => Some ALERT_STATE_COMPLETED
  end.

(** [dbFieldToAlertState]. *)
Definition dbFieldToAlertState (dbState : Z) : option State :=
  if dbState =? ALERT_STATE_UNSET then Some UNSET
  else if dbState =? ALERT_STATE_SET then Some SET
  else if dbState =? ALERT_STATE_READY then Some READY
  else if dbState =? ALERT_STATE_ACTIVATING then Some ACTIVATING
  else if dbState =? ALERT_STATE_ACTIVE then Some ACTIVE
  else if dbState =? ALERT_STATE_SNOOZING then Some SNOOZING
  else if dbState =? ALERT_STATE_SNOOZED then Some SNOOZED
  else if dbState =? ALERT_STATE_STOPPING then Some STOPPING
  else if dbState =? ALERT_STATE_STOPPED then Some STOPPED
  else if dbState =? ALERT_STATE_COMPLETED then Some COMPLETED
  else None.

(** ** The alert domain objects *)

(** Modelled from the spec: the classes [Alert], [Alarm], [Timer] and
    [Reminder] ([Alerts/Alert.h] and its siblings) are not part of the
    sources.  The spec gives the variants, the asset [(avs_id, url)], the
    asset configuration [(assets, assetPlayOrderItems, backgroundAssetId)]
    and the capability set the store uses. *)
Inductive AlertVariant : Type := Alarm | Timer | Reminder.

Record Asset : Type := mkAsset {
  Asset_id : string;
  Asset_url : string }.

Record AssetConfiguration : Type := mkAssetConfiguration {
  assets : gmap string Asset;
  assetPlayOrderItems : list string;
  backgroundAssetId : string }.

Record Alert : Type := mkAlert {
  variant : AlertVariant;
  m_dbId : Z;
  m_token : string;
  m_state : State;
  m_scheduledTime_Unix : Z;
  m_scheduledTime_ISO_8601 : string;
  m_loopCount : Z;
  m_loopPause : Z;
  m_assetConfiguration : AssetConfiguration }.

Definition getTypeName (alert : Alert) : string :=
  match variant alert with
  | Alarm => ALERT_EVENT_TYPE_ALARM_STRING
  | Timer => ALERT_EVENT_TYPE_TIMER_STRING
  | Reminder => ALERT_EVENT_TYPE_REMINDER_STRING
  end.

Definition getScheduledTime_Unix (alert : Alert) : Z := m_scheduledTime_Unix alert.
Definition getScheduledTime_ISO_8601 (alert : Alert) : string := m_scheduledTime_ISO_8601 alert.
Definition getLoopCount (alert : Alert) : Z := m_loopCount alert.
Definition getLoopPause (alert : Alert) : Z := m_loopPause alert.
Definition getBackgroundAssetId (alert : Alert) : string :=
  backgroundAssetId (m_assetConfiguration alert).

(** Modelled from the spec: a freshly constructed alert of a given variant,
    as [std::make_shared<Alarm>()] yields it: nothing scheduled, no assets. *)
Definition new_alert (v : AlertVariant) : Alert :=
  mkAlert v 0 "" SET 0 "" 0 0 (mkAssetConfiguration ∅ [] "").

Definition set_dbId (id : Z) (a : Alert) : Alert :=
  mkAlert (variant a) id (m_token a) (m_state a) (m_scheduledTime_Unix a)
    (m_scheduledTime_ISO_8601 a) (m_loopCount a) (m_loopPause a) (m_assetConfiguration a).

Definition set_token (token : string) (a : Alert) : Alert :=
  mkAlert (variant a) (m_dbId a) token (m_state a) (m_scheduledTime_Unix a)
    (m_scheduledTime_ISO_8601 a) (m_loopCount a) (m_loopPause a) (m_assetConfiguration a).

Definition set_state (state : State) (a : Alert) : Alert :=
  mkAlert (variant a) (m_dbId a) (m_token a) state (m_scheduledTime_Unix a)
    (m_scheduledTime_ISO_8601 a) (m_loopCount a) (m_loopPause a) (m_assetConfiguration a).

Definition setLoopCount (loopCount : Z) (a : Alert) : Alert :=
  mkAlert (variant a) (m_dbId a) (m_token a) (m_state a) (m_scheduledTime_Unix a)
    (m_scheduledTime_ISO_8601 a) loopCount (m_loopPause a) (m_assetConfiguration a).

Definition setLoopPause (loopPause : Z) (a : Alert) : Alert :=
  mkAlert (variant a) (m_dbId a) (m_token a) (m_state a) (m_scheduledTime_Unix a)
    (m_scheduledTime_ISO_8601 a) (m_loopCount a) loopPause (m_assetConfiguration a).

Definition set_assetConfiguration (c : AssetConfiguration) (a : Alert) : Alert :=
  mkAlert (variant a) (m_dbId a) (m_token a) (m_state a) (m_scheduledTime_Unix a)
    (m_scheduledTime_ISO_8601 a) (m_loopCount a) (m_loopPause a) c.

Definition setBackgroundAssetId (backgroundAssetId : string) (a : Alert) : Alert :=
  let c := m_assetConfiguration a in
  set_assetConfiguration
    (mkAssetConfiguration (assets c) (assetPlayOrderItems c) backgroundAssetId) a.

(** [alert->m_assetConfiguration.assets[key] = asset]. *)
Definition assets_assign (key : string) (asset : Asset) (a : Alert) : Alert :=
  let c := m_assetConfiguration a in
  set_assetConfiguration
    (mkAssetConfiguration (<[key := asset]> (assets c)) (assetPlayOrderItems c)
       (backgroundAssetId c)) a.

(** [alert->m_assetConfiguration.assetPlayOrderItems.push_back(name)]. *)
Definition assetPlayOrderItems_push_back (name : string) (a : Alert) : Alert :=
  let c := m_assetConfiguration a in
  set_assetConfiguration
    (mkAssetConfiguration (assets c) (assetPlayOrderItems c ++ [name])
       (backgroundAssetId c)) a.

(** ** The database file *)

(** A value of a column. *)
Inductive Value : Type :=
| VInt (z : Z)
| VText (s : string).

(** A row of [alerts_v2], with the columns of [CREATE_ALERTS_TABLE_SQL_STRING]. *)
Record AlertRow : Type := mkAlertRow {
  col_id : Z;
  col_token : string;
  col_type : Z;
  col_state : Z;
  col_scheduled_time_unix : Z;
  col_scheduled_time_iso_8601 : string;
  col_asset_loop_count : Z;
  col_asset_loop_pause_milliseconds : Z;
  col_background_asset : string }.

(** A row of [alertAssets]. *)
Record AssetRow : Type := mkAssetRow {
  asset_col_id : Z;
  asset_col_alert_id : Z;
  asset_col_avs_id : string;
  asset_col_url : string }.

(** A row of [alertAssetPlayOrderItems]. *)
Record PlayOrderRow : Type := mkPlayOrderRow {
  item_col_id : Z;
  item_col_alert_id : Z;
  item_col_asset_play_order_position : Z;
  item_col_asset_play_order_token : string }.

(** Modelled from the spec: the legacy table [alerts] of a V1 file.  Its
    [CREATE TABLE] statement is not part of the sources; the spec gives it
    the columns of [alerts_v2], of which [background_asset] may be absent. *)
Record LegacyAlerts : Type := mkLegacyAlerts {
  has_background_asset : bool;
  legacy_rows : list AlertRow }.

(** The tables of a database file; [None] is a table that does not exist.
    The rows of a table are listed in the order in which the engine returns
    them for [SELECT *]. *)
Record Database : Type := mkDatabase {
  alerts : option LegacyAlerts;
  alerts_v2 : option (list AlertRow);
  alertAssets : option (list AssetRow);
  alertAssetPlayOrderItems : option (list PlayOrderRow) }.

Inductive TableName : Type :=
| ALERTS_TABLE_NAME
| ALERTS_V2_TABLE_NAME
| ALERT_ASSETS_TABLE_NAME
| ALERT_ASSET_PLAY_ORDER_ITEMS_TABLE_NAME.

Definition empty_database : Database := mkDatabase None None None None.

Definition is_some {A : Type} (o : option A) : bool :=
  match o with Some _ => true | None => false end.

Definition has_table (db : Database) (t : TableName) : bool :=
  match t with
  | ALERTS_TABLE_NAME => is_some (alerts db)
  | ALERTS_V2_TABLE_NAME => is_some (alerts_v2 db)
  | ALERT_ASSETS_TABLE_NAME => is_some (alertAssets db)
  | ALERT_ASSET_PLAY_ORDER_ITEMS_TABLE_NAME => is_some (alertAssetPlayOrderItems db)
  end.

Definition set_alerts (t : option LegacyAlerts) (db : Database) : Database :=
  mkDatabase t (alerts_v2 db) (alertAssets db) (alertAssetPlayOrderItems db).
Definition set_alerts_v2 (t : option (list AlertRow)) (db : Database) : Database :=
  mkDatabase (alerts db) t (alertAssets db) (alertAssetPlayOrderItems db).
Definition set_alertAssets (t : option (list AssetRow)) (db : Database) : Database :=
  mkDatabase (alerts db) (alerts_v2 db) t (alertAssetPlayOrderItems db).
Definition set_alertAssetPlayOrderItems (t : option (list PlayOrderRow)) (db : Database)
  : Database :=
  mkDatabase (alerts db) (alerts_v2 db) (alertAssets db) t.

(** The values of the [id] column of a table. *)
Definition table_ids (db : Database) (t : TableName) : option (list Z) :=
  match t with
  | ALERTS_TABLE_NAME => (fun l => map col_id (legacy_rows l)) <$> alerts db
  | ALERTS_V2_TABLE_NAME => map col_id <$> alerts_v2 db
  | ALERT_ASSETS_TABLE_NAME => map asset_col_id <$> alertAssets db
  | ALERT_ASSET_PLAY_ORDER_ITEMS_TABLE_NAME =>
      map item_col_id <$> alertAssetPlayOrderItems db
  end.

(** A row as a statement returns it: the columns by position, each with its
    name. *)
Definition Row : Type := list (string * Value).

Definition alert_row_columns (with_background_asset : bool) (r : AlertRow) : Row :=
  [ ("id", VInt (col_id r));
    ("token", VText (col_token r));
    ("type", VInt (col_type r));
    ("state", VInt (col_state r));
    ("scheduled_time_unix", VInt (col_scheduled_time_unix r));
    ("scheduled_time_iso_8601", VText (col_scheduled_time_iso_8601 r));
    ("asset_loop_count", VInt (col_asset_loop_count r));
    ("asset_loop_pause_milliseconds", VInt (col_asset_loop_pause_milliseconds r)) ]
  ++ (if with_background_asset
      then [ ("background_asset", VText (col_background_asset r)) ] else []).

Definition asset_row_columns (r : AssetRow) : Row :=
  [ ("id", VInt (asset_col_id r));
    ("alert_id", VInt (asset_col_alert_id r));
    ("avs_id", VText (asset_col_avs_id r));
    ("url", VText (asset_col_url r)) ].

Definition play_order_row_columns (r : PlayOrderRow) : Row :=
  [ ("id", VInt (item_col_id r));
    ("alert_id", VInt (item_col_alert_id r));
    ("asset_play_order_position", VInt (item_col_asset_play_order_position r));
    ("asset_play_order_token", VText (item_col_asset_play_order_token r)) ].

(** ** The state and the engine *)

(** The open connection [sqlite3*] is the path of the file it is bound to;
    a null pointer is [None]. *)
Definition sqlite3_ptr : Type := option string.

(** The state the storage runs in: the handle [m_dbHandle] of the storage
    object, the database files by path, and the outcomes of the coming calls
    into the engine ([true]: that call fails; past the end of the list every
    call succeeds). *)
Record System : Type := mkSystem {
  m_dbHandle : sqlite3_ptr;
  files : gmap string Database;
  faults : list bool }.

Definition M (A : Type) : Type := System -> A * System.

Definition ret {A : Type} (a : A) : M A := fun s => (a, s).

Definition bind {A B : Type} (m : M A) (k : A -> M B) : M B :=
  fun s => let (a, s') := m s in k a s'.

Notation "'let*' x ':=' m 'in' k" := (bind m (fun x => k))
  (at level 10, x name, m at level 200, k at level 200,
   format "'[v' 'let*'  x  ':='  m  'in' '/' k ']'").
Notation "'let*' ' p ':=' m 'in' k" := (bind m (fun x => match x with p => k end))
  (at level 10, p pattern, m at level 200, k at level 200).

(** Sequencing of steps that may fail, as the [||] chains of the source. *)
Definition and_then {A B : Type} (m : M (option A)) (k : A -> M (option B)) : M (option B) :=
  let* r := m in match r with Some a => k a | None => ret None end.

Notation "m >>? k" := (and_then m k) (at level 50, left associativity).

Fixpoint foldM {A B : Type} (f : B -> A -> M A) (l : list B) (a : A) : M A :=
  match l with
  | [] => ret a
  | x :: l' => let* a' := f x a in foldM f l' a'
  end.

Definition get_dbHandle : M sqlite3_ptr := fun s => (m_dbHandle s, s).

Definition set_dbHandle (h : sqlite3_ptr) : M unit :=
  fun s => (tt, mkSystem h (files s) (faults s)).

(** Modelled from the spec: one call into the engine, which succeeds unless
    the next entry of [faults] makes it fail.  The engine itself (SQLite
    and the wrappers of [SQLiteStorage]) is not part of the sources. *)
Definition engine_call : M bool :=
  fun s => match faults s with
           | [] => (true, s)
           | fault :: rest => (negb fault, mkSystem (m_dbHandle s) (files s) rest)
           end.

(** Modelled from the spec: a call into the engine that runs [f] on the
    database behind the handle and writes the outcome through to the file;
    [None] when the call fails. *)
Definition engine_do {A : Type} (dbHandle : sqlite3_ptr)
    (f : Database -> option (A * Database)) : M (option A) :=
  match dbHandle with
  | None => ret None
  | Some path =>
      let* ok := engine_call in
      if negb ok then ret None else
      fun s => match files s !! path with
               | None => (None, s)
               | Some db =>
                   match f db with
                   | None => (None, s)
                   | Some (a, db') =>
                       (Some a, mkSystem (m_dbHandle s) (<[path := db']> (files s)) (faults s))
                   end
               end
  end.

(** Modelled from the spec: [fileExists] of the file utilities. *)
Definition fileExists (filePath : string) : M bool :=
  fun s => (is_some (files s !! filePath), s).

(** Modelled from the spec: [createSQLiteDatabase], which creates the file
    with no table in it and returns the handle, or null. *)
Definition createSQLiteDatabase (filePath : string) : M sqlite3_ptr :=
  let* ok := engine_call in
  if negb ok then ret None else
  fun s => match files s !! filePath with
           | Some _ => (None, s)
           | None => (Some filePath,
                      mkSystem (m_dbHandle s) (<[filePath := empty_database]> (files s))
                        (faults s))
           end.

(** Modelled from the spec: [openSQLiteDatabase]. *)
Definition openSQLiteDatabase (filePath : string) : M sqlite3_ptr :=
  let* ok := engine_call in
  let* present := fileExists filePath in
  ret (if ok && present then Some filePath else None).

(** Modelled from the spec: [closeSQLiteDatabase]. *)
Definition closeSQLiteDatabase (dbHandle : sqlite3_ptr) : M unit := ret tt.

(** Modelled from the spec: [tableExists] of [SQLiteUtils]; a failing query
    reads as an absent table. *)
Definition tableExists (dbHandle : sqlite3_ptr) (tableName : TableName) : M bool :=
  let* r := engine_do dbHandle (fun db => Some (has_table db tableName, db)) in
  ret (default false r).

Definition max_of (l : list Z) : Z :=
  match l with
  | [] => 0
  | x :: l' => int_of (fold_left Z.max l' x)
  end.

(** Modelled from the spec: [getTableMaxIntValue] of [SQLiteUtils], the
    greatest value of the column [id] read as an [int], and zero for a table
    without rows ("next = current-max + 1", "after clearDatabase the next
    store assigns id = 1"). *)
Definition getTableMaxIntValue (dbHandle : sqlite3_ptr) (tableName : TableName)
  : M (option Z) :=
  engine_do dbHandle (fun db => ids ← table_ids db tableName; Some (max_of ids, db)).

Inductive CreateTable : Type :=
| CREATE_ALERTS_TABLE_SQL_STRING
| CREATE_ALERT_ASSETS_TABLE_SQL_STRING
| CREATE_ALERT_ASSET_PLAY_ORDER_ITEMS_TABLE_SQL_STRING.

Definition create_table (sql : CreateTable) (db : Database) : option Database :=
  match sql with
  | CREATE_ALERTS_TABLE_SQL_STRING =>
      if has_table db ALERTS_V2_TABLE_NAME then None
      else Some (set_alerts_v2 (Some []) db)
  | CREATE_ALERT_ASSETS_TABLE_SQL_STRING =>
      if has_table db ALERT_ASSETS_TABLE_NAME then None
      else Some (set_alertAssets (Some []) db)
  | CREATE_ALERT_ASSET_PLAY_ORDER_ITEMS_TABLE_SQL_STRING =>
      if has_table db ALERT_ASSET_PLAY_ORDER_ITEMS_TABLE_NAME then None
      else Some (set_alertAssetPlayOrderItems (Some []) db)
  end.

(** Modelled from the spec: [performQuery] of [SQLiteUtils], run on the
    three [CREATE TABLE] strings; creating a table that exists fails. *)
Definition performQuery (dbHandle : sqlite3_ptr) (sql : CreateTable) : M bool :=
  let* r := engine_do dbHandle (fun db => db' ← create_table sql db; Some (tt, db')) in
  ret (is_some r).

Definition drop_table (t : TableName) (db : Database) : option Database :=
  if negb (has_table db t) then None else
  Some match t with
       | ALERTS_TABLE_NAME => set_alerts None db
       | ALERTS_V2_TABLE_NAME => set_alerts_v2 None db
       | ALERT_ASSETS_TABLE_NAME => set_alertAssets None db
       | ALERT_ASSET_PLAY_ORDER_ITEMS_TABLE_NAME => set_alertAssetPlayOrderItems None db
       end.

(** Modelled from the spec: [dropTable] of [SQLiteUtils]. *)
Definition dropTable (dbHandle : sqlite3_ptr) (tableName : TableName) : M bool :=
  let* r := engine_do dbHandle (fun db => db' ← drop_table tableName db; Some (tt, db')) in
  ret (is_some r).

Definition clear_table (t : TableName) (db : Database) : option Database :=
  if negb (has_table db t) then None else
  Some match t with
       | ALERTS_TABLE_NAME =>
           set_alerts ((fun l => mkLegacyAlerts (has_background_asset l) []) <$> alerts db) db
       | ALERTS_V2_TABLE_NAME => set_alerts_v2 (Some []) db
       | ALERT_ASSETS_TABLE_NAME => set_alertAssets (Some []) db
       | ALERT_ASSET_PLAY_ORDER_ITEMS_TABLE_NAME => set_alertAssetPlayOrderItems (Some []) db
       end.

(** Modelled from the spec: [clearTable] of [SQLiteUtils], which removes the
    rows and keeps the table. *)
Definition clearTable (dbHandle : sqlite3_ptr) (tableName : TableName) : M bool :=
  let* r := engine_do dbHandle (fun db => db' ← clear_table tableName db; Some (tt, db')) in
  ret (is_some r).

(** Decimal text of an integer, and its conversion back. *)
Definition string_of_Z (z : Z) : string := NilZero.string_of_int (Z.to_int z).

(** Modelled from the spec: [stringToInt] of the string utilities, which
    accepts the decimal numerals. *)
Definition stringToInt (s : string) : option Z :=
  option_map Z.of_int (NilZero.int_of_string s).

(** *** Prepared statements *)

(** The SQL strings the source builds. *)
Inductive Sql : Type :=
| SELECT_COUNT_FROM_ALERTS_V2_WHERE_ID
| SELECT_COUNT_FROM_ALERTS_V2_WHERE_TOKEN
| INSERT_INTO_ALERTS_V2
| INSERT_INTO_ALERT_ASSETS
| INSERT_INTO_ALERT_ASSET_PLAY_ORDER_ITEMS
| SELECT_ALL_FROM (tableName : TableName)
| UPDATE_ALERTS_V2_WHERE_ID
| DELETE_FROM_ALERTS_V2_WHERE_ID
| DELETE_FROM_ALERT_ASSETS_WHERE_ALERT_ID
| DELETE_FROM_ALERT_ASSET_PLAY_ORDER_ITEMS_WHERE_ALERT_ID.

Definition sql_table (sql : Sql) : TableName :=
  match sql with
  | SELECT_COUNT_FROM_ALERTS_V2_WHERE_ID
  | SELECT_COUNT_FROM_ALERTS_V2_WHERE_TOKEN
  | INSERT_INTO_ALERTS_V2
  | UPDATE_ALERTS_V2_WHERE_ID
  | DELETE_FROM_ALERTS_V2_WHERE_ID => ALERTS_V2_TABLE_NAME
  | INSERT_INTO_ALERT_ASSETS
  | DELETE_FROM_ALERT_ASSETS_WHERE_ALERT_ID => ALERT_ASSETS_TABLE_NAME
  | INSERT_INTO_ALERT_ASSET_PLAY_ORDER_ITEMS
  | DELETE_FROM_ALERT_ASSET_PLAY_ORDER_ITEMS_WHERE_ALERT_ID =>
      ALERT_ASSET_PLAY_ORDER_ITEMS_TABLE_NAME
  | SELECT_ALL_FROM t => t
  end.

(** The number of [?] in the statement. *)
Definition sql_parameters (sql : Sql) : Z :=
  match sql with
  | SELECT_COUNT_FROM_ALERTS_V2_WHERE_ID => 1
  | SELECT_COUNT_FROM_ALERTS_V2_WHERE_TOKEN => 1
  | INSERT_INTO_ALERTS_V2 => 9
  | INSERT_INTO_ALERT_ASSETS => 4
  | INSERT_INTO_ALERT_ASSET_PLAY_ORDER_ITEMS => 4
  | SELECT_ALL_FROM _ => 0
  | UPDATE_ALERTS_V2_WHERE_ID => 4
  | DELETE_FROM_ALERTS_V2_WHERE_ID => 1
  | DELETE_FROM_ALERT_ASSETS_WHERE_ALERT_ID => 1
  | DELETE_FROM_ALERT_ASSET_PLAY_ORDER_ITEMS_WHERE_ALERT_ID => 1
  end.

(** Modelled from the spec: the prepared statement [SQLiteStatement] of
    [SQLiteStorage]: "bind-by-position (int, int64, string), step,
    column-by-index (name, int, text), reset, and finalize".  The latest
    binding of a position is the first of [bound]. *)
Record SQLiteStatement : Type := mkSQLiteStatement {
  statement_handle : sqlite3_ptr;
  statement_sql : Sql;
  isValid : bool;
  bound : list (Z * Value) }.

(** The constructor prepares the statement, which needs its table. *)
Definition SQLiteStatement_new (dbHandle : sqlite3_ptr) (sqlString : Sql)
  : M SQLiteStatement :=
  let* r := engine_do dbHandle (fun db => Some (has_table db (sql_table sqlString), db)) in
  ret (mkSQLiteStatement dbHandle sqlString (default false r) []).

Definition bindParameter (index : Z) (value : Value) (statement : SQLiteStatement)
  : M (option SQLiteStatement) :=
  let* ok := engine_call in
  ret (if ok && isValid statement
          && (1 <=? index) && (index <=? sql_parameters (statement_sql statement))
       then Some (mkSQLiteStatement (statement_handle statement) (statement_sql statement)
                    true ((index, value) :: bound statement))
       else None).

Definition bindIntParameter (index : Z) (value : Z) := bindParameter index (VInt value).
Definition bindInt64Parameter (index : Z) (value : Z) := bindParameter index (VInt value).
Definition bindStringParameter (index : Z) (value : string) := bindParameter index (VText value).

Definition parameter (statement : SQLiteStatement) (index : Z) : option Value :=
  snd <$> List.find (fun b => fst b =? index) (bound statement).

Definition int_parameter (statement : SQLiteStatement) (index : Z) : option Z :=
  match parameter statement index with Some (VInt z) => Some z | _ => None end.

Definition text_parameter (statement : SQLiteStatement) (index : Z) : option string :=
  match parameter statement index with Some (VText s) => Some s | _ => None end.

(** The column [id] is the primary key of each of the three tables
    ([id INT PRIMARY KEY NOT NULL] in the [CREATE TABLE] strings): a row
    cannot be inserted under an id that the table holds. *)
Definition holds_id (ids : list Z) (id : Z) : bool := bool_decide (id ∈ ids).

(** What a statement does to the database when it is stepped, and the rows
    it returns.  An unbound parameter is NULL, which no column takes. *)
Definition run (statement : SQLiteStatement) (db : Database) : option (list Row * Database) :=
  let int_p := int_parameter statement in
  let text_p := text_parameter statement in
  match statement_sql statement with
  | SELECT_COUNT_FROM_ALERTS_V2_WHERE_ID =>
      id ← int_p 1; rows ← alerts_v2 db;
      Some ([ [ ("COUNT(*)", VInt (Z.of_nat (length (filter (fun r => col_id r = id) rows)))) ] ],
            db)
  | SELECT_COUNT_FROM_ALERTS_V2_WHERE_TOKEN =>
      token ← text_p 1; rows ← alerts_v2 db;
      Some ([ [ ("COUNT(*)",
                 VInt (Z.of_nat (length (filter (fun r => col_token r = token) rows)))) ] ],
            db)
  | INSERT_INTO_ALERTS_V2 =>
      id ← int_p 1; token ← text_p 2; type ← int_p 3; state ← int_p 4;
      scheduled_time_unix ← int_p 5; scheduled_time_iso_8601 ← text_p 6;
      asset_loop_count ← int_p 7; asset_loop_pause_milliseconds ← int_p 8;
      background_asset ← text_p 9; rows ← alerts_v2 db;
      if holds_id (map col_id rows) id then None else
      Some ([], set_alerts_v2
                  (Some (rows ++ [ mkAlertRow id token type state scheduled_time_unix
                                     scheduled_time_iso_8601 asset_loop_count
                                     asset_loop_pause_milliseconds background_asset ])) db)
  | INSERT_INTO_ALERT_ASSETS =>
      id ← int_p 1; alert_id ← int_p 2; avs_id ← text_p 3; url ← text_p 4;
      rows ← alertAssets db;
      if holds_id (map asset_col_id rows) id then None else
      Some ([], set_alertAssets (Some (rows ++ [ mkAssetRow id alert_id avs_id url ])) db)
  | INSERT_INTO_ALERT_ASSET_PLAY_ORDER_ITEMS =>
      id ← int_p 1; alert_id ← int_p 2; asset_play_order_position ← int_p 3;
      asset_play_order_token ← text_p 4; rows ← alertAssetPlayOrderItems db;
      if holds_id (map item_col_id rows) id then None else
      Some ([], set_alertAssetPlayOrderItems
                  (Some (rows ++ [ mkPlayOrderRow id alert_id asset_play_order_position
                                     asset_play_order_token ])) db)
  | SELECT_ALL_FROM ALERTS_TABLE_NAME =>
      t ← alerts db;
      Some (map (alert_row_columns (has_background_asset t)) (legacy_rows t), db)
  | SELECT_ALL_FROM ALERTS_V2_TABLE_NAME =>
      rows ← alerts_v2 db; Some (map (alert_row_columns true) rows, db)
  | SELECT_ALL_FROM ALERT_ASSETS_TABLE_NAME =>
      rows ← alertAssets db; Some (map asset_row_columns rows, db)
  | SELECT_ALL_FROM ALERT_ASSET_PLAY_ORDER_ITEMS_TABLE_NAME =>
      rows ← alertAssetPlayOrderItems db; Some (map play_order_row_columns rows, db)
  | UPDATE_ALERTS_V2_WHERE_ID =>
      state ← int_p 1; scheduled_time_unix ← int_p 2; scheduled_time_iso_8601 ← text_p 3;
      id ← int_p 4; rows ← alerts_v2 db;
      Some ([], set_alerts_v2
                  (Some (map (fun r =>
                                if bool_decide (col_id r = id)
                                then mkAlertRow (col_id r) (col_token r) (col_type r) state
                                       scheduled_time_unix scheduled_time_iso_8601
                                       (col_asset_loop_count r)
                                       (col_asset_loop_pause_milliseconds r)
                                       (col_background_asset r)
                                else r) rows)) db)
  | DELETE_FROM_ALERTS_V2_WHERE_ID =>
      id ← int_p 1; rows ← alerts_v2 db;
      Some ([], set_alerts_v2 (Some (filter (fun r => col_id r ≠ id) rows)) db)
  | DELETE_FROM_ALERT_ASSETS_WHERE_ALERT_ID =>
      id ← int_p 1; rows ← alertAssets db;
      Some ([], set_alertAssets (Some (filter (fun r => asset_col_alert_id r ≠ id) rows)) db)
  | DELETE_FROM_ALERT_ASSET_PLAY_ORDER_ITEMS_WHERE_ALERT_ID =>
      id ← int_p 1; rows ← alertAssetPlayOrderItems db;
      Some ([], set_alertAssetPlayOrderItems
                  (Some (filter (fun r => item_col_alert_id r ≠ id) rows)) db)
  end.

(** [step]: [None] is the [false] of the source; otherwise the result rows,
    the first of which is the current row ([SQLITE_ROW]), none meaning
    [SQLITE_DONE]. *)
Definition step (statement : SQLiteStatement) : M (option (list Row)) :=
  if negb (isValid statement) then ret None
  else engine_do (statement_handle statement) (run statement).

Definition reset (statement : SQLiteStatement) : M bool :=
  let* ok := engine_call in ret (ok && isValid statement).

(** [getColumnInt]: the value of the column as an [int]. *)
Definition getColumnInt (v : Value) : Z :=
  match v with
  | VInt z => int_of z
  | VText s => int_of (default 0 (stringToInt s))
  end.

(** [getColumnText]: the text of the column.  An integer is converted to
    text by the engine, a call that may fail and then yields no text. *)
Definition getColumnText (v : Value) : M string :=
  match v with
  | VText s => ret s
  | VInt z => let* ok := engine_call in ret (if ok then string_of_Z z else "")
  end.

(** The value of the column at a position of the current row. *)
Definition column (row : Row) (position : nat) : Value :=
  snd (nth position row ("", VText "")).

(** The loop [while (SQLITE_ROW == statement.getStepResult()) { ...;
    statement.step(); }] over the result rows.  The body yields [false] to
    leave the function with [return false]; the result of the [step] that
    ends an iteration is not checked, so a failing [step] ends the loop as
    [SQLITE_DONE] does. *)
Fixpoint while_SQLITE_ROW {S : Type} (body : Row -> S -> M (bool * S))
    (rows : list Row) (s : S) : M (bool * S) :=
  match rows with
  | [] => ret (true, s)
  | row :: rest =>
      let* '(continue, s') := body row s in
      if negb continue then ret (false, s') else
      let* ok := engine_call in
      if ok then while_SQLITE_ROW body rest s' else ret (true, s')
  end.

(** ** The storage *)

Section Storage.

(** Modelled from the spec: the conversion of an ISO-8601 string to Unix
    time of the time utilities, which is not part of the sources; [None]
    when the string does not convert. *)
Variable convert8601TimeStringToUnix : string -> option Z.

(** Modelled from the spec: [Alert::setTime_ISO_8601], the one setter of the
    scheduled time.  The spec makes the writer keep the two time fields on
    the same instant; a string that does not convert leaves both as they
    are. *)
Definition setTime_ISO_8601 (time_ISO_8601 : string) (a : Alert) : Alert :=
  match convert8601TimeStringToUnix time_ISO_8601 with
  | Some unixTime =>
      mkAlert (variant a) (m_dbId a) (m_token a) (m_state a) unixTime time_ISO_8601
        (m_loopCount a) (m_loopPause a) (m_assetConfiguration a)
  | None => a
  end.

(** The two scheduled times of an alert as [setTime_ISO_8601] leaves them:
    on the same instant, or never set. *)
Definition times_agree (a : Alert) : Prop :=
  match convert8601TimeStringToUnix (m_scheduledTime_ISO_8601 a) with
  | Some unixTime => m_scheduledTime_Unix a = unixTime
  | None => m_scheduledTime_ISO_8601 a = "" /\ m_scheduledTime_Unix a = 0
  end.

(** [struct AssetOrderItem]. *)
Record AssetOrderItem : Type := mkAssetOrderItem {
  index : Z;
  name : string }.

(** [AssetOrderItemCompare]. *)
Definition AssetOrderItemCompare (lhs rhs : AssetOrderItem) : bool :=
  index lhs <? index rhs.

(** [std::set<AssetOrderItem, AssetOrderItemCompare>::insert]: the set is
    kept in the order of the comparison, and an item equivalent to one that
    is in the set (neither is less than the other) is not inserted. *)
Fixpoint set_insert (item : AssetOrderItem) (s : list AssetOrderItem) : list AssetOrderItem :=
  match s with
  | [] => [item]
  | x :: s' =>
      if AssetOrderItemCompare item x then item :: x :: s'
      else if AssetOrderItemCompare x item then x :: set_insert item s'
      else x :: s'
  end.

(** [alertExistsByAlertId]. *)
Definition alertExistsByAlertId (dbHandle : sqlite3_ptr) (alertId : Z) : M bool :=
  let* statement := SQLiteStatement_new dbHandle SELECT_COUNT_FROM_ALERTS_V2_WHERE_ID in
  if negb (isValid statement) then ret false else
  let* bound := bindIntParameter 1 alertId statement in
  match bound with
  | None => ret false
  | Some statement =>
      let* stepped := step statement in
      match stepped with
      | None => ret false
      | Some rows =>
          let* rowValue := getColumnText (column (hd [] rows) 0) in
          match stringToInt rowValue with
          | None => ret false
          | Some countValue => ret (0 <? countValue)
          end
      end
  end.

Definition createAlertsTable (dbHandle : sqlite3_ptr) : M bool :=
  performQuery dbHandle CREATE_ALERTS_TABLE_SQL_STRING.

Definition createAlertAssetsTable (dbHandle : sqlite3_ptr) : M bool :=
  performQuery dbHandle CREATE_ALERT_ASSETS_TABLE_SQL_STRING.

Definition createAlertAssetPlayOrderItemsTable (dbHandle : sqlite3_ptr) : M bool :=
  performQuery dbHandle CREATE_ALERT_ASSET_PLAY_ORDER_ITEMS_TABLE_SQL_STRING.

(** [SQLiteAlertStorage::isOpen]. *)
Definition isOpen : M bool :=
  let* dbHandle := get_dbHandle in ret (is_some dbHandle).

(** [SQLiteAlertStorage::close]. *)
Definition close : M unit :=
  let* dbHandle := get_dbHandle in
  match dbHandle with
  | Some _ => let* _ := closeSQLiteDatabase dbHandle in set_dbHandle None
  | None => ret tt
  end.

(** [SQLiteAlertStorage::createDatabase]. *)
Definition createDatabase (filePath : string) : M bool :=
  let* dbHandle := get_dbHandle in
  if is_some dbHandle then ret false else
  let* present := fileExists filePath in
  if present then ret false else
  let* dbHandle := createSQLiteDatabase filePath in
  let* _ := set_dbHandle dbHandle in
  if negb (is_some dbHandle) then ret false else
  let* created := createAlertsTable dbHandle in
  if negb created then let* _ := close in ret false else
  let* created := createAlertAssetsTable dbHandle in
  if negb created then let* _ := close in ret false else
  let* created := createAlertAssetPlayOrderItemsTable dbHandle in
  if negb created then let* _ := close in ret false else
  ret true.

(** [SQLiteAlertStorage::alertExists]. *)
Definition alertExists (token : string) : M bool :=
  let* dbHandle := get_dbHandle in
  let* statement := SQLiteStatement_new dbHandle SELECT_COUNT_FROM_ALERTS_V2_WHERE_TOKEN in
  if negb (isValid statement) then ret false else
  let* bound := bindStringParameter 1 token statement in
  match bound with
  | None => ret false
  | Some statement =>
      let* stepped := step statement in
      match stepped with
      | None => ret false
      | Some rows =>
          let* rowValue := getColumnText (column (hd [] rows) 0) in
          match stringToInt rowValue with
          | None => ret false
          | Some countValue => ret (0 <? countValue)
          end
      end
  end.

(** The loop of [storeAlertAssets] over the assets of the catalog. *)
Fixpoint storeAlertAssets_loop (statement : SQLiteStatement) (alertId : Z)
    (l : list (string * Asset)) (id : Z) : M bool :=
  match l with
  | [] => ret true
  | assetIter :: rest =>
      let asset := snd assetIter in
      let* bound :=
        bindIntParameter 1 id statement
        >>? bindIntParameter 2 alertId
        >>? bindStringParameter 3 (Asset_id asset)
        >>? bindStringParameter 4 (Asset_url asset) in
      match bound with
      | None => ret false
      | Some statement =>
          let* stepped := step statement in
          match stepped with
          | None => ret false
          | Some _ =>
              let* ok := reset statement in
              if negb ok then ret false else
              storeAlertAssets_loop statement alertId rest (int_of (id + 1))
          end
      end
  end.

(** [storeAlertAssets].  The order in which the [std::unordered_map] of
    the catalog is gone through is not specified; [map_to_list] stands for
    it, as one enumeration of the catalog, and nothing is stated below of
    which enumeration it is. *)
Definition storeAlertAssets (dbHandle : sqlite3_ptr) (alertId : Z)
    (assetConfiguration : AssetConfiguration) : M bool :=
  if bool_decide (assets assetConfiguration = ∅) then ret true else
  let* maxId := getTableMaxIntValue dbHandle ALERT_ASSETS_TABLE_NAME in
  match maxId with
  | None => ret false
  | Some id =>
      let id := int_of (id + 1) in
      let* statement := SQLiteStatement_new dbHandle INSERT_INTO_ALERT_ASSETS in
      if negb (isValid statement) then ret false else
      storeAlertAssets_loop statement alertId (map_to_list (assets assetConfiguration)) id
  end.

(** The loop of [storeAlertAssetPlayOrderItems]. *)
Fixpoint storeAlertAssetPlayOrderItems_loop (statement : SQLiteStatement) (alertId : Z)
    (l : list string) (id itemIndex : Z) : M bool :=
  match l with
  | [] => ret true
  | assetId :: rest =>
      let* bound :=
        bindIntParameter 1 id statement
        >>? bindIntParameter 2 alertId
        >>? bindIntParameter 3 itemIndex
        >>? bindStringParameter 4 assetId in
      match bound with
      | None => ret false
      | Some statement =>
          let* stepped := step statement in
          match stepped with
          | None => ret false
          | Some _ =>
              let* ok := reset statement in
              if negb ok then ret false else
              storeAlertAssetPlayOrderItems_loop statement alertId rest
                (int_of (id + 1)) (int_of (itemIndex + 1))
          end
      end
  end.

(** [storeAlertAssetPlayOrderItems]. *)
Definition storeAlertAssetPlayOrderItems (dbHandle : sqlite3_ptr) (alertId : Z)
    (assetConfiguration : AssetConfiguration) : M bool :=
  if bool_decide (assetPlayOrderItems assetConfiguration = []) then ret true else
  let* maxId := getTableMaxIntValue dbHandle ALERT_ASSET_PLAY_ORDER_ITEMS_TABLE_NAME in
  match maxId with
  | None => ret false
  | Some id =>
      let id := int_of (id + 1) in
      let* statement := SQLiteStatement_new dbHandle INSERT_INTO_ALERT_ASSET_PLAY_ORDER_ITEMS in
      if negb (isValid statement) then ret false else
      storeAlertAssetPlayOrderItems_loop statement alertId
        (assetPlayOrderItems assetConfiguration) id 1
  end.

(** [SQLiteAlertStorage::store].  The alert is returned as the call leaves
    the object it was given: with [m_dbId] set once the row is inserted.
    The loop pause is a count of milliseconds that [bindIntParameter] takes
    as an [int].  (A null [alert] has no counterpart.) *)
Definition store (alert : Alert) : M (bool * Alert) :=
  let* dbHandle := get_dbHandle in
  if negb (is_some dbHandle) then ret (false, alert) else
  let* present := alertExists (m_token alert) in
  if present then ret (false, alert) else
  let* maxId := getTableMaxIntValue dbHandle ALERTS_V2_TABLE_NAME in
  match maxId with
  | None => ret (false, alert)
  | Some id =>
      let id := int_of (id + 1) in
      match alertTypeToDbField (getTypeName alert) with
      | None => ret (false, alert)
      | Some alertType =>
          match alertStateToDbField (m_state alert) with
          | None => ret (false, alert)
          | Some alertState =>
              let* statement := SQLiteStatement_new dbHandle INSERT_INTO_ALERTS_V2 in
              if negb (isValid statement) then ret (false, alert) else
              let token := m_token alert in
              let iso8601 := getScheduledTime_ISO_8601 alert in
              let assetId := getBackgroundAssetId alert in
              let* bound :=
                bindIntParameter 1 id statement
                >>? bindStringParameter 2 token
                >>? bindIntParameter 3 alertType
                >>? bindIntParameter 4 alertState
                >>? bindInt64Parameter 5 (getScheduledTime_Unix alert)
                >>? bindStringParameter 6 iso8601
                >>? bindIntParameter 7 (getLoopCount alert)
                >>? bindIntParameter 8 (int_of (getLoopPause alert))
                >>? bindStringParameter 9 assetId in
              match bound with
              | None => ret (false, alert)
              | Some statement =>
                  let* stepped := step statement in
                  match stepped with
                  | None => ret (false, alert)
                  | Some _ =>
                      let alert := set_dbId id alert in
                      let* stored :=
                        storeAlertAssets dbHandle id (m_assetConfiguration alert) in
                      if negb stored then ret (false, alert) else
                      let* stored :=
                        storeAlertAssetPlayOrderItems dbHandle id
                          (m_assetConfiguration alert) in
                      if negb stored then ret (false, alert) else
                      ret (true, alert)
                  end
              end
          end
      end
  end.

(** The row of [loadAlertAssets]: the columns are dispatched by name into
    the variables [alertId], [avsId] and [url], which live across the rows. *)
Definition loadAlertAssets_row (row : Row)
    (s : (Z * string * string) * gmap Z (list Asset))
  : M (bool * ((Z * string * string) * gmap Z (list Asset))) :=
  let* locals :=
    foldM (fun c '(alertId, avsId, url) =>
             let columnName := fst c in
             if String.eqb "alert_id" columnName
             then ret (getColumnInt (snd c), avsId, url)
             else if String.eqb "avs_id" columnName
             then let* text := getColumnText (snd c) in ret (alertId, text, url)
             else if String.eqb "url" columnName
             then let* text := getColumnText (snd c) in ret (alertId, avsId, text)
             else ret (alertId, avsId, url))
          row (fst s) in
  let '(alertId, avsId, url) := locals in
  let alertAssetsMap := snd s in
  ret (true,
       (locals,
        <[alertId := default [] (alertAssetsMap !! alertId) ++ [mkAsset avsId url]]>
          alertAssetsMap)).

(** [loadAlertAssets]. *)
Definition loadAlertAssets (dbHandle : sqlite3_ptr) (alertAssetsMap : gmap Z (list Asset))
  : M (bool * gmap Z (list Asset)) :=
  let* statement := SQLiteStatement_new dbHandle (SELECT_ALL_FROM ALERT_ASSETS_TABLE_NAME) in
  if negb (isValid statement) then ret (false, alertAssetsMap) else
  let* stepped := step statement in
  match stepped with
  | None => ret (false, alertAssetsMap)
  | Some rows =>
      let* r := while_SQLITE_ROW loadAlertAssets_row rows ((0, "", ""), alertAssetsMap) in
      ret (true, snd (snd r))
  end.

(** The row of [loadAlertAssetPlayOrderItems]. *)
Definition loadAlertAssetPlayOrderItems_row (row : Row)
    (s : (Z * Z * string) * gmap Z (list AssetOrderItem))
  : M (bool * ((Z * Z * string) * gmap Z (list AssetOrderItem))) :=
  let* locals :=
    foldM (fun c '(alertId, playOrderPosition, playOrderToken) =>
             let columnName := fst c in
             if String.eqb "alert_id" columnName
             then ret (getColumnInt (snd c), playOrderPosition, playOrderToken)
             else if String.eqb "asset_play_order_position" columnName
             then ret (alertId, getColumnInt (snd c), playOrderToken)
             else if String.eqb "asset_play_order_token" columnName
             then let* text := getColumnText (snd c) in ret (alertId, playOrderPosition, text)
             else ret (alertId, playOrderPosition, playOrderToken))
          row (fst s) in
  let '(alertId, playOrderPosition, playOrderToken) := locals in
  let alertAssetOrderItemsMap := snd s in
  ret (true,
       (locals,
        <[alertId := set_insert (mkAssetOrderItem playOrderPosition playOrderToken)
                       (default [] (alertAssetOrderItemsMap !! alertId))]>
          alertAssetOrderItemsMap)).

(** [loadAlertAssetPlayOrderItems]. *)
Definition loadAlertAssetPlayOrderItems (dbHandle : sqlite3_ptr)
    (alertAssetOrderItemsMap : gmap Z (list AssetOrderItem))
  : M (bool * gmap Z (list AssetOrderItem)) :=
  let* statement :=
    SQLiteStatement_new dbHandle (SELECT_ALL_FROM ALERT_ASSET_PLAY_ORDER_ITEMS_TABLE_NAME) in
  if negb (isValid statement) then ret (false, alertAssetOrderItemsMap) else
  let* stepped := step statement in
  match stepped with
  | None => ret (false, alertAssetOrderItemsMap)
  | Some rows =>
      let* r := while_SQLITE_ROW loadAlertAssetPlayOrderItems_row rows
                  ((0, 0, ""), alertAssetOrderItemsMap) in
      ret (true, snd (snd r))
  end.

(** The local variables of [loadHelper] that capture a row; they are
    declared before the loop and live across the rows. *)
Record AlertLocals : Type := mkAlertLocals {
  l_id : Z;
  l_token : string;
  l_type : Z;
  l_state : Z;
  l_scheduledTime_ISO_8601 : string;
  l_loopCount : Z;
  l_loopPauseInMilliseconds : Z;
  l_backgroundAssetId : string }.

(** The dispatch of one column of a row of the alerts table, by its name.
    No branch reads [scheduled_time_unix]. *)
Definition loadHelper_column (c : string * Value) (l : AlertLocals) : M AlertLocals :=
  let columnName := fst c in
  if String.eqb "id" columnName then
    ret (mkAlertLocals (getColumnInt (snd c)) (l_token l) (l_type l) (l_state l)
           (l_scheduledTime_ISO_8601 l) (l_loopCount l) (l_loopPauseInMilliseconds l)
           (l_backgroundAssetId l))
  else if String.eqb "token" columnName then
    let* text := getColumnText (snd c) in
    ret (mkAlertLocals (l_id l) text (l_type l) (l_state l)
           (l_scheduledTime_ISO_8601 l) (l_loopCount l) (l_loopPauseInMilliseconds l)
           (l_backgroundAssetId l))
  else if String.eqb "type" columnName then
    ret (mkAlertLocals (l_id l) (l_token l) (getColumnInt (snd c)) (l_state l)
           (l_scheduledTime_ISO_8601 l) (l_loopCount l) (l_loopPauseInMilliseconds l)
           (l_backgroundAssetId l))
  else if String.eqb "state" columnName then
    ret (mkAlertLocals (l_id l) (l_token l) (l_type l) (getColumnInt (snd c))
           (l_scheduledTime_ISO_8601 l) (l_loopCount l) (l_loopPauseInMilliseconds l)
           (l_backgroundAssetId l))
  else if String.eqb "scheduled_time_iso_8601" columnName then
    let* text := getColumnText (snd c) in
    ret (mkAlertLocals (l_id l) (l_token l) (l_type l) (l_state l)
           text (l_loopCount l) (l_loopPauseInMilliseconds l)
           (l_backgroundAssetId l))
  else if String.eqb "asset_loop_count" columnName then
    ret (mkAlertLocals (l_id l) (l_token l) (l_type l) (l_state l)
           (l_scheduledTime_ISO_8601 l) (getColumnInt (snd c)) (l_loopPauseInMilliseconds l)
           (l_backgroundAssetId l))
  else if String.eqb "asset_loop_pause_milliseconds" columnName then
    ret (mkAlertLocals (l_id l) (l_token l) (l_type l) (l_state l)
           (l_scheduledTime_ISO_8601 l) (l_loopCount l) (getColumnInt (snd c))
           (l_backgroundAssetId l))
  else if String.eqb "background_asset" columnName then
    let* text := getColumnText (snd c) in
    ret (mkAlertLocals (l_id l) (l_token l) (l_type l) (l_state l)
           (l_scheduledTime_ISO_8601 l) (l_loopCount l) (l_loopPauseInMilliseconds l)
           text)
  else ret l.

(** The alert [loadHelper] makes of the captured values; [None] is its
    [return false], for a type or a state that is not a code. *)
Definition loadHelper_alert (l : AlertLocals) : option Alert :=
  variant ←
    (if l_type l =? ALERT_EVENT_TYPE_ALARM then Some Alarm
     else if l_type l =? ALERT_EVENT_TYPE_TIMER then Some Timer
     else if l_type l =? ALERT_EVENT_TYPE_REMINDER then Some Reminder
     else None);
  let alert := new_alert variant in
  let alert := set_dbId (l_id l) alert in
  let alert := set_token (l_token l) alert in
  let alert := setTime_ISO_8601 (l_scheduledTime_ISO_8601 l) alert in
  let alert := setLoopCount (l_loopCount l) alert in
  let alert := setLoopPause (l_loopPauseInMilliseconds l) alert in
  let alert := setBackgroundAssetId (l_backgroundAssetId l) alert in
  state ← dbFieldToAlertState (l_state l);
  Some (set_state state alert).

(** The row of [loadHelper]. *)
Definition loadHelper_row (row : Row) (s : AlertLocals * list Alert)
  : M (bool * (AlertLocals * list Alert)) :=
  let* locals := foldM loadHelper_column row (fst s) in
  match loadHelper_alert locals with
  | None => ret (false, (locals, snd s))
  | Some alert => ret (true, (locals, snd s ++ [alert]))
  end.

(** The last loop of [loadHelper] on one alert of the container. *)
Definition loadHelper_attach (alertAssetsMap : gmap Z (list Asset))
    (alertAssetOrderItemsMap : gmap Z (list AssetOrderItem)) (alert : Alert) : Alert :=
  let alert :=
    match alertAssetsMap !! m_dbId alert with
    | Some l => fold_left (fun a mapEntry => assets_assign (Asset_id mapEntry) mapEntry a) l alert
    | None => alert
    end in
  match alertAssetOrderItemsMap !! m_dbId alert with
  | Some l => fold_left (fun a mapEntry => assetPlayOrderItems_push_back (name mapEntry) a) l alert
  | None => alert
  end.

(** [SQLiteAlertStorage::loadHelper]; the container is the one the caller
    passes, as the list of the alerts that its pointers refer to, one
    object at each position: a container that holds one object at two
    positions is not described.  The alerts that the rows give are new
    objects. *)
Definition loadHelper (dbVersion : Z) (alertContainer : list Alert) : M (bool * list Alert) :=
  let* dbHandle := get_dbHandle in
  if negb (is_some dbHandle) then ret (false, alertContainer) else
  if negb (dbVersion =? ALERTS_DATABASE_VERSION_ONE)
     && negb (dbVersion =? ALERTS_DATABASE_VERSION_TWO)
  then ret (false, alertContainer) else
  let alertsTableName :=
    if ALERTS_DATABASE_VERSION_TWO =? dbVersion then ALERTS_V2_TABLE_NAME
    else ALERTS_TABLE_NAME in
  let* statement := SQLiteStatement_new dbHandle (SELECT_ALL_FROM alertsTableName) in
  if negb (isValid statement) then ret (false, alertContainer) else
  let* stepped := step statement in
  match stepped with
  | None => ret (false, alertContainer)
  | Some rows =>
      let* r := while_SQLITE_ROW loadHelper_row rows
                  (mkAlertLocals 0 "" 0 0 "" 0 0 "", alertContainer) in
      let alertContainer := snd (snd r) in
      if negb (fst r) then ret (false, alertContainer) else
      let* assetsLoaded := loadAlertAssets dbHandle ∅ in
      if negb (fst assetsLoaded) then ret (false, alertContainer) else
      let* itemsLoaded := loadAlertAssetPlayOrderItems dbHandle ∅ in
      if negb (fst itemsLoaded) then ret (false, alertContainer) else
      ret (true, map (loadHelper_attach (snd assetsLoaded) (snd itemsLoaded)) alertContainer)
  end.

(** [SQLiteAlertStorage::load]. *)
Definition load (alertContainer : list Alert) : M (bool * list Alert) :=
  loadHelper ALERTS_DATABASE_VERSION_TWO alertContainer.

(** [SQLiteAlertStorage::modify]. *)
Definition modify (alert : Alert) : M bool :=
  let* dbHandle := get_dbHandle in
  if negb (is_some dbHandle) then ret false else
  let* present := alertExists (m_token alert) in
  if negb present then ret false else
  match alertStateToDbField (m_state alert) with
  | None => ret false
  | Some alertState =>
      let* statement := SQLiteStatement_new dbHandle UPDATE_ALERTS_V2_WHERE_ID in
      if negb (isValid statement) then ret false else
      let iso8601 := getScheduledTime_ISO_8601 alert in
      let* bound :=
        bindIntParameter 1 alertState statement
        >>? bindInt64Parameter 2 (getScheduledTime_Unix alert)
        >>? bindStringParameter 3 iso8601
        >>? bindIntParameter 4 (m_dbId alert) in
      match bound with
      | None => ret false
      | Some statement =>
          let* stepped := step statement in
          ret (is_some stepped)
      end
  end.

(** The three deletions have one shape: [eraseAlert], [eraseAlertAssets]
    and [eraseAlertAssetPlayOrderItems] differ in their SQL string. *)
Definition erase_where (sqlString : Sql) (dbHandle : sqlite3_ptr) (alertId : Z) : M bool :=
  let* statement := SQLiteStatement_new dbHandle sqlString in
  if negb (isValid statement) then ret false else
  let* bound := bindIntParameter 1 alertId statement in
  match bound with
  | None => ret false
  | Some statement =>
      let* stepped := step statement in
      ret (is_some stepped)
  end.

Definition eraseAlert : sqlite3_ptr -> Z -> M bool :=
  erase_where DELETE_FROM_ALERTS_V2_WHERE_ID.

Definition eraseAlertAssets : sqlite3_ptr -> Z -> M bool :=
  erase_where DELETE_FROM_ALERT_ASSETS_WHERE_ALERT_ID.

Definition eraseAlertAssetPlayOrderItems : sqlite3_ptr -> Z -> M bool :=
  erase_where DELETE_FROM_ALERT_ASSET_PLAY_ORDER_ITEMS_WHERE_ALERT_ID.

(** [eraseAlertByAlertId]. *)
Definition eraseAlertByAlertId (dbHandle : sqlite3_ptr) (alertId : Z) : M bool :=
  if negb (is_some dbHandle) then ret false else
  let* erased := eraseAlert dbHandle alertId in
  if negb erased then ret false else
  let* erased := eraseAlertAssets dbHandle alertId in
  if negb erased then ret false else
  let* erased := eraseAlertAssetPlayOrderItems dbHandle alertId in
  if negb erased then ret false else
  ret true.

(** [SQLiteAlertStorage::erase(std::shared_ptr<Alert>)]. *)
Definition erase (alert : Alert) : M bool :=
  let* dbHandle := get_dbHandle in
  if negb (is_some dbHandle) then ret false else
  let* present := alertExists (m_token alert) in
  if negb present then ret false else
  eraseAlertByAlertId dbHandle (m_dbId alert).

(** The loop of [erase(const std::vector<int>&)]. *)
Fixpoint erase_ids_loop (dbHandle : sqlite3_ptr) (alertDbIds : list Z) : M bool :=
  match alertDbIds with
  | [] => ret true
  | id :: rest =>
      let* present := alertExistsByAlertId dbHandle id in
      if negb present then ret false else
      let* erased := eraseAlertByAlertId dbHandle id in
      if negb erased then ret false else
      erase_ids_loop dbHandle rest
  end.

(** [SQLiteAlertStorage::erase(const std::vector<int>&)]. *)
Definition erase_ids (alertDbIds : list Z) : M bool :=
  let* dbHandle := get_dbHandle in
  if negb (is_some dbHandle) then ret false else
  erase_ids_loop dbHandle alertDbIds.

(** [SQLiteAlertStorage::clearDatabase]. *)
Definition clearDatabase : M bool :=
  let* dbHandle := get_dbHandle in
  let* cleared := clearTable dbHandle ALERTS_V2_TABLE_NAME in
  if negb cleared then ret false else
  let* cleared := clearTable dbHandle ALERT_ASSETS_TABLE_NAME in
  if negb cleared then ret false else
  let* cleared := clearTable dbHandle ALERT_ASSET_PLAY_ORDER_ITEMS_TABLE_NAME in
  if negb cleared then ret false else
  ret true.

(** The loop of the migration that stores the alerts of the container. *)
Fixpoint migrate_store_loop (alertContainer : list Alert) : M bool :=
  match alertContainer with
  | [] => ret true
  | alert :: rest =>
      let* stored := store alert in
      if negb (fst stored) then ret false else migrate_store_loop rest
  end.

(** [SQLiteAlertStorage::migrateAlertsDbFromV1ToV2]. *)
Definition migrateAlertsDbFromV1ToV2 : M bool :=
  let* dbHandle := get_dbHandle in
  let* present := tableExists dbHandle ALERTS_V2_TABLE_NAME in
  if present then ret true else
  let* created := createAlertsTable dbHandle in
  if negb created then ret false else
  let* present := tableExists dbHandle ALERT_ASSETS_TABLE_NAME in
  let* created := (if negb present then createAlertAssetsTable dbHandle else ret true) in
  if negb created then ret false else
  let* present := tableExists dbHandle ALERT_ASSET_PLAY_ORDER_ITEMS_TABLE_NAME in
  let* created :=
    (if negb present then createAlertAssetPlayOrderItemsTable dbHandle else ret true) in
  if negb created then ret false else
  let* present := tableExists dbHandle ALERTS_TABLE_NAME in
  if present then
    let* loaded := loadHelper ALERTS_DATABASE_VERSION_ONE [] in
    if negb (fst loaded) then ret false else
    let* stored := migrate_store_loop (snd loaded) in
    if negb stored then ret false else
    let* dropped := dropTable dbHandle ALERTS_TABLE_NAME in
    if negb dropped then ret false else
    ret true
  else ret true.

(** [SQLiteAlertStorage::open]. *)
Definition open (filePath : string) : M bool :=
  let* dbHandle := get_dbHandle in
  if is_some dbHandle then ret false else
  let* present := fileExists filePath in
  if negb present then ret false else
  let* dbHandle := openSQLiteDatabase filePath in
  let* _ := set_dbHandle dbHandle in
  if negb (is_some dbHandle) then ret false else
  let* migrated := migrateAlertsDbFromV1ToV2 in
  if negb migrated then let* _ := close in ret false else
  ret true.

(** [SQLiteAlertStorage::SQLiteAlertStorage]: the storage object as it is
    constructed, with a null handle, beside the files [fs] and the coming
    outcomes [fl] of the engine. *)
Definition SQLiteAlertStorage_new (fs : gmap string Database) (fl : list bool) : System :=
  mkSystem None fs fl.

(** *** Diagnostics *)

(** [AlertStorageInterface::StatLevel]. *)
Inductive StatLevel : Type := ONE_LINE | ALERTS_SUMMARY | EVERYTHING.

(** Modelled from the spec: [getNumberTableRows] of [SQLiteUtils], which
    "counts the rows" of a table into an [int]. *)
Definition getNumberTableRows (dbHandle : sqlite3_ptr) (tableName : TableName)
  : M (option Z) :=
  engine_do dbHandle
    (fun db => ids ← table_ids db tableName; Some (int_of (Z.of_nat (length ids)), db)).

(** Modelled from the spec: [Alert::printDiagnostic], by which an alert
    prints "its own summary"; the lines it prints. *)
Variable printDiagnostic : Alert -> list string.

(** [printOneLineSummary].  The diagnostics return nothing and write to the
    log; their result here is the lines they log at the level of
    information, the error lines being left out as everywhere. *)
Definition printOneLineSummary (dbHandle : sqlite3_ptr) : M (list string) :=
  let* numberAlerts := getNumberTableRows dbHandle ALERTS_V2_TABLE_NAME in
  match numberAlerts with
  | None => ret []
  | Some numberAlerts =>
      ret [String.append "ONE-LINE-STAT: Number of alerts:" (string_of_Z numberAlerts)]
  end.

(** [printAlertsSummary]; no statement reads [shouldPrintEverything]. *)
Definition printAlertsSummary (dbHandle : sqlite3_ptr) (alerts : list Alert)
    (shouldPrintEverything : bool) : M (list string) :=
  let* summary := printOneLineSummary dbHandle in
  ret (summary ++ concat (map printDiagnostic alerts)).

(** [SQLiteAlertStorage::printStats]; the result of [load] is not checked. *)
Definition printStats (level : StatLevel) : M (list string) :=
  let* loaded := load [] in
  let alerts := snd loaded in
  let* dbHandle := get_dbHandle in
  match level with
  | ONE_LINE => printOneLineSummary dbHandle
  | ALERTS_SUMMARY => printAlertsSummary dbHandle alerts false
  | EVERYTHING => printAlertsSummary dbHandle alerts true
  end.

(** ** States and pure descriptions used in the statements *)

(** The state of a storage that is open on the file [h], which holds the
    database [db]; [fs] are the other files and [fl] the coming faults. *)
Definition sys (h : string) (db : Database) (fs : gmap string Database) (fl : list bool)
  : System :=
  mkSystem (Some h) (<[h := db]> fs) fl.

(** The state of a storage that is not open, beside the file [h]. *)
Definition closed_sys (h : string) (db : Database) (fs : gmap string Database)
    (fl : list bool) : System :=
  mkSystem None (<[h := db]> fs) fl.

Definition next_ok (fl : list bool) : bool :=
  match fl with [] => true | fault :: _ => negb fault end.

(** A database with the three tables of version two. *)
Definition v2db (la : option LegacyAlerts) (rows : list AlertRow) (arows : list AssetRow)
    (irows : list PlayOrderRow) : Database :=
  mkDatabase la (Some rows) (Some arows) (Some irows).

Definition count_token (rows : list AlertRow) (token : string) : Z :=
  Z.of_nat (length (filter (fun r => col_token r = token) rows)).

Definition count_id (rows : list AlertRow) (id : Z) : Z :=
  Z.of_nat (length (filter (fun r => col_id r = id) rows)).

(** The id the next row of a table gets. *)
Definition next_id (ids : list Z) : Z := int_of (max_of ids + 1).

Definition type_code (v : AlertVariant) : Z :=
  match v with
  | Alarm => ALERT_EVENT_TYPE_ALARM
  | Timer => ALERT_EVENT_TYPE_TIMER
  | Reminder => ALERT_EVENT_TYPE_REMINDER
  end.

Definition state_code (s : State) : Z := default 0 (alertStateToDbField s).

(** The row [store] inserts for an alert. *)
Definition alert_row (id : Z) (a : Alert) : AlertRow :=
  mkAlertRow id (m_token a) (type_code (variant a)) (state_code (m_state a))
    (m_scheduledTime_Unix a) (m_scheduledTime_ISO_8601 a) (m_loopCount a)
    (int_of (m_loopPause a)) (backgroundAssetId (m_assetConfiguration a)).

(** The rows [storeAlertAssets] inserts. *)
Fixpoint asset_rows (alertId : Z) (l : list (string * Asset)) (id : Z) : list AssetRow :=
  match l with
  | [] => []
  | e :: rest =>
      mkAssetRow id alertId (Asset_id (snd e)) (Asset_url (snd e))
      :: asset_rows alertId rest (int_of (id + 1))
  end.

(** The rows [storeAlertAssetPlayOrderItems] inserts. *)
Fixpoint play_order_rows (alertId : Z) (l : list string) (id itemIndex : Z)
  : list PlayOrderRow :=
  match l with
  | [] => []
  | assetId :: rest =>
      mkPlayOrderRow id alertId itemIndex assetId
      :: play_order_rows alertId rest (int_of (id + 1)) (int_of (itemIndex + 1))
  end.

(** The row after the [UPDATE] of [modify] for the alert [a]. *)
Definition modify_row (a : Alert) (r : AlertRow) : AlertRow :=
  if bool_decide (col_id r = m_dbId a)
  then mkAlertRow (col_id r) (col_token r) (col_type r) (state_code (m_state a))
         (m_scheduledTime_Unix a) (m_scheduledTime_ISO_8601 a) (col_asset_loop_count r)
         (col_asset_loop_pause_milliseconds r) (col_background_asset r)
  else r.

(** The tables after the three [DELETE] statements for an alert id. *)
Definition erased_rows (id : Z) (rows : list AlertRow) : list AlertRow :=
  filter (fun r => col_id r ≠ id) rows.
Definition erased_assets (id : Z) (arows : list AssetRow) : list AssetRow :=
  filter (fun r => asset_col_alert_id r ≠ id) arows.
Definition erased_items (id : Z) (irows : list PlayOrderRow) : list PlayOrderRow :=
  filter (fun r => item_col_alert_id r ≠ id) irows.

(** The greatest id of a list of rows, zero when there is none. *)
Definition current_max (ids : list Z) : Z :=
  match ids with
  | [] => 0
  | x :: l => fold_left Z.max l x
  end.

(** A table with the ids [ids] has room for [n] more rows: the ids that
    are allocated for them lie above the ids it holds, within [int]. *)
Definition room (ids : list Z) (n : nat) : Prop :=
  n = 0%nat \/ (Forall is_int ids /\ current_max ids + Z.of_nat n <= INT_MAX).

(** The calls of the repository contract, to state properties of sequences
    of calls. *)
Inductive Call : Type :=
| CallStore (alert : Alert)
| CallModify (alert : Alert)
| CallLoad
| CallErase (alert : Alert)
| CallEraseIds (alertDbIds : list Z)
| CallClearDatabase.

Definition is_deletion (c : Call) : bool :=
  match c with
  | CallErase _ | CallEraseIds _ | CallClearDatabase => true
  | CallStore _ | CallModify _ | CallLoad => false
  end.

(** Runs the calls in sequence and collects the ids that the stores which
    succeeded wrote into their alerts. *)
Fixpoint run_calls (calls : list Call) : M (list Z) :=
  match calls with
  | [] => ret []
  | c :: rest =>
      match c with
      | CallStore alert =>
          let* r := store alert in
          let* ids := run_calls rest in
          ret (if fst r then m_dbId (snd r) :: ids else ids)
      | CallModify alert => let* _ := modify alert in run_calls rest
      | CallLoad => let* _ := load [] in run_calls rest
      | CallErase alert => let* _ := erase alert in run_calls rest
      | CallEraseIds alertDbIds => let* _ := erase_ids alertDbIds in run_calls rest
      | CallClearDatabase => let* _ := clearDatabase in run_calls rest
      end
  end.

(** *** The load path as pure functions *)

(** The loop [while_SQLITE_ROW] when neither the body nor the steps fail. *)
Fixpoint while_pure {S R : Type} (body : R -> S -> bool * S) (rows : list R) (s : S)
  : bool * S :=
  match rows with
  | [] => (true, s)
  | r :: rest =>
      let '(continue, s') := body r s in
      if negb continue then (false, s') else while_pure body rest s'
  end.

(** The local variables of [loadHelper] after the columns of the row [r]:
    a column that the table lacks leaves its variable as it was. *)
Definition alert_locals (with_background_asset : bool) (r : AlertRow) (l : AlertLocals)
  : AlertLocals :=
  mkAlertLocals (int_of (col_id r)) (col_token r) (int_of (col_type r))
    (int_of (col_state r)) (col_scheduled_time_iso_8601 r)
    (int_of (col_asset_loop_count r)) (int_of (col_asset_loop_pause_milliseconds r))
    (if with_background_asset then col_background_asset r else l_backgroundAssetId l).

Definition loadHelper_row_pure (with_background_asset : bool) (r : AlertRow)
    (s : AlertLocals * list Alert) : bool * (AlertLocals * list Alert) :=
  let locals := alert_locals with_background_asset r (fst s) in
  match loadHelper_alert locals with
  | None => (false, (locals, snd s))
  | Some alert => (true, (locals, snd s ++ [alert]))
  end.

Definition loadAlertAssets_row_pure (r : AssetRow)
    (s : (Z * string * string) * gmap Z (list Asset))
  : bool * ((Z * string * string) * gmap Z (list Asset)) :=
  let alertId := int_of (asset_col_alert_id r) in
  (true,
   ((alertId, asset_col_avs_id r, asset_col_url r),
    <[alertId := default [] (snd s !! alertId)
                 ++ [mkAsset (asset_col_avs_id r) (asset_col_url r)]]> (snd s))).

Definition loadAlertAssetPlayOrderItems_row_pure (r : PlayOrderRow)
    (s : (Z * Z * string) * gmap Z (list AssetOrderItem))
  : bool * ((Z * Z * string) * gmap Z (list AssetOrderItem)) :=
  let alertId := int_of (item_col_alert_id r) in
  let item := mkAssetOrderItem (int_of (item_col_asset_play_order_position r))
                (item_col_asset_play_order_token r) in
  (true,
   ((alertId, index item, name item),
    <[alertId := set_insert item (default [] (snd s !! alertId))]> (snd s))).

(** The maps [alertAssetsMap] and [alertAssetOrderItemsMap] of [loadHelper]
    for the rows of the two tables. *)
Definition assets_map (arows : list AssetRow) : gmap Z (list Asset) :=
  snd (snd (while_pure loadAlertAssets_row_pure arows ((0, "", ""), ∅))).

Definition items_map (irows : list PlayOrderRow) : gmap Z (list AssetOrderItem) :=
  snd (snd (while_pure loadAlertAssetPlayOrderItems_row_pure irows ((0, 0, ""), ∅))).

(** The alert [loadHelper] makes of a row. *)
Definition decode_row (with_background_asset : bool) (r : AlertRow) : option Alert :=
  loadHelper_alert
    (alert_locals with_background_asset r (mkAlertLocals 0 "" 0 0 "" 0 0 "")).

(** The item [loadAlertAssetPlayOrderItems] makes of a row, and the alert it
    belongs to. *)
Definition item_of (r : PlayOrderRow) : AssetOrderItem :=
  mkAssetOrderItem (int_of (item_col_asset_play_order_position r))
    (item_col_asset_play_order_token r).

Definition asset_of (r : AssetRow) : Asset :=
  mkAsset (asset_col_avs_id r) (asset_col_url r).

Definition items_of_alert (id : Z) (irows : list PlayOrderRow) : list PlayOrderRow :=
  filter (fun r => int_of (item_col_alert_id r) = id) irows.

Definition assets_of_alert (id : Z) (arows : list AssetRow) : list AssetRow :=
  filter (fun r => int_of (asset_col_alert_id r) = id) arows.

(** The order of [AssetOrderItemCompare]. *)
Definition index_lt (x y : AssetOrderItem) : Prop := index x < index y.

(** The outcomes of the engine calls of [alertExists] in which one call
    fails: the creation of the statement, the binding of the token, the
    step, and the conversion of the count to the text that [stringToInt]
    reads. *)
Definition existence_query_faults : list (list bool) :=
  [ [true]; [false; true]; [false; false; true]; [false; false; false; true] ].


(** A row whose [type] and [state], as the load reads them, are codes of
    the codec. *)
Definition valid_codes (r : AlertRow) : Prop :=
  1 <= int_of (col_type r) <= 3 /\ 1 <= int_of (col_state r) <= 10.

(** What the migration makes of a row [r] of the legacy table: the row [r']
    of [alerts_v2]. *)
Definition migrated (with_background_asset : bool) (convert : string -> option Z)
    (r r' : AlertRow) : Prop :=
  col_token r' = col_token r /\
  col_type r' = int_of (col_type r) /\
  col_state r' = int_of (col_state r) /\
  col_asset_loop_count r' = int_of (col_asset_loop_count r) /\
  col_asset_loop_pause_milliseconds r' = int_of (col_asset_loop_pause_milliseconds r) /\
  col_background_asset r' = (if with_background_asset then col_background_asset r else "") /\
  match convert (col_scheduled_time_iso_8601 r) with
  | Some unixTime =>
      col_scheduled_time_iso_8601 r' = col_scheduled_time_iso_8601 r /\
      col_scheduled_time_unix r' = unixTime
  | None => col_scheduled_time_iso_8601 r' = "" /\ col_scheduled_time_unix r' = 0
  end.

(** ** A worked scenario

    The alert, the times and the file of the end-to-end scenarios of the
    spec, used to run the theorems on concrete inputs. *)

Definition example_convert (s : string) : option Z :=
  if String.eqb s "2023-11-14T22:13:20Z" then Some 1700000000
  else if String.eqb s "2023-11-14T22:23:20Z" then Some 1700000600
  else None.

Definition example_path : string := "alerts.db".

Definition example_alert : Alert :=
  mkAlert Alarm 0 "t1" SET 1700000000 "2023-11-14T22:13:20Z" 3 500
    (mkAssetConfiguration
       (<["a1" := mkAsset "a1" "u1"]> (<["a2" := mkAsset "a2" "u2"]> ∅))
       ["a1"; "a2"; "a1"] "a1").

Definition example_timer : Alert :=
  mkAlert Timer 0 "t2" SET 1700000600 "2023-11-14T22:23:20Z" 0 0
    (mkAssetConfiguration (<["b1" := mkAsset "b1" "v1"]> ∅) ["b1"] "b1").

Definition example_reminder : Alert :=
  mkAlert Reminder 0 "t3" SET 1700000000 "2023-11-14T22:13:20Z" 1 0
    (mkAssetConfiguration ∅ [] "").

(** An alarm without assets. *)
Definition example_plain_alarm : Alert :=
  mkAlert Alarm 0 "t0" SET 1700000000 "2023-11-14T22:13:20Z" 0 0
    (mkAssetConfiguration ∅ [] "").

(** A diagnostic that prints the token of the alert. *)
Definition example_printDiagnostic (a : Alert) : list string := [m_token a].

(** A row whose type is not a code. *)
Definition example_invalid_row : AlertRow :=
  mkAlertRow 2 "t9" 7 2 1700000000 "2023-11-14T22:13:20Z" 0 0 "".

(** The storage open on a database as [createDatabase] leaves it. *)
Definition example_created : System := sys example_path (v2db None [] [] []) ∅ [].

(** The storage after the three alerts are stored. *)
Definition example_stored : System :=
  snd (store example_reminder (snd (store example_timer (snd (store example_alert
                                                               example_created))))).

(** The storage open on a database as [createDatabase] leaves it, on an
    engine whose seventeenth call fails. *)
Definition example_failing_query : System :=
  sys example_path (v2db None [] [] []) ∅ (replicate 16 false ++ [true]).

(** A database in which an asset row and a play-order row refer to an alert
    that [alerts_v2] no longer holds, as an [erase] that failed half-way
    leaves it. *)
Definition example_orphan_database : Database :=
  v2db None [alert_row 1 example_plain_alarm]
    [mkAssetRow 1 2 "b1" "v1"] [mkPlayOrderRow 1 2 1 "b1"].

(** A legacy table in which two rows carry one token. *)
Definition example_legacy_row (id : Z) (token : string) : AlertRow :=
  mkAlertRow id token 1 2 1700000000 "2023-11-14T22:13:20Z" 0 0 "".

Definition example_legacy_database (rows : list AlertRow) : Database :=
  mkDatabase (Some (mkLegacyAlerts true rows)) None None None.

(** The three tables after the three alerts are stored. *)
Definition example_rows : list AlertRow :=
  [ alert_row 1 example_alert; alert_row 2 example_timer; alert_row 3 example_reminder ].

Definition example_asset_rows : list AssetRow :=
  [ mkAssetRow 1 1 "a1" "u1"; mkAssetRow 2 1 "a2" "u2"; mkAssetRow 3 2 "b1" "v1" ].

Definition example_item_rows : list PlayOrderRow :=
  [ mkPlayOrderRow 1 1 1 "a1"; mkPlayOrderRow 2 1 2 "a2"; mkPlayOrderRow 3 1 3 "a1";
    mkPlayOrderRow 4 2 1 "b1" ].

(** The alert of the scenario as the caller modifies it. *)
Definition example_modified : Alert :=
  mkAlert Alarm 1 "t1" ACTIVE 1700000600 "2023-11-14T22:23:20Z" 3 500
    (m_assetConfiguration example_alert).

(** Play-order rows that the engine returns out of their order. *)
Definition example_shuffled_item_rows : list PlayOrderRow :=
  [ mkPlayOrderRow 3 1 3 "a1"; mkPlayOrderRow 4 2 1 "b1"; mkPlayOrderRow 1 1 1 "a1";
    mkPlayOrderRow 2 1 2 "a2" ].

(** Two play-order rows of the alert of id 1 whose positions differ by
    [2^32]. *)
Definition example_wide_item_rows : list PlayOrderRow :=
  [ mkPlayOrderRow 1 1 1 "a"; mkPlayOrderRow 2 1 4294967297 "b" ].

(** What [modify] of the alert [a] makes of a row [r] of [alerts_v2]: the
    row [r'].  The columns [id], [token], [type], [asset_loop_count],
    [asset_loop_pause_milliseconds] and [background_asset] are those of [r];
    a row of another id is unchanged; a row of the id of the alert takes
    its state and its two scheduled times. *)
Definition modified_by (a : Alert) (r r' : AlertRow) : Prop :=
  col_id r' = col_id r /\
  col_token r' = col_token r /\
  col_type r' = col_type r /\
  col_asset_loop_count r' = col_asset_loop_count r /\
  col_asset_loop_pause_milliseconds r' = col_asset_loop_pause_milliseconds r /\
  col_background_asset r' = col_background_asset r /\
  (col_id r <> m_dbId a -> r' = r) /\
  (col_id r = m_dbId a ->
   alertStateToDbField (m_state a) = Some (col_state r') /\
   col_scheduled_time_unix r' = getScheduledTime_Unix a /\
   col_scheduled_time_iso_8601 r' = getScheduledTime_ISO_8601 a).

(** ** Descriptions used in the further properties *)

(** A computation that only reads: it leaves the files and the handle of
    the storage as they are, and a working engine working. *)
Definition read_only {A : Type} (m : M A) : Prop :=
  forall s,
    files (snd (m s)) = files s /\
    m_dbHandle (snd (m s)) = m_dbHandle s /\
    (faults s = [] -> faults (snd (m s)) = []).

(** The statements that only read. *)
Definition is_select (sql : Sql) : bool :=
  match sql with
  | SELECT_COUNT_FROM_ALERTS_V2_WHERE_ID
  | SELECT_COUNT_FROM_ALERTS_V2_WHERE_TOKEN
  | SELECT_ALL_FROM _ => true
  | _ => false
  end.

(** Every row of the two child tables refers to a row of [alerts_v2]. *)
Definition no_orphans (rows : list AlertRow) (arows : list AssetRow)
    (irows : list PlayOrderRow) : Prop :=
  Forall (fun x => asset_col_alert_id x ∈ map col_id rows) arows /\
  Forall (fun x => item_col_alert_id x ∈ map col_id rows) irows.

(** A call whose failure leaves the files and the handle as they were. *)
Definition fails_without_effect (m : M bool) : Prop :=
  forall s s',
    m s = (false, s') -> files s' = files s /\ m_dbHandle s' = m_dbHandle s.

(** The alert [x] as it is loaded after [modify] of the alert [a]: with the
    state and the scheduled times of [a] when it has the id of [a]. *)
Definition modified_alert (a x : Alert) : Alert :=
  if bool_decide (m_dbId x = m_dbId a)
  then mkAlert (variant x) (m_dbId x) (m_token x) (m_state a) (m_scheduledTime_Unix a)
         (m_scheduledTime_ISO_8601 a) (m_loopCount x) (m_loopPause x)
         (m_assetConfiguration x)
  else x.

(** * Proofs *)

(** ** Running the monad on the states [sys] *)

Lemma engine_call_sys h db fs fl :
  engine_call (sys h db fs fl) = (next_ok fl, sys h db fs (tl fl)).
Proof. destruct fl; reflexivity. Qed.

Lemma engine_do_sys {A : Type} h (f : Database -> option (A * Database)) db fs fl :
  engine_do (Some h) f (sys h db fs fl) =
  if next_ok fl then
    match f db with
    | Some (a, db') => (Some a, sys h db' fs (tl fl))
    | None => (None, sys h db fs (tl fl))
    end
  else (None, sys h db fs (tl fl)).
Proof.
  unfold engine_do, bind. rewrite engine_call_sys.
  destruct (next_ok fl); cbn [negb]; [|reflexivity].
  unfold sys at 1. cbn [files m_dbHandle faults]. rewrite lookup_insert_eq.
  destruct (f db) as [[a db']|]; [|reflexivity].
  unfold sys. cbn [files m_dbHandle faults]. by rewrite insert_insert_eq.
Qed.

Lemma get_dbHandle_sys h db fs fl : get_dbHandle (sys h db fs fl) = (Some h, sys h db fs fl).
Proof. reflexivity. Qed.

Lemma m_dbHandle_sys h db fs fl : m_dbHandle (sys h db fs fl) = Some h.
Proof. reflexivity. Qed.

Lemma faults_sys h db fs fl : faults (sys h db fs fl) = fl.
Proof. reflexivity. Qed.

Lemma files_sys h db fs fl : files (sys h db fs fl) !! h = Some db.
Proof. apply lookup_insert_eq. Qed.

(** A state in which the storage is open on a file that exists. *)
Lemma sys_of_state s h db :
  m_dbHandle s = Some h -> files s !! h = Some db -> s = sys h db (files s) (faults s).
Proof.
  destruct s as [hd fs fl]. cbn. intros -> Hdb. unfold sys. by rewrite insert_id.
Qed.

Lemma stringToInt_string_of_Z z : stringToInt (string_of_Z z) = Some z.
Proof.
  unfold stringToInt, string_of_Z.
  rewrite NilZero.isi.
  - cbn. by rewrite DecimalZ.of_to.
  - destruct z; cbn; try discriminate.
    intros [= H]. revert H. apply DecimalPos.Unsigned.to_uint_nonnil.
  - destruct z; cbn; try discriminate.
    intros [= H]. revert H. apply DecimalPos.Unsigned.to_uint_nonnil.
Qed.

Lemma stringToInt_empty : stringToInt "" = None.
Proof. reflexivity. Qed.

#[global] Opaque sys.
Arguments engine_do : simpl never.
Arguments engine_call : simpl never.
Arguments get_dbHandle : simpl never.
Arguments string_of_Z : simpl never.
Arguments stringToInt : simpl never.
Arguments int_of : simpl never.
Arguments max_of : simpl never.
Arguments next_id : simpl never.
Arguments holds_id : simpl never.
Arguments state_code : simpl never.
Arguments type_code : simpl never.

(** Symbolic execution: unfold the monad, run the engine calls on the state
    at hand, and compute. *)
Ltac mrun :=
  repeat (progress (cbn; unfold bind, ret, and_then;
                    rewrite ?m_dbHandle_sys, ?get_dbHandle_sys, ?engine_call_sys,
                      ?engine_do_sys;
                    unfold set_alerts, set_alerts_v2, set_alertAssets,
                      set_alertAssetPlayOrderItems; cbn)).

(** Case analysis on the outcomes of the engine calls that come next, and
    on the primary keys. *)
Ltac engine_cases :=
  repeat (mrun; try (intros; discriminate);
          match goal with
          | |- context [next_ok ?fl] => destruct (next_ok fl)
          | |- context [holds_id ?ids ?id] => destruct (holds_id ids id) eqn:?
          end);
  mrun; try (intros; discriminate).

(** ** Integers *)

Lemma int_of_is_int z : is_int (int_of z).
Proof.
  unfold is_int, int_of, INT_MIN, INT_MAX.
  pose proof (Z.mod_pos_bound (z + 2147483648) 4294967296). lia.
Qed.

Lemma int_of_int z : is_int z -> int_of z = z.
Proof.
  unfold is_int, int_of, INT_MIN, INT_MAX. intros H.
  rewrite Z.mod_small; lia.
Qed.

Lemma fold_max_ge l : forall x, x <= fold_left Z.max l x.
Proof.
  induction l as [|y l IH]; intros x; cbn; [lia|].
  specialize (IH (Z.max x y)). lia.
Qed.

Lemma fold_max_elem l : forall x y, y ∈ l -> y <= fold_left Z.max l x.
Proof.
  induction l as [|z l IH]; intros x y Hy; [inversion Hy|].
  cbn. apply elem_of_cons in Hy as [->|Hy].
  - pose proof (fold_max_ge l (Z.max x z)). lia.
  - by apply IH.
Qed.

Lemma fold_max_is_int l : forall x, is_int x -> Forall is_int l -> is_int (fold_left Z.max l x).
Proof.
  induction l as [|y l IH]; intros x Hx Hl; cbn; [done|].
  apply Forall_cons in Hl as [Hy Hl]. apply IH; [|done].
  unfold is_int in *. lia.
Qed.

Lemma fold_max_snoc l : forall x y, fold_left Z.max (l ++ [y]) x = Z.max (fold_left Z.max l x) y.
Proof. intros x y. by rewrite fold_left_app. Qed.

Lemma current_max_ge ids x : x ∈ ids -> x <= current_max ids.
Proof.
  destruct ids as [|y l]; [inversion 1|]. cbn.
  intros [->|Hx]%elem_of_cons; [apply fold_max_ge | by apply fold_max_elem].
Qed.

Lemma current_max_is_int ids : Forall is_int ids -> is_int (current_max ids).
Proof.
  destruct ids as [|y l]; cbn.
  - intros _. unfold is_int, INT_MIN, INT_MAX. lia.
  - intros [Hy Hl]%Forall_cons. by apply fold_max_is_int.
Qed.

Lemma max_of_current_max ids : Forall is_int ids -> max_of ids = current_max ids.
Proof.
  intros H. pose proof (current_max_is_int ids H) as Hm.
  destruct ids as [|y l]; [reflexivity|].
  unfold max_of. by apply int_of_int.
Qed.

Lemma next_id_current_max ids :
  Forall is_int ids -> current_max ids < INT_MAX -> next_id ids = current_max ids + 1.
Proof.
  intros H Hlt. unfold next_id. rewrite (max_of_current_max ids H).
  apply int_of_int. pose proof (current_max_is_int ids H). unfold is_int in *. lia.
Qed.

Lemma current_max_snoc ids x : current_max ids < x -> current_max (ids ++ [x]) = x.
Proof.
  destruct ids as [|y l]; cbn; [done|].
  intros H. rewrite fold_max_snoc. lia.
Qed.

(** ** [alertExists] and [alertExistsByAlertId] on a working engine *)

Lemma alertExists_healthy h la rows arows irows fs token :
  alertExists token (sys h (mkDatabase la (Some rows) arows irows) fs []) =
  (0 <? count_token rows token, sys h (mkDatabase la (Some rows) arows irows) fs []).
Proof.
  unfold alertExists, SQLiteStatement_new, bindStringParameter, bindParameter, step.
  mrun. by rewrite stringToInt_string_of_Z.
Qed.

Lemma alertExistsByAlertId_healthy h la rows arows irows fs id :
  alertExistsByAlertId (Some h) id (sys h (mkDatabase la (Some rows) arows irows) fs []) =
  (0 <? count_id rows id, sys h (mkDatabase la (Some rows) arows irows) fs []).
Proof.
  unfold alertExistsByAlertId, SQLiteStatement_new, bindIntParameter, bindParameter, step.
  mrun. by rewrite stringToInt_string_of_Z.
Qed.

Lemma count_token_pos rows token :
  (0 <? count_token rows token) = true <-> exists r, r ∈ rows /\ col_token r = token.
Proof.
  unfold count_token. rewrite Z.ltb_lt.
  split.
  - intros H. destruct (filter _ rows) as [|r l] eqn:E; [cbn in H; lia|].
    assert (r ∈ filter (fun r => col_token r = token) rows) as Hin by (rewrite E; left).
    apply list_elem_of_filter in Hin as [? ?]. eauto.
  - intros (r & Hr & Ht).
    assert (r ∈ filter (fun r => col_token r = token) rows) as Hin
        by (by apply list_elem_of_filter).
    destruct (filter _ rows); [inversion Hin | cbn; lia].
Qed.

Lemma count_id_pos rows id :
  (0 <? count_id rows id) = true <-> exists r, r ∈ rows /\ col_id r = id.
Proof.
  unfold count_id. rewrite Z.ltb_lt.
  split.
  - intros H. destruct (filter _ rows) as [|r l] eqn:E; [cbn in H; lia|].
    assert (r ∈ filter (fun r => col_id r = id) rows) as Hin by (rewrite E; left).
    apply list_elem_of_filter in Hin as [? ?]. eauto.
  - intros (r & Hr & Ht).
    assert (r ∈ filter (fun r => col_id r = id) rows) as Hin
        by (by apply list_elem_of_filter).
    destruct (filter _ rows); [inversion Hin | cbn; lia].
Qed.

(** ** [store] on a working engine *)

Lemma holds_id_above ids id : Forall (fun x => x < id) ids -> holds_id ids id = false.
Proof.
  intros H. apply bool_decide_eq_false. intros Hin.
  rewrite Forall_forall in H. specialize (H _ Hin). lia.
Qed.

(** In a table with room the ids allocated next are above the ids it
    holds, and do not wrap. *)
Lemma room_next ids n :
  room ids (S n) ->
  is_int (next_id ids) /\ Forall (fun x => x < next_id ids) ids /\
  next_id ids + Z.of_nat (S n) - 1 <= INT_MAX.
Proof.
  intros [?|[Hint Hmax]]; [done|].
  rewrite next_id_current_max by (done || lia).
  split; [|split; [|lia]].
  - pose proof (current_max_is_int ids Hint). unfold is_int in *. lia.
  - apply Forall_forall. intros x Hx. pose proof (current_max_ge ids x Hx). lia.
Qed.

Lemma Forall_lt_snoc {A : Type} (key : A -> Z) (l : list A) (x : A) id :
  Forall (fun y => y < id) (map key l) -> key x = id ->
  Forall (fun y => y < id + 1) (map key (l ++ [x])).
Proof.
  intros Hl Hx. rewrite map_app. apply Forall_app. split.
  - eapply Forall_impl; [exact Hl|]. cbn. lia.
  - apply Forall_singleton. lia.
Qed.

Lemma storeAlertAssets_loop_healthy h la rows irows fs alertId l :
  forall id arows bound0,
    Forall (fun x => x < id) (map asset_col_id arows) ->
    is_int id ->
    id + Z.of_nat (length l) - 1 <= INT_MAX ->
    storeAlertAssets_loop
      (mkSQLiteStatement (Some h) INSERT_INTO_ALERT_ASSETS true bound0) alertId l id
      (sys h (mkDatabase la rows (Some arows) irows) fs []) =
    (true, sys h (mkDatabase la rows (Some (arows ++ asset_rows alertId l id)) irows) fs []).
Proof.
  induction l as [|e l IH]; intros id arows bound0 Hlt Hid Hmax.
  - cbn. by rewrite app_nil_r.
  - cbn [storeAlertAssets_loop asset_rows].
    unfold bindIntParameter, bindStringParameter, bindParameter, step, reset.
    mrun. rewrite (holds_id_above _ _ Hlt). mrun.
    destruct l as [|e' l]; [reflexivity|].
    cbn [length] in Hmax.
    assert (int_of (id + 1) = id + 1) as Hnext
        by (apply int_of_int; unfold is_int in *; lia).
    rewrite IH; [by rewrite <- app_assoc| | |].
    + rewrite Hnext. by apply Forall_lt_snoc.
    + apply int_of_is_int.
    + rewrite Hnext. cbn [length]. lia.
Qed.

Lemma storeAlertAssets_healthy h la rows arows irows fs alertId c :
  room (map asset_col_id arows) (length (map_to_list (assets c))) ->
  storeAlertAssets (Some h) alertId c
    (sys h (mkDatabase la rows (Some arows) irows) fs []) =
  (true,
   sys h (mkDatabase la rows
            (Some (arows ++ asset_rows alertId (map_to_list (assets c))
                              (next_id (map asset_col_id arows)))) irows) fs []).
Proof.
  intros Hroom. unfold storeAlertAssets. case_bool_decide as He.
  - rewrite He, map_to_list_empty. cbn. by rewrite app_nil_r.
  - unfold getTableMaxIntValue, SQLiteStatement_new. mrun.
    destruct (map_to_list (assets c)) as [|e l] eqn:El.
    + cbn. by rewrite app_nil_r.
    + destruct (room_next _ _ Hroom) as (Hid & Hlt & Hmax).
      by apply storeAlertAssets_loop_healthy.
Qed.

Lemma storeAlertAssetPlayOrderItems_loop_healthy h la rows arows fs alertId l :
  forall id itemIndex irows bound0,
    Forall (fun x => x < id) (map item_col_id irows) ->
    is_int id ->
    id + Z.of_nat (length l) - 1 <= INT_MAX ->
    storeAlertAssetPlayOrderItems_loop
      (mkSQLiteStatement (Some h) INSERT_INTO_ALERT_ASSET_PLAY_ORDER_ITEMS true bound0)
      alertId l id itemIndex
      (sys h (mkDatabase la rows arows (Some irows)) fs []) =
    (true,
     sys h (mkDatabase la rows arows
              (Some (irows ++ play_order_rows alertId l id itemIndex))) fs []).
Proof.
  induction l as [|e l IH]; intros id itemIndex irows bound0 Hlt Hid Hmax.
  - cbn. by rewrite app_nil_r.
  - cbn [storeAlertAssetPlayOrderItems_loop play_order_rows].
    unfold bindIntParameter, bindStringParameter, bindParameter, step, reset.
    mrun. rewrite (holds_id_above _ _ Hlt). mrun.
    destruct l as [|e' l]; [reflexivity|].
    cbn [length] in Hmax.
    assert (int_of (id + 1) = id + 1) as Hnext
        by (apply int_of_int; unfold is_int in *; lia).
    rewrite IH; [by rewrite <- app_assoc| | |].
    + rewrite Hnext. by apply Forall_lt_snoc.
    + apply int_of_is_int.
    + rewrite Hnext. cbn [length]. lia.
Qed.

Lemma storeAlertAssetPlayOrderItems_healthy h la rows arows irows fs alertId c :
  room (map item_col_id irows) (length (assetPlayOrderItems c)) ->
  storeAlertAssetPlayOrderItems (Some h) alertId c
    (sys h (mkDatabase la rows arows (Some irows)) fs []) =
  (true,
   sys h (mkDatabase la rows arows
            (Some (irows ++ play_order_rows alertId (assetPlayOrderItems c)
                              (next_id (map item_col_id irows)) 1))) fs []).
Proof.
  intros Hroom. unfold storeAlertAssetPlayOrderItems. case_bool_decide as He.
  - rewrite He. cbn. by rewrite app_nil_r.
  - unfold getTableMaxIntValue, SQLiteStatement_new. mrun.
    destruct (assetPlayOrderItems c) as [|e l] eqn:El; [done|].
    destruct (room_next _ _ Hroom) as (Hid & Hlt & Hmax).
    by apply storeAlertAssetPlayOrderItems_loop_healthy.
Qed.

Lemma alertTypeToDbField_getTypeName a :
  alertTypeToDbField (getTypeName a) = Some (type_code (variant a)).
Proof. unfold getTypeName. by destruct (variant a). Qed.

Lemma alertStateToDbField_code st : alertStateToDbField st = Some (state_code st).
Proof. by destruct st. Qed.

(** When the existence query has answered [false], whatever the reason,
    and the three tables have room for the rows of the alert. *)
Lemma store_after_check h la rows arows irows fs fl a :
  alertExists (m_token a) (sys h (v2db la rows arows irows) fs fl) =
  (false, sys h (v2db la rows arows irows) fs []) ->
  room (map col_id rows) 1 ->
  room (map asset_col_id arows) (length (map_to_list (assets (m_assetConfiguration a)))) ->
  room (map item_col_id irows) (length (assetPlayOrderItems (m_assetConfiguration a))) ->
  store a (sys h (v2db la rows arows irows) fs fl) =
  ((true, set_dbId (next_id (map col_id rows)) a),
   sys h (v2db la (rows ++ [alert_row (next_id (map col_id rows)) a])
            (arows ++ asset_rows (next_id (map col_id rows))
                        (map_to_list (assets (m_assetConfiguration a)))
                        (next_id (map asset_col_id arows)))
            (irows ++ play_order_rows (next_id (map col_id rows))
                        (assetPlayOrderItems (m_assetConfiguration a))
                        (next_id (map item_col_id irows)) 1)) fs []).
Proof.
  intros Hcheck Hroom Hrooma Hroomi. unfold store.
  unfold bind at 1. rewrite get_dbHandle_sys. cbn [is_some negb].
  unfold bind at 1. rewrite Hcheck. unfold v2db.
  unfold getTableMaxIntValue, SQLiteStatement_new.
  unfold bindIntParameter, bindInt64Parameter, bindStringParameter, bindParameter, step.
  rewrite alertTypeToDbField_getTypeName, alertStateToDbField_code.
  destruct (room_next _ _ Hroom) as (_ & Hlt & _).
  mrun. fold (next_id (map col_id rows)). rewrite (holds_id_above _ _ Hlt). mrun.
  rewrite storeAlertAssets_healthy by done. cbn.
  by rewrite storeAlertAssetPlayOrderItems_healthy.
Qed.

(** [store] of an alert whose token [alerts_v2] holds. *)
Lemma store_present h la rows oa oi fs a :
  (0 <? count_token rows (m_token a)) = true ->
  store a (sys h (mkDatabase la (Some rows) oa oi) fs []) =
  ((false, a), sys h (mkDatabase la (Some rows) oa oi) fs []).
Proof.
  intros E. unfold store.
  unfold bind at 1. rewrite get_dbHandle_sys. cbn [is_some negb].
  unfold bind at 1. by rewrite alertExists_healthy, E.
Qed.


(** ** [modify] and the two [erase] on a working engine *)

Lemma modify_healthy h la rows arows irows fs a :
  modify a (sys h (mkDatabase la (Some rows) arows irows) fs []) =
  if 0 <? count_token rows (m_token a)
  then (true, sys h (mkDatabase la (Some (map (modify_row a) rows)) arows irows) fs [])
  else (false, sys h (mkDatabase la (Some rows) arows irows) fs []).
Proof.
  unfold modify.
  unfold bind at 1. rewrite get_dbHandle_sys. cbn [is_some negb].
  unfold bind at 1. rewrite alertExists_healthy.
  destruct (0 <? count_token rows (m_token a)); [|reflexivity].
  unfold SQLiteStatement_new.
  unfold bindIntParameter, bindInt64Parameter, bindStringParameter, bindParameter, step.
  rewrite alertStateToDbField_code. mrun. reflexivity.
Qed.

Lemma eraseAlertByAlertId_healthy h la rows arows irows fs id :
  eraseAlertByAlertId (Some h) id (sys h (v2db la rows arows irows) fs []) =
  (true,
   sys h (v2db la (erased_rows id rows) (erased_assets id arows) (erased_items id irows))
     fs []).
Proof.
  unfold eraseAlertByAlertId, eraseAlert, eraseAlertAssets, eraseAlertAssetPlayOrderItems,
    erase_where, SQLiteStatement_new, bindIntParameter, bindParameter, step, v2db.
  mrun. reflexivity.
Qed.

Lemma erase_healthy h la rows arows irows fs a :
  erase a (sys h (v2db la rows arows irows) fs []) =
  if 0 <? count_token rows (m_token a)
  then (true,
        sys h (v2db la (erased_rows (m_dbId a) rows) (erased_assets (m_dbId a) arows)
                 (erased_items (m_dbId a) irows)) fs [])
  else (false, sys h (v2db la rows arows irows) fs []).
Proof.
  unfold erase.
  unfold bind at 1. rewrite get_dbHandle_sys. cbn [is_some negb].
  unfold bind at 1. unfold v2db at 1. rewrite alertExists_healthy.
  destruct (0 <? count_token rows (m_token a)); [|reflexivity].
  cbn [negb]. apply eraseAlertByAlertId_healthy.
Qed.

Lemma erase_ids_loop_cons h la rows arows irows fs id rest :
  erase_ids_loop (Some h) (id :: rest) (sys h (v2db la rows arows irows) fs []) =
  if 0 <? count_id rows id
  then erase_ids_loop (Some h) rest
         (sys h (v2db la (erased_rows id rows) (erased_assets id arows)
                   (erased_items id irows)) fs [])
  else (false, sys h (v2db la rows arows irows) fs []).
Proof.
  cbn [erase_ids_loop].
  unfold bind at 1. unfold v2db at 1. rewrite alertExistsByAlertId_healthy.
  destruct (0 <? count_id rows id); [|reflexivity].
  cbn [negb]. unfold bind at 1.
  change (mkDatabase la (Some rows) (Some arows) (Some irows)) with (v2db la rows arows irows).
  rewrite eraseAlertByAlertId_healthy. reflexivity.
Qed.

Lemma erase_ids_healthy h db fs ids :
  erase_ids ids (sys h db fs []) = erase_ids_loop (Some h) ids (sys h db fs []).
Proof. unfold erase_ids. unfold bind at 1. by rewrite get_dbHandle_sys. Qed.

Lemma clearDatabase_healthy h la rows arows irows fs :
  clearDatabase (sys h (v2db la rows arows irows) fs []) =
  (true, sys h (v2db la [] [] []) fs []).
Proof. unfold clearDatabase, clearTable, v2db. mrun. reflexivity. Qed.

(** ** [load] on a working engine *)

Lemma while_SQLITE_ROW_healthy {S R : Type} (body : Row -> S -> M (bool * S))
    (pure : R -> S -> bool * S) (cols : R -> Row) h db fs :
  (forall r st, body (cols r) st (sys h db fs []) = (pure r st, sys h db fs [])) ->
  forall rows st,
    while_SQLITE_ROW body (map cols rows) st (sys h db fs []) =
    (while_pure pure rows st, sys h db fs []).
Proof.
  intros Hbody. induction rows as [|r rows IH]; intros st; [reflexivity|].
  cbn [map while_SQLITE_ROW while_pure].
  unfold bind at 1. rewrite Hbody.
  destruct (pure r st) as [continue st'].
  destruct continue; cbn [negb]; [|reflexivity].
  unfold bind at 1. rewrite engine_call_sys. cbn. apply IH.
Qed.

Lemma loadHelper_row_healthy b r st s :
  loadHelper_row (alert_row_columns b r) st s = (loadHelper_row_pure b r st, s).
Proof.
  unfold loadHelper_row, loadHelper_row_pure, bind.
  assert (foldM loadHelper_column (alert_row_columns b r) (fst st) s
          = (alert_locals b r (fst st), s)) as ->.
  { destruct b; reflexivity. }
  destruct (loadHelper_alert _); reflexivity.
Qed.

Lemma loadAlertAssets_row_healthy r st s :
  loadAlertAssets_row (asset_row_columns r) st s = (loadAlertAssets_row_pure r st, s).
Proof. destruct st as [[[? ?] ?] ?]. reflexivity. Qed.

Lemma loadAlertAssetPlayOrderItems_row_healthy r st s :
  loadAlertAssetPlayOrderItems_row (play_order_row_columns r) st s =
  (loadAlertAssetPlayOrderItems_row_pure r st, s).
Proof. destruct st as [[[? ?] ?] ?]. reflexivity. Qed.

Lemma loadAlertAssets_healthy h la rows arows irows fs :
  loadAlertAssets (Some h) ∅ (sys h (mkDatabase la rows (Some arows) irows) fs []) =
  ((true, assets_map arows), sys h (mkDatabase la rows (Some arows) irows) fs []).
Proof.
  unfold loadAlertAssets, SQLiteStatement_new, step. mrun.
  rewrite (while_SQLITE_ROW_healthy _ loadAlertAssets_row_pure)
    by (intros; apply loadAlertAssets_row_healthy).
  reflexivity.
Qed.

Lemma loadAlertAssetPlayOrderItems_healthy h la rows arows irows fs :
  loadAlertAssetPlayOrderItems (Some h) ∅
    (sys h (mkDatabase la rows arows (Some irows)) fs []) =
  ((true, items_map irows), sys h (mkDatabase la rows arows (Some irows)) fs []).
Proof.
  unfold loadAlertAssetPlayOrderItems, SQLiteStatement_new, step. mrun.
  rewrite (while_SQLITE_ROW_healthy _ loadAlertAssetPlayOrderItems_row_pure)
    by (intros; apply loadAlertAssetPlayOrderItems_row_healthy).
  reflexivity.
Qed.

Lemma load_healthy h la rows arows irows fs container :
  load container (sys h (v2db la rows arows irows) fs []) =
  let r := while_pure (loadHelper_row_pure true) rows
             (mkAlertLocals 0 "" 0 0 "" 0 0 "", container) in
  ((fst r,
    if fst r
    then map (loadHelper_attach (assets_map arows) (items_map irows)) (snd (snd r))
    else snd (snd r)),
   sys h (v2db la rows arows irows) fs []).
Proof.
  unfold load, loadHelper, SQLiteStatement_new, step, v2db. mrun.
  rewrite (while_SQLITE_ROW_healthy _ (loadHelper_row_pure true))
    by (intros; apply loadHelper_row_healthy).
  destruct (while_pure _ rows _) as [ok [l c]]. cbn [fst snd].
  destruct ok; cbn [negb]; [|reflexivity].
  rewrite loadAlertAssets_healthy. cbn.
  rewrite loadAlertAssetPlayOrderItems_healthy. reflexivity.
Qed.

(** ** The maps of the load path *)

Lemma while_pure_assets arows :
  forall locals m,
    snd (snd (while_pure loadAlertAssets_row_pure arows (locals, m))) =
    fold_left (fun m r =>
                 <[int_of (asset_col_alert_id r) :=
                     default [] (m !! int_of (asset_col_alert_id r)) ++ [asset_of r]]> m)
      arows m.
Proof.
  induction arows as [|r arows IH]; intros locals m; [reflexivity|].
  cbn [while_pure fold_left loadAlertAssets_row_pure negb snd]. apply IH.
Qed.

Lemma while_pure_items irows :
  forall locals m,
    snd (snd (while_pure loadAlertAssetPlayOrderItems_row_pure irows (locals, m))) =
    fold_left (fun m r =>
                 <[int_of (item_col_alert_id r) :=
                     set_insert (item_of r)
                       (default [] (m !! int_of (item_col_alert_id r)))]> m)
      irows m.
Proof.
  induction irows as [|r irows IH]; intros locals m; [reflexivity|].
  cbn [while_pure fold_left loadAlertAssetPlayOrderItems_row_pure negb snd]. apply IH.
Qed.

(** Grouping rows by a key: the entry of a key is made of the rows of that
    key alone, in their order. *)
Lemma group_lookup {R V : Type} (key : R -> Z) (add : R -> list V -> list V) rows :
  forall (m : gmap Z (list V)) k,
    fold_left (fun m r => <[key r := add r (default [] (m !! key r))]> m) rows m !! k =
    match filter (fun r => key r = k) rows with
    | [] => m !! k
    | l => Some (fold_left (fun s r => add r s) l (default [] (m !! k)))
    end.
Proof.
  induction rows as [|r rows IH]; intros m k; [reflexivity|].
  cbn [fold_left]. rewrite IH. rewrite filter_cons.
  destruct (decide (key r = k)) as [->|Hne].
  - rewrite lookup_insert_eq. cbn [default fold_left].
    by destruct (filter _ rows).
  - by rewrite lookup_insert_ne.
Qed.

Lemma fold_left_snoc_map {R V : Type} (f : R -> V) l :
  forall s, fold_left (fun s r => s ++ [f r]) l s = s ++ map f l.
Proof.
  induction l as [|r l IH]; intros s; cbn; [by rewrite app_nil_r|].
  by rewrite IH, <- app_assoc.
Qed.

Lemma assets_map_lookup arows k :
  assets_map arows !! k =
  match assets_of_alert k arows with
  | [] => None
  | l => Some (map asset_of l)
  end.
Proof.
  unfold assets_map, assets_of_alert. rewrite while_pure_assets.
  rewrite (group_lookup (fun r => int_of (asset_col_alert_id r))
             (fun r s => s ++ [asset_of r])).
  rewrite lookup_empty. destruct (filter _ arows) as [|r l]; [reflexivity|].
  f_equal. apply (fold_left_snoc_map asset_of (r :: l) []).
Qed.

Lemma items_map_lookup irows k :
  items_map irows !! k =
  match items_of_alert k irows with
  | [] => None
  | l => Some (fold_left (fun s r => set_insert (item_of r) s) l [])
  end.
Proof.
  unfold items_map, items_of_alert. rewrite while_pure_items.
  rewrite (group_lookup (fun r => int_of (item_col_alert_id r))
             (fun r s => set_insert (item_of r) s)).
  rewrite lookup_empty. by destruct (filter _ irows).
Qed.

(** ** The ordered set of play-order items *)

Lemma set_insert_elem_of x y s : y ∈ set_insert x s -> y = x \/ y ∈ s.
Proof.
  induction s as [|z s IH]; cbn.
  - rewrite list_elem_of_singleton. auto.
  - unfold AssetOrderItemCompare.
    destruct (index x <? index z); [rewrite elem_of_cons; tauto|].
    destruct (index z <? index x); [|auto].
    rewrite !elem_of_cons. intros [->|H]; [auto|]. destruct (IH H); auto.
Qed.

Lemma set_insert_sorted x s :
  StronglySorted index_lt s -> StronglySorted index_lt (set_insert x s).
Proof.
  induction 1 as [|z s Hs IH Hz]; cbn.
  - repeat constructor.
  - unfold AssetOrderItemCompare.
    destruct (index x <? index z) eqn:E1.
    + apply Z.ltb_lt in E1. constructor; [by constructor|].
      constructor; [done|].
      rewrite Forall_forall in Hz |- *. intros y Hy. specialize (Hz y Hy).
      unfold index_lt in *. lia.
    + destruct (index z <? index x) eqn:E2; [|by constructor].
      apply Z.ltb_lt in E2. constructor; [done|].
      rewrite Forall_forall in Hz |- *. intros y Hy.
      apply set_insert_elem_of in Hy as [->|Hy]; [done|].
      by apply Hz.
Qed.

Lemma set_insert_perm x s :
  index x ∉ map index s -> set_insert x s ≡ₚ x :: s.
Proof.
  induction s as [|z s IH]; cbn; [done|].
  rewrite not_elem_of_cons. intros [Hne Hnin].
  unfold AssetOrderItemCompare.
  destruct (index x <? index z) eqn:E1; [done|].
  destruct (index z <? index x) eqn:E2.
  - rewrite (IH Hnin). apply perm_swap.
  - apply Z.ltb_ge in E1, E2. lia.
Qed.

Lemma fold_set_insert_sorted l :
  forall s, StronglySorted index_lt s ->
            StronglySorted index_lt (fold_left (fun s x => set_insert x s) l s).
Proof.
  induction l as [|x l IH]; intros s Hs; cbn; [done|].
  apply IH. by apply set_insert_sorted.
Qed.

Lemma fold_set_insert_perm l :
  forall s, NoDup (map index (l ++ s)) ->
            fold_left (fun s x => set_insert x s) l s ≡ₚ l ++ s.
Proof.
  induction l as [|x l IH]; intros s Hnd; cbn; [done|].
  cbn in Hnd. apply NoDup_cons in Hnd as [Hx Hnd].
  rewrite IH.
  - rewrite set_insert_perm.
    + by rewrite Permutation_middle.
    + intros Hin. apply Hx. rewrite map_app. apply elem_of_app. by right.
  - rewrite map_app. rewrite map_app in Hnd, Hx.
    apply NoDup_app in Hnd as (Hl & Hdis & Hs).
    apply NoDup_app. split; [done|]. split.
    + intros i Hi Hi'. 
      assert (Hperm : map index (set_insert x s) ≡ₚ map index (x :: s)).
      { apply fmap_Permutation, set_insert_perm.
        intros Hin. apply Hx. apply elem_of_app. by right. }
      rewrite Hperm in Hi'. cbn in Hi'. apply elem_of_cons in Hi' as [->|Hi'].
      * apply Hx. apply elem_of_app. by left.
      * by apply (Hdis i).
    + assert (Hperm : map index (set_insert x s) ≡ₚ map index (x :: s)).
      { apply fmap_Permutation, set_insert_perm.
        intros Hin. apply Hx. apply elem_of_app. by right. }
      rewrite Hperm. cbn. apply NoDup_cons. split; [|done].
      intros Hin. apply Hx. apply elem_of_app. by right.
Qed.

(** ** The alerts made of the rows *)

Lemma while_pure_decode b rows :
  forall l c,
    (b = false -> l_backgroundAssetId l = "") ->
    match mapM (decode_row b) rows with
    | Some alerts =>
        fst (while_pure (loadHelper_row_pure b) rows (l, c)) = true /\
        snd (snd (while_pure (loadHelper_row_pure b) rows (l, c))) = c ++ alerts
    | None => fst (while_pure (loadHelper_row_pure b) rows (l, c)) = false
    end.
Proof.
  induction rows as [|r rows IH]; intros l c Hbg.
  - cbn. by rewrite app_nil_r.
  - cbn [mapM while_pure]. unfold loadHelper_row_pure at 1 3 5. cbn [fst snd].
    assert (loadHelper_alert (alert_locals b r l) = decode_row b r) as ->.
    { unfold decode_row. destruct b; [reflexivity|]. unfold alert_locals.
      by rewrite Hbg. }
    destruct (decode_row b r) as [a|]; cbn; [|reflexivity].
    specialize (IH (alert_locals b r l) (c ++ [a])).
    destruct (mapM (decode_row b) rows) as [alerts|]; cbn.
    + rewrite <- app_assoc in IH. apply IH.
      intros ->. cbn. by apply Hbg.
    + apply IH. intros ->. cbn. by apply Hbg.
Qed.

Lemma decode_row_configuration b r a :
  decode_row b r = Some a ->
  m_assetConfiguration a =
  mkAssetConfiguration ∅ [] (if b then col_background_asset r else "").
Proof.
  unfold decode_row, loadHelper_alert. cbn.
  destruct (if int_of (col_type r) =? _ then _ else _); cbn; [|discriminate].
  destruct (dbFieldToAlertState _); cbn; [|discriminate].
  intros [= <-]. unfold setTime_ISO_8601.
  by destruct (convert8601TimeStringToUnix _).
Qed.

Lemma fold_push_back l :
  forall a,
    fold_left (fun a mapEntry => assetPlayOrderItems_push_back (name mapEntry) a) l a =
    set_assetConfiguration
      (mkAssetConfiguration (assets (m_assetConfiguration a))
         (assetPlayOrderItems (m_assetConfiguration a) ++ map name l)
         (backgroundAssetId (m_assetConfiguration a))) a.
Proof.
  induction l as [|x l IH]; intros a; cbn [fold_left map].
  - rewrite app_nil_r. by destruct a as [? ? ? ? ? ? ? ? []].
  - rewrite IH. unfold assetPlayOrderItems_push_back, set_assetConfiguration. cbn.
    by rewrite <- app_assoc.
Qed.

Lemma fold_assets_assign l :
  forall a,
    fold_left (fun a mapEntry => assets_assign (Asset_id mapEntry) mapEntry a) l a =
    set_assetConfiguration
      (mkAssetConfiguration
         (fold_left (fun m e => <[Asset_id e := e]> m) l (assets (m_assetConfiguration a)))
         (assetPlayOrderItems (m_assetConfiguration a))
         (backgroundAssetId (m_assetConfiguration a))) a.
Proof.
  induction l as [|x l IH]; intros a; cbn [fold_left].
  - by destruct a as [? ? ? ? ? ? ? ? []].
  - rewrite IH. reflexivity.
Qed.

(** What the last loop of [loadHelper] does to an alert. *)
Lemma loadHelper_attach_eq am im a :
  loadHelper_attach am im a =
  set_assetConfiguration
    (mkAssetConfiguration
       (fold_left (fun m e => <[Asset_id e := e]> m) (default [] (am !! m_dbId a))
          (assets (m_assetConfiguration a)))
       (assetPlayOrderItems (m_assetConfiguration a)
        ++ map name (default [] (im !! m_dbId a)))
       (backgroundAssetId (m_assetConfiguration a))) a.
Proof.
  unfold loadHelper_attach.
  destruct (am !! m_dbId a) as [l|] eqn:Ea; cbn [default fold_left].
  - rewrite fold_assets_assign. cbn [m_dbId set_assetConfiguration].
    destruct (im !! m_dbId a) as [k|]; cbn [default map].
    + rewrite fold_push_back. reflexivity.
    + rewrite app_nil_r. reflexivity.
  - destruct (im !! m_dbId a) as [k|]; cbn [default map].
    + rewrite fold_push_back. reflexivity.
    + rewrite app_nil_r. by destruct a as [? ? ? ? ? ? ? ? []].
Qed.

Lemma fold_left_fmap {A B C : Type} (f : A -> B -> A) (g : C -> B) l :
  forall a, fold_left f (map g l) a = fold_left (fun a c => f a (g c)) l a.
Proof. induction l as [|x l IH]; intros a; cbn; [done|apply IH]. Qed.

Lemma NoDup_positions_of_alert irows id :
  NoDup (map (fun r => (int_of (item_col_alert_id r),
                        int_of (item_col_asset_play_order_position r))) irows) ->
  NoDup (map index (map item_of (items_of_alert id irows))).
Proof.
  intros Hnd. unfold items_of_alert.
  assert (Hsub : NoDup (map (fun r => (int_of (item_col_alert_id r),
                                       int_of (item_col_asset_play_order_position r)))
                          (filter (fun r => int_of (item_col_alert_id r) = id) irows))).
  { eapply sublist_NoDup; [exact Hnd | apply fmap_sublist, sublist_filter]. }
  rewrite map_map. cbn.
  apply (NoDup_fmap_1 (pair id)).
  rewrite <- list_fmap_compose.
  erewrite list_fmap_ext; [exact Hsub|].
  intros i r Hr. cbn.
  apply list_elem_of_lookup_2, list_elem_of_filter in Hr as [<- _]. reflexivity.
Qed.

Lemma items_map_permutation irows irows' :
  NoDup (map (fun r => (int_of (item_col_alert_id r),
                        int_of (item_col_asset_play_order_position r))) irows) ->
  irows' ≡ₚ irows -> items_map irows' = items_map irows.
Proof.
  intros Hnd Hperm. apply map_eq. intros k. rewrite !items_map_lookup.
  assert (Hf : items_of_alert k irows' ≡ₚ items_of_alert k irows)
    by (unfold items_of_alert; by rewrite Hperm).
  assert (Hnd' : NoDup (map (fun r => (int_of (item_col_alert_id r),
                          int_of (item_col_asset_play_order_position r))) irows'))
    by (by rewrite Hperm).
  pose proof (NoDup_positions_of_alert irows k Hnd) as H1.
  pose proof (NoDup_positions_of_alert irows' k Hnd') as H2.
  destruct (items_of_alert k irows') as [|r' l'] eqn:E';
    destruct (items_of_alert k irows) as [|r l] eqn:E.
  - reflexivity.
  - by apply Permutation_nil_l in Hf.
  - by apply Permutation_nil_r in Hf.
  - f_equal.
    rewrite <- !(fold_left_fmap (fun s x => set_insert x s) item_of).
    apply (StronglySorted_unique_strong index_lt).
    + unfold index_lt. intros. lia.
    + apply fold_set_insert_sorted. constructor.
    + apply fold_set_insert_sorted. constructor.
    + rewrite !fold_set_insert_perm by (by rewrite app_nil_r).
      rewrite !app_nil_r. by apply fmap_Permutation.
Qed.

(** The alerts [load] returns on a working engine, for an empty container:
    each is the alert of a row with its assets and play-order items. *)
Lemma load_healthy_alerts h la rows arows irows fs out s' :
  load [] (sys h (v2db la rows arows irows) fs []) = ((true, out), s') ->
  exists alerts,
    mapM (decode_row true) rows = Some alerts /\
    out = map (loadHelper_attach (assets_map arows) (items_map irows)) alerts /\
    s' = sys h (v2db la rows arows irows) fs [].
Proof.
  rewrite load_healthy. cbn zeta.
  pose proof (while_pure_decode true rows (mkAlertLocals 0 "" 0 0 "" 0 0 "") []) as Hd.
  destruct (mapM (decode_row true) rows) as [alerts|].
  - destruct Hd as [-> ->]; [discriminate|]. cbn. intros [= <- <-]. eauto.
  - rewrite Hd by discriminate. discriminate.
Qed.

Lemma items_map_default_sorted irows id :
  NoDup (map (fun r => (int_of (item_col_alert_id r),
                        int_of (item_col_asset_play_order_position r))) irows) ->
  default [] (items_map irows !! id) ≡ₚ map item_of (items_of_alert id irows) /\
  StronglySorted index_lt (default [] (items_map irows !! id)).
Proof.
  intros Hnd. rewrite items_map_lookup.
  pose proof (NoDup_positions_of_alert irows id Hnd) as H1.
  destruct (items_of_alert id irows) as [|r l] eqn:E; cbn [default].
  - split; [done|constructor].
  - rewrite <- (fold_left_fmap (fun s x => set_insert x s) item_of). split.
    + rewrite fold_set_insert_perm by (by rewrite app_nil_r). by rewrite app_nil_r.
    + apply fold_set_insert_sorted. constructor.
Qed.

(** ** The calls under any outcome of the engine *)

Lemma SQLiteStatement_new_no_file h sql s :
  files s !! h = None -> isValid (fst (SQLiteStatement_new (Some h) sql s)) = false.
Proof.
  intros Hf. unfold SQLiteStatement_new, engine_do, bind, engine_call, ret.
  destruct (faults s) as [|[] rest]; cbn; rewrite ?Hf; reflexivity.
Qed.

Lemma alertExists_no_file token s h :
  m_dbHandle s = Some h -> files s !! h = None -> fst (alertExists token s) = false.
Proof.
  intros Hh Hf. unfold alertExists. unfold bind at 1. unfold get_dbHandle. rewrite Hh.
  unfold bind at 1.
  pose proof (SQLiteStatement_new_no_file h SELECT_COUNT_FROM_ALERTS_V2_WHERE_TOKEN s Hf)
    as Hv.
  destruct (SQLiteStatement_new _ _ s) as [st s1]. cbn in Hv. by rewrite Hv.
Qed.

Lemma alertExists_any h db fs fl token :
  exists b fl',
    alertExists token (sys h db fs fl) = (b, sys h db fs fl') /\
    (b = true ->
     exists rows, alerts_v2 db = Some rows /\ (0 <? count_token rows token) = true).
Proof.
  destruct db as [la [rows|] oa oi];
    unfold alertExists, SQLiteStatement_new, bindStringParameter, bindParameter, step;
    engine_cases; rewrite ?stringToInt_string_of_Z, ?stringToInt_empty;
    eexists _, _; (split; [reflexivity|]); intros Hb; try discriminate.
  exists rows. split; [reflexivity|exact Hb].
Qed.

(** A state in which the storage is open on a file is a state [sys]. *)
Lemma open_state s :
  (exists h db, m_dbHandle s = Some h /\ files s !! h = Some db /\
                s = sys h db (files s) (faults s)) \/
  (forall token, fst (alertExists token s) = false).
Proof.
  destruct (m_dbHandle s) as [h|] eqn:Hh.
  - destruct (files s !! h) as [db|] eqn:Hf.
    + left. exists h, db. split; [done|]. split; [done|]. by apply sys_of_state.
    + right. intros token. by apply (alertExists_no_file token s h).
  - right. intros token.
    unfold alertExists, bind, get_dbHandle, SQLiteStatement_new, engine_do, ret.
    by rewrite Hh.
Qed.

(** A [modify] that succeeds, whatever the engine does after it. *)
Lemma modify_any h db fs fl a s' :
  modify a (sys h db fs fl) = (true, s') ->
  exists rows fl',
    alerts_v2 db = Some rows /\
    (0 <? count_token rows (m_token a)) = true /\
    s' = sys h (set_alerts_v2 (Some (map (modify_row a) rows)) db) fs fl'.
Proof.
  unfold modify. unfold bind at 1. rewrite get_dbHandle_sys. cbn [is_some negb].
  unfold bind at 1.
  destruct (alertExists_any h db fs fl (m_token a)) as (b & fl1 & -> & Hb).
  destruct b; cbn [negb]; [|discriminate].
  destruct Hb as (rows & Hrows & Hcount); [done|].
  destruct db as [la ov2 oa oi]. cbn in Hrows. subst ov2.
  rewrite alertStateToDbField_code.
  unfold SQLiteStatement_new, bindIntParameter, bindInt64Parameter, bindStringParameter,
    bindParameter, step.
  engine_cases. intros [= <-]. eauto.
Qed.


(** The loop over the result rows when a step may fail: the rows of a
    prefix are read. *)
Lemma while_SQLITE_ROW_any {St R : Type} (body : Row -> St -> M (bool * St))
    (pure : R -> St -> bool * St) (cols : R -> Row) h db fs :
  (forall r st s, body (cols r) st s = (pure r st, s)) ->
  forall rows st fl,
    exists n fl',
      while_SQLITE_ROW body (map cols rows) st (sys h db fs fl) =
      (while_pure pure (take n rows) st, sys h db fs fl').
Proof.
  intros Hbody. induction rows as [|r rows IH]; intros st fl.
  - by exists 0%nat, fl.
  - cbn [map while_SQLITE_ROW]. unfold bind at 1. rewrite Hbody.
    destruct (pure r st) as [continue st'] eqn:E.
    destruct continue; cbn [negb].
    + unfold bind at 1. rewrite engine_call_sys. destruct (next_ok fl).
      * destruct (IH st' (tl fl)) as (n & fl' & ->).
        exists (S n), fl'. cbn [take while_pure]. by rewrite E.
      * exists 1%nat, (tl fl). cbn [take while_pure]. by rewrite E.
    + exists 1%nat, fl. cbn [take while_pure]. by rewrite E.
Qed.



Lemma loadHelper_attach_dbId am im a : m_dbId (loadHelper_attach am im a) = m_dbId a.
Proof. by rewrite loadHelper_attach_eq. Qed.


(** *** A [store] that succeeds *)

Lemma alertExists_rest h db fs token :
  exists b, alertExists token (sys h db fs []) = (b, sys h db fs []).
Proof.
  destruct db as [la [rows|] oa oi];
    unfold alertExists, SQLiteStatement_new, bindStringParameter, bindParameter, step;
    mrun; rewrite ?stringToInt_string_of_Z; by eexists.
Qed.

Lemma storeAlertAssets_loop_success h la ov2 oi fs alertId l :
  forall id oa bound0 fl s',
    storeAlertAssets_loop
      (mkSQLiteStatement (Some h) INSERT_INTO_ALERT_ASSETS true bound0) alertId l id
      (sys h (mkDatabase la ov2 oa oi) fs fl) = (true, s') ->
    exists fl',
      s' = sys h (mkDatabase la ov2
                    ((fun arows => arows ++ asset_rows alertId l id) <$> oa) oi) fs fl' /\
      (fl = [] -> fl' = []).
Proof.
  induction l as [|e l IH]; intros id oa bound0 fl s'.
  - cbn. intros [= <-]. exists fl. split; [|done].
    destruct oa; cbn; by rewrite ?app_nil_r.
  - cbn [storeAlertAssets_loop asset_rows].
    unfold bindIntParameter, bindStringParameter, bindParameter, step, reset.
    destruct oa as [arows|]; engine_cases.
    intros (fl' & -> & Hfl)%IH. exists fl'. split; [cbn; by rewrite <- app_assoc|].
    intros ->. by apply Hfl.
Qed.

Lemma storeAlertAssets_success h la ov2 oa oi fs fl alertId c s' :
  storeAlertAssets (Some h) alertId c (sys h (mkDatabase la ov2 oa oi) fs fl) = (true, s') ->
  exists fl',
    s' = sys h (mkDatabase la ov2
                  ((fun arows => arows ++ asset_rows alertId (map_to_list (assets c))
                                            (next_id (map asset_col_id arows))) <$> oa)
                  oi) fs fl' /\
    (fl = [] -> fl' = []).
Proof.
  unfold storeAlertAssets. case_bool_decide as He.
  - intros [= <-]. exists fl. split; [|done]. rewrite He, map_to_list_empty.
    destruct oa; cbn; by rewrite ?app_nil_r.
  - unfold getTableMaxIntValue, SQLiteStatement_new.
    destruct oa as [arows|]; engine_cases.
    intros (fl' & -> & Hfl)%storeAlertAssets_loop_success. exists fl'.
    split; [reflexivity|]. intros ->. by apply Hfl.
Qed.

Lemma storeAlertAssetPlayOrderItems_loop_success h la ov2 oa fs alertId l :
  forall id itemIndex oi bound0 fl s',
    storeAlertAssetPlayOrderItems_loop
      (mkSQLiteStatement (Some h) INSERT_INTO_ALERT_ASSET_PLAY_ORDER_ITEMS true bound0)
      alertId l id itemIndex
      (sys h (mkDatabase la ov2 oa oi) fs fl) = (true, s') ->
    exists fl',
      s' = sys h (mkDatabase la ov2 oa
                    ((fun irows => irows ++ play_order_rows alertId l id itemIndex) <$> oi))
             fs fl' /\
      (fl = [] -> fl' = []).
Proof.
  induction l as [|e l IH]; intros id itemIndex oi bound0 fl s'.
  - cbn. intros [= <-]. exists fl. split; [|done].
    destruct oi; cbn; by rewrite ?app_nil_r.
  - cbn [storeAlertAssetPlayOrderItems_loop play_order_rows].
    unfold bindIntParameter, bindStringParameter, bindParameter, step, reset.
    destruct oi as [irows|]; engine_cases.
    intros (fl' & -> & Hfl)%IH. exists fl'. split; [cbn; by rewrite <- app_assoc|].
    intros ->. by apply Hfl.
Qed.

Lemma storeAlertAssetPlayOrderItems_success h la ov2 oa oi fs fl alertId c s' :
  storeAlertAssetPlayOrderItems (Some h) alertId c
    (sys h (mkDatabase la ov2 oa oi) fs fl) = (true, s') ->
  exists fl',
    s' = sys h (mkDatabase la ov2 oa
                  ((fun irows => irows ++ play_order_rows alertId (assetPlayOrderItems c)
                                            (next_id (map item_col_id irows)) 1) <$> oi))
           fs fl' /\
    (fl = [] -> fl' = []).
Proof.
  unfold storeAlertAssetPlayOrderItems. case_bool_decide as He.
  - intros [= <-]. exists fl. split; [|done]. rewrite He.
    destruct oi; cbn; by rewrite ?app_nil_r.
  - unfold getTableMaxIntValue, SQLiteStatement_new.
    destruct oi as [irows|]; engine_cases.
    intros (fl' & -> & Hfl)%storeAlertAssetPlayOrderItems_loop_success. exists fl'.
    split; [reflexivity|]. intros ->. by apply Hfl.
Qed.

(** A [store] that succeeds, whatever the engine does: the row of the alert
    is inserted under the next id of [alerts_v2], which the table did not
    hold, and the rows of its assets and of its play-order items under the
    next ids of their tables. *)
Lemma store_success h la rows oa oi fs fl a a' s' :
  store a (sys h (mkDatabase la (Some rows) oa oi) fs fl) = ((true, a'), s') ->
  a' = set_dbId (next_id (map col_id rows)) a /\
  holds_id (map col_id rows) (next_id (map col_id rows)) = false /\
  exists fl',
    s' = sys h (mkDatabase la
                  (Some (rows ++ [alert_row (next_id (map col_id rows)) a]))
                  ((fun arows =>
                      arows ++ asset_rows (next_id (map col_id rows))
                                 (map_to_list (assets (m_assetConfiguration a)))
                                 (next_id (map asset_col_id arows))) <$> oa)
                  ((fun irows =>
                      irows ++ play_order_rows (next_id (map col_id rows))
                                 (assetPlayOrderItems (m_assetConfiguration a))
                                 (next_id (map item_col_id irows)) 1) <$> oi)) fs fl' /\
    (fl = [] -> fl' = []).
Proof.
  unfold store. unfold bind at 1. rewrite get_dbHandle_sys. cbn [is_some negb].
  unfold bind at 1.
  destruct (alertExists_any h (mkDatabase la (Some rows) oa oi) fs fl (m_token a))
    as (b & fl1 & Hex & _).
  assert (Hfl1 : fl = [] -> fl1 = []).
  { intros ->. destruct (alertExists_rest h (mkDatabase la (Some rows) oa oi) fs (m_token a))
      as [b' Hrest].
    rewrite Hrest in Hex. apply (f_equal snd) in Hex. cbn [snd] in Hex.
    apply (f_equal faults) in Hex. by rewrite !faults_sys in Hex. }
  rewrite Hex. clear Hex.
  destruct b; [discriminate|].
  rewrite alertTypeToDbField_getTypeName, alertStateToDbField_code.
  unfold getTableMaxIntValue, SQLiteStatement_new.
  unfold bindIntParameter, bindInt64Parameter, bindStringParameter, bindParameter, step.
  engine_cases; fold (next_id (map col_id rows)) in *; try congruence.
  destruct (storeAlertAssets _ _ _ _) as [ok1 s1] eqn:E1.
  destruct ok1; cbn [negb]; [|discriminate].
  apply storeAlertAssets_success in E1 as (fl2 & -> & Hfl2).
  destruct (storeAlertAssetPlayOrderItems _ _ _ _) as [ok2 s2] eqn:E2.
  destruct ok2; cbn [negb]; [|discriminate].
  apply storeAlertAssetPlayOrderItems_success in E2 as (fl3 & -> & Hfl3).
  intros [= <- <-]. split; [done|]. split; [done|].
  exists fl3. split; [reflexivity|].
  intros Hfl. apply Hfl3, Hfl2. by rewrite (Hfl1 Hfl).
Qed.

Lemma modify_row_id a r : col_id (modify_row a r) = col_id r.
Proof. unfold modify_row. by case_bool_decide. Qed.

Lemma map_modify_row_ids a rows : map col_id (map (modify_row a) rows) = map col_id rows.
Proof. rewrite map_map. apply map_ext. intros r. apply modify_row_id. Qed.

(** *** The shape of the state after [store], [modify] and [load]

    The calls leave the handle and the other files as they are, and a
    working engine stays a working engine. *)

Lemma storeAlertAssets_loop_any h la ov2 oi fs alertId l :
  forall id oa bound0 fl,
    exists ok oa' fl',
      storeAlertAssets_loop
        (mkSQLiteStatement (Some h) INSERT_INTO_ALERT_ASSETS true bound0) alertId l id
        (sys h (mkDatabase la ov2 oa oi) fs fl) =
      (ok, sys h (mkDatabase la ov2 oa' oi) fs fl') /\
      (fl = [] -> fl' = []).
Proof.
  induction l as [|e l IH]; intros id oa bound0 fl; [by (eexists _, _, _; split; [reflexivity|])|].
  cbn [storeAlertAssets_loop].
  unfold bindIntParameter, bindStringParameter, bindParameter, step, reset.
  destruct oa as [arows|]; engine_cases;
    first [ by (eexists _, _, _; split; [reflexivity|intros ->])
          | edestruct IH as (ok & oa' & fl' & Heq & Hfl); rewrite Heq;
            eexists _, _, _; split; [reflexivity|intros ->; by apply Hfl] ].
Qed.

Lemma storeAlertAssets_shape h la ov2 oa oi fs fl alertId c :
  exists ok oa' fl',
    storeAlertAssets (Some h) alertId c (sys h (mkDatabase la ov2 oa oi) fs fl) =
    (ok, sys h (mkDatabase la ov2 oa' oi) fs fl') /\
    (fl = [] -> fl' = []).
Proof.
  unfold storeAlertAssets. case_bool_decide; [by (eexists _, _, _; split; [reflexivity|])|].
  unfold getTableMaxIntValue, SQLiteStatement_new.
  destruct oa as [arows|]; engine_cases;
    first [ by (eexists _, _, _; split; [reflexivity|intros ->])
          | edestruct storeAlertAssets_loop_any as (ok & oa' & fl' & Heq & Hfl);
            rewrite Heq;
            eexists _, _, _; split; [reflexivity|intros ->; by apply Hfl] ].
Qed.

Lemma storeAlertAssetPlayOrderItems_loop_any h la ov2 oa fs alertId l :
  forall id itemIndex oi bound0 fl,
    exists ok oi' fl',
      storeAlertAssetPlayOrderItems_loop
        (mkSQLiteStatement (Some h) INSERT_INTO_ALERT_ASSET_PLAY_ORDER_ITEMS true bound0)
        alertId l id itemIndex
        (sys h (mkDatabase la ov2 oa oi) fs fl) =
      (ok, sys h (mkDatabase la ov2 oa oi') fs fl') /\
      (fl = [] -> fl' = []).
Proof.
  induction l as [|e l IH]; intros id itemIndex oi bound0 fl;
    [by (eexists _, _, _; split; [reflexivity|])|].
  cbn [storeAlertAssetPlayOrderItems_loop].
  unfold bindIntParameter, bindStringParameter, bindParameter, step, reset.
  destruct oi as [irows|]; engine_cases;
    first [ by (eexists _, _, _; split; [reflexivity|intros ->])
          | edestruct IH as (ok & oi' & fl' & Heq & Hfl); rewrite Heq;
            eexists _, _, _; split; [reflexivity|intros ->; by apply Hfl] ].
Qed.

Lemma storeAlertAssetPlayOrderItems_shape h la ov2 oa oi fs fl alertId c :
  exists ok oi' fl',
    storeAlertAssetPlayOrderItems (Some h) alertId c
      (sys h (mkDatabase la ov2 oa oi) fs fl) =
    (ok, sys h (mkDatabase la ov2 oa oi') fs fl') /\
    (fl = [] -> fl' = []).
Proof.
  unfold storeAlertAssetPlayOrderItems.
  case_bool_decide; [by (eexists _, _, _; split; [reflexivity|])|].
  unfold getTableMaxIntValue, SQLiteStatement_new.
  destruct oi as [irows|]; engine_cases;
    first [ by (eexists _, _, _; split; [reflexivity|intros ->])
          | edestruct storeAlertAssetPlayOrderItems_loop_any
              as (ok & oi' & fl' & Heq & Hfl);
            rewrite Heq;
            eexists _, _, _; split; [reflexivity|intros ->; by apply Hfl] ].
Qed.

Lemma sys_alerts_v2_inj h db db' fs fs' fl fl' :
  sys h db fs fl = sys h db' fs' fl' -> alerts_v2 db = alerts_v2 db'.
Proof.
  intros H. apply (f_equal (fun s => files s !! h)) in H. cbn beta in H.
  rewrite !files_sys in H. by injection H as ->.
Qed.

Lemma snoc_ne {A : Type} (l : list A) (x : A) : l ++ [x] <> l.
Proof.
  intros H. apply (f_equal length) in H. rewrite length_app in H. cbn in H. lia.
Qed.

(** Whatever the engine does, [store] either leaves the tables as they are
    and fails, or appends the row of the alert under the next id, which it
    writes into the alert. *)
Lemma store_shape h la rows oa oi fs fl a :
  exists ok a' rows' oa' oi' fl',
    store a (sys h (mkDatabase la (Some rows) oa oi) fs fl) =
    ((ok, a'), sys h (mkDatabase la (Some rows') oa' oi') fs fl') /\
    (fl = [] -> fl' = []) /\
    ((ok = false /\ a' = a /\ rows' = rows /\ oa' = oa /\ oi' = oi) \/
     (rows' = rows ++ [alert_row (next_id (map col_id rows)) a] /\
      a' = set_dbId (next_id (map col_id rows)) a)).
Proof.
  unfold store. unfold bind at 1. rewrite get_dbHandle_sys. cbn [is_some negb].
  unfold bind at 1.
  destruct (alertExists_any h (mkDatabase la (Some rows) oa oi) fs fl (m_token a))
    as (b & fl1 & Hex & _).
  assert (Hfl1 : fl = [] -> fl1 = []).
  { intros ->. destruct (alertExists_rest h (mkDatabase la (Some rows) oa oi) fs (m_token a))
      as [b' Hrest].
    rewrite Hrest in Hex. apply (f_equal snd) in Hex. cbn [snd] in Hex.
    apply (f_equal faults) in Hex. by rewrite !faults_sys in Hex. }
  rewrite Hex. clear Hex.
  destruct b; [eexists _, _, _, _, _, _; split; [reflexivity|]; split; [done|]; by left|].
  rewrite alertTypeToDbField_getTypeName, alertStateToDbField_code.
  unfold getTableMaxIntValue, SQLiteStatement_new.
  unfold bindIntParameter, bindInt64Parameter, bindStringParameter, bindParameter, step.
  engine_cases;
    try (eexists _, _, _, _, _, _; split; [reflexivity|]; split;
         [intros Hfl; by rewrite (Hfl1 Hfl)|]; by left).
  edestruct storeAlertAssets_shape as (ok1 & oa' & fl2 & Heq1 & Hfl2). rewrite Heq1.
  destruct ok1; cbn [negb].
  - edestruct storeAlertAssetPlayOrderItems_shape as (ok2 & oi' & fl3 & Heq2 & Hfl3).
    rewrite Heq2.
    destruct ok2; cbn [negb];
      (eexists _, _, _, _, _, _; split; [reflexivity|]; split;
       [intros Hfl; apply Hfl3, Hfl2; by rewrite (Hfl1 Hfl)|]; by right).
  - eexists _, _, _, _, _, _. split; [reflexivity|]. split;
      [intros Hfl; apply Hfl2; by rewrite (Hfl1 Hfl)|]. by right.
Qed.

(** [store] of an alert whose token [alerts_v2] does not hold, when the
    table holds the next id. *)
Lemma store_taken h la rows oa oi fs a :
  (0 <? count_token rows (m_token a)) = false ->
  holds_id (map col_id rows) (next_id (map col_id rows)) = true ->
  store a (sys h (mkDatabase la (Some rows) oa oi) fs []) =
  ((false, a), sys h (mkDatabase la (Some rows) oa oi) fs []).
Proof.
  intros E Eid.
  unfold store. unfold bind at 1. rewrite get_dbHandle_sys. cbn [is_some negb].
  unfold bind at 1. rewrite alertExists_healthy, E.
  rewrite alertTypeToDbField_getTypeName, alertStateToDbField_code.
  unfold getTableMaxIntValue, SQLiteStatement_new.
  unfold bindIntParameter, bindInt64Parameter, bindStringParameter, bindParameter, step.
  mrun. fold (next_id (map col_id rows)). rewrite Eid. reflexivity.
Qed.

(** On a working engine, [store] fails when [alerts_v2] holds the token or
    the next id, and inserts the row of the alert otherwise. *)
Lemma store_any h la rows oa oi fs a :
  exists ok a' rows' oa' oi',
    store a (sys h (mkDatabase la (Some rows) oa oi) fs []) =
    ((ok, a'), sys h (mkDatabase la (Some rows') oa' oi') fs []) /\
    ((ok = false /\ a' = a /\ rows' = rows /\ oa' = oa /\ oi' = oi /\
      ((0 <? count_token rows (m_token a)) = true \/
       holds_id (map col_id rows) (next_id (map col_id rows)) = true)) \/
     ((0 <? count_token rows (m_token a)) = false /\
      rows' = rows ++ [alert_row (next_id (map col_id rows)) a] /\
      a' = set_dbId (next_id (map col_id rows)) a)).
Proof.
  destruct (0 <? count_token rows (m_token a)) eqn:E.
  { rewrite store_present by done. eexists _, _, _, _, _. split; [reflexivity|].
    left. split_and!; try done. by left. }
  destruct (holds_id (map col_id rows) (next_id (map col_id rows))) eqn:Eid.
  { rewrite store_taken by done. eexists _, _, _, _, _. split; [reflexivity|].
    left. split_and!; try done. by right. }
  destruct (store_shape h la rows oa oi fs [] a)
    as (ok & a' & rows' & oa' & oi' & fl' & Heq & Hfl & Hcase).
  rewrite (Hfl eq_refl) in Heq.
  exists ok, a', rows', oa', oi'. split; [done|].
  destruct Hcase as [(-> & -> & -> & -> & ->)|[-> ->]]; [|by right].
  exfalso. revert Heq. unfold store. unfold bind at 1. rewrite get_dbHandle_sys.
  cbn [is_some negb]. unfold bind at 1. rewrite alertExists_healthy, E.
  rewrite alertTypeToDbField_getTypeName, alertStateToDbField_code.
  unfold getTableMaxIntValue, SQLiteStatement_new.
  unfold bindIntParameter, bindInt64Parameter, bindStringParameter, bindParameter, step.
  mrun. fold (next_id (map col_id rows)). rewrite Eid. mrun.
  edestruct storeAlertAssets_shape as (ok1 & oa1 & fl2 & Heq1 & _). rewrite Heq1.
  destruct ok1; cbn [negb].
  - edestruct storeAlertAssetPlayOrderItems_shape as (ok2 & oi1 & fl3 & Heq2 & _).
    rewrite Heq2. destruct ok2; cbn [negb]; intros Hs;
      apply (f_equal snd) in Hs; cbn [snd] in Hs;
      apply sys_alerts_v2_inj in Hs; cbn in Hs;
      injection Hs as Hs; by apply snoc_ne in Hs.
  - intros Hs. apply (f_equal snd) in Hs. cbn [snd] in Hs.
    apply sys_alerts_v2_inj in Hs. cbn in Hs.
    injection Hs as Hs. by apply snoc_ne in Hs.
Qed.

(** Whatever the engine does, [modify] keeps the ids of [alerts_v2]. *)
Lemma modify_shape h la rows oa oi fs fl a :
  exists ok rows' fl',
    modify a (sys h (mkDatabase la (Some rows) oa oi) fs fl) =
    (ok, sys h (mkDatabase la (Some rows') oa oi) fs fl') /\
    map col_id rows' = map col_id rows.
Proof.
  unfold modify. unfold bind at 1. rewrite get_dbHandle_sys. cbn [is_some negb].
  unfold bind at 1.
  destruct (alertExists_any h (mkDatabase la (Some rows) oa oi) fs fl (m_token a))
    as (b & fl1 & -> & _).
  destruct b; cbn [negb]; [|by eexists _, _, _].
  rewrite alertStateToDbField_code.
  unfold SQLiteStatement_new, bindIntParameter, bindInt64Parameter, bindStringParameter,
    bindParameter, step.
  engine_cases; eexists _, _, _; (split; [reflexivity|]);
    first [done | apply (map_modify_row_ids a)].
Qed.

Lemma loadAlertAssets_shape h db fs fl m :
  exists r fl', loadAlertAssets (Some h) m (sys h db fs fl) = (r, sys h db fs fl').
Proof.
  destruct db as [la ov2 [arows|] oi];
    unfold loadAlertAssets, SQLiteStatement_new, step;
    engine_cases; try by eexists _, _.
  destruct (while_SQLITE_ROW_any loadAlertAssets_row loadAlertAssets_row_pure
              asset_row_columns h (mkDatabase la ov2 (Some arows) oi) fs
              loadAlertAssets_row_healthy arows ((0, "", ""), m) (tl (tl fl)))
    as (n & fl' & ->).
  by eexists _, _.
Qed.

Lemma loadAlertAssetPlayOrderItems_shape h db fs fl m :
  exists r fl',
    loadAlertAssetPlayOrderItems (Some h) m (sys h db fs fl) = (r, sys h db fs fl').
Proof.
  destruct db as [la ov2 oa [irows|]];
    unfold loadAlertAssetPlayOrderItems, SQLiteStatement_new, step;
    engine_cases; try by eexists _, _.
  destruct (while_SQLITE_ROW_any loadAlertAssetPlayOrderItems_row
              loadAlertAssetPlayOrderItems_row_pure
              play_order_row_columns h (mkDatabase la ov2 oa (Some irows)) fs
              loadAlertAssetPlayOrderItems_row_healthy irows ((0, 0, ""), m) (tl (tl fl)))
    as (n & fl' & ->).
  by eexists _, _.
Qed.

(** Whatever the engine does, [load] leaves the files as they are. *)
Lemma load_shape h db fs fl container :
  exists r fl', load container (sys h db fs fl) = (r, sys h db fs fl').
Proof.
  destruct db as [la [rows|] oa oi];
    unfold load, loadHelper, SQLiteStatement_new, step;
    engine_cases; try by eexists _, _.
  destruct (while_SQLITE_ROW_any loadHelper_row (loadHelper_row_pure true)
              (alert_row_columns true) h (mkDatabase la (Some rows) oa oi) fs
              (fun r st s => loadHelper_row_healthy true r st s) rows
              (mkAlertLocals 0 "" 0 0 "" 0 0 "", container) (tl (tl fl)))
    as (n & fl' & ->).
  destruct (while_pure _ (take n rows) _) as [ok1 [l c]]. cbn [fst snd].
  destruct ok1; cbn [negb]; [|by eexists _, _].
  destruct (loadAlertAssets_shape h (mkDatabase la (Some rows) oa oi) fs fl' ∅)
    as ([ok2 am] & fl2 & ->). cbn [fst snd].
  destruct ok2; cbn [negb]; [|by eexists _, _].
  destruct (loadAlertAssetPlayOrderItems_shape h (mkDatabase la (Some rows) oa oi) fs fl2 ∅)
    as ([ok3 im] & fl3 & ->). cbn [fst snd].
  destruct ok3; cbn [negb]; by eexists _, _.
Qed.

(** ** Token uniqueness *)

Lemma count_token_app rows rows' token :
  count_token (rows ++ rows') token = count_token rows token + count_token rows' token.
Proof. unfold count_token. rewrite filter_app, length_app. lia. Qed.

Lemma count_token_alert_row id a : count_token [alert_row id a] (m_token a) = 1.
Proof.
  unfold count_token. rewrite filter_cons. cbn [alert_row col_token].
  by rewrite decide_True.
Qed.

Lemma count_token_nonneg rows token : 0 <= count_token rows token.
Proof. unfold count_token. lia. Qed.

(** C3. On a working engine and a database that holds [alerts_v2], as
    every open database does: a second [store] of an alert that carries the
    token of the first fails and leaves the database as the first call left
    it, so what the first call stored is still there and loads as before;
    and [store] keeps the tokens of [alerts_v2] pairwise distinct. *)
Theorem C3_token_uniqueness h la rows oa oi fs a1 a2 :
  m_token a1 = m_token a2 ->
  let s0 := sys h (mkDatabase la (Some rows) oa oi) fs [] in
  let s1 := snd (store a1 s0) in
  store a2 s1 = ((false, a2), s1) /\
  load [] (snd (store a2 s1)) = load [] s1 /\
  exists rows1 oa1 oi1,
    s1 = sys h (mkDatabase la (Some rows1) oa1 oi1) fs [] /\
    (fst (fst (store a1 s0)) = true ->
     rows1 = rows ++ [alert_row (next_id (map col_id rows)) a1]) /\
    (NoDup (map col_token rows) -> NoDup (map col_token rows1)).
Proof.
  intros Htok s0 s1. subst s0 s1.
  destruct (store_any h la rows oa oi fs a1)
    as (ok & a1' & rows1 & oa1 & oi1 & Hstore & Hcases).
  rewrite Hstore. cbn [fst snd].
  assert (Hsecond : store a2 (sys h (mkDatabase la (Some rows1) oa1 oi1) fs []) =
                    ((false, a2), sys h (mkDatabase la (Some rows1) oa1 oi1) fs [])).
  { destruct Hcases as [(_ & _ & -> & -> & -> & Hwhy) | (Hc & -> & _)].
    - destruct (0 <? count_token rows (m_token a2)) eqn:E; [by apply store_present|].
      destruct Hwhy as [Hc|Hid]; [congruence|]. by apply store_taken.
    - apply store_present. rewrite <- Htok, count_token_app, count_token_alert_row.
      apply Z.ltb_lt. pose proof (count_token_nonneg rows (m_token a1)). lia. }
  rewrite Hsecond. cbn [snd].
  split; [done|]. split; [done|].
  exists rows1, oa1, oi1. split; [done|]. split.
  - intros ->. by destruct Hcases as [(? & _) | (_ & -> & _)].
  - intros Hnd. destruct Hcases as [(_ & _ & -> & _) | (Hc & -> & _)]; [done|].
    rewrite map_app. cbn [map alert_row col_token].
    apply NoDup_app. split; [done|]. split; [|apply NoDup_singleton].
    intros t Ht ->%list_elem_of_singleton.
    apply list_elem_of_fmap in Ht as (r & Hr & Hin).
    assert ((0 <? count_token rows (m_token a1)) = true) as Hc'
        by (apply count_token_pos; eauto).
    congruence.
Qed.

(** ** Id allocation *)

Lemma run_calls_increasing calls :
  forall h la rows oa oi fs fl,
    forallb (fun c => negb (is_deletion c)) calls = true ->
    Forall is_int (map col_id rows) ->
    current_max (map col_id rows) + Z.of_nat (length calls) <= INT_MAX ->
    let ids := fst (run_calls calls (sys h (mkDatabase la (Some rows) oa oi) fs fl)) in
    Forall (fun id => current_max (map col_id rows) < id) ids /\
    StronglySorted Z.lt ids.
Proof.
  induction calls as [|c calls IH]; intros h la rows oa oi fs fl Hdel Hint Hmax.
  - cbn. split; constructor.
  - cbn [forallb] in Hdel. apply andb_prop in Hdel as [Hc Hdel].
    cbn [length] in Hmax.
    destruct c as [a|a| |a|l|]; try discriminate; cbn [run_calls]; unfold bind.
    + destruct (store_shape h la rows oa oi fs fl a)
        as (ok & a' & rows' & oa' & oi' & fl' & -> & _ &
            [(-> & -> & -> & -> & ->)|[-> ->]]).
      * specialize (IH h la rows oa oi fs fl' Hdel Hint ltac:(lia)).
        cbn zeta in IH. destruct (run_calls calls _) as [ids s]. exact IH.
      * assert (Hid : next_id (map col_id rows) = current_max (map col_id rows) + 1)
          by (apply next_id_current_max; [done|lia]).
        set (rows' := rows ++ [alert_row (next_id (map col_id rows)) a]).
        assert (Hmax' : current_max (map col_id rows') = current_max (map col_id rows) + 1).
        { unfold rows'. rewrite map_app. cbn [map alert_row col_id].
          rewrite current_max_snoc; lia. }
        assert (Hint' : Forall is_int (map col_id rows')).
        { unfold rows'. rewrite map_app. apply Forall_app. split; [done|].
          apply Forall_singleton. apply int_of_is_int. }
        specialize (IH h la rows' oa' oi' fs fl' Hdel Hint' ltac:(lia)).
        cbn zeta in IH. destruct (run_calls calls _) as [ids s].
        cbn [fst snd set_dbId m_dbId] in *. destruct IH as [Hgt Hsorted].
        rewrite Hmax' in Hgt.
        assert (Hgt' : Forall (fun id => current_max (map col_id rows) < id) ids)
          by (eapply Forall_impl; [exact Hgt|]; cbn; lia).
        destruct ok; [|done]. split.
        -- constructor; [lia|done].
        -- constructor; [done|]. eapply Forall_impl; [exact Hgt|]. cbn. lia.
    + destruct (modify_shape h la rows oa oi fs fl a) as (ok & rows' & fl' & -> & Hids).
      specialize (IH h la rows' oa oi fs fl' Hdel). rewrite Hids in IH.
      exact (IH Hint ltac:(lia)).
    + destruct (load_shape h (mkDatabase la (Some rows) oa oi) fs fl []) as (r & fl' & ->).
      exact (IH h la rows oa oi fs fl' Hdel Hint ltac:(lia)).
Qed.

(** C7. Whatever the outcomes of the calls into the engine, with the ids of
    [alerts_v2] in the range of [int] and below [INT_MAX]: a [store] that
    succeeds assigns the greatest id of [alerts_v2] (zero for a table
    without rows) plus one, inserts the row under that id and writes the id
    into the alert; and across any sequence of calls that holds no [erase]
    and no [clearDatabase], the ids assigned by the stores that succeed
    are strictly increasing. *)
Theorem C7_ids_increase_without_deletion h la rows oa oi fs fl :
  Forall is_int (map col_id rows) ->
  (forall a a' s',
     current_max (map col_id rows) < INT_MAX ->
     store a (sys h (mkDatabase la (Some rows) oa oi) fs fl) = ((true, a'), s') ->
     m_dbId a' = current_max (map col_id rows) + 1 /\
     a' = set_dbId (m_dbId a') a /\
     exists oa' oi' fl',
       s' = sys h (mkDatabase la (Some (rows ++ [alert_row (m_dbId a') a])) oa' oi') fs fl') /\
  (forall calls,
     forallb (fun c => negb (is_deletion c)) calls = true ->
     current_max (map col_id rows) + Z.of_nat (length calls) <= INT_MAX ->
     StronglySorted Z.lt
       (fst (run_calls calls (sys h (mkDatabase la (Some rows) oa oi) fs fl)))).
Proof.
  intros Hint. split.
  - intros a a' s' Hmax.
    destruct (store_shape h la rows oa oi fs fl a)
      as (ok & a1 & rows' & oa' & oi' & fl' & -> & _ & Hcase).
    intros [= -> -> <-]. destruct Hcase as [[? _]|[-> ->]]; [done|].
    cbn [m_dbId set_dbId].
    rewrite (next_id_current_max _ Hint Hmax). split; [done|]. split; [done|].
    eauto.
  - intros calls Hdel Hmax.
    by apply (run_calls_increasing calls h la rows oa oi fs fl Hdel Hint Hmax).
Qed.

(** ** The scope of [modify] *)

(** C4. A [modify] that succeeds, in any state and whatever the outcomes
    of the calls into the engine: the storage is open on a file whose table
    [alerts_v2] holds the token of the alert; in the rows of [alerts_v2]
    whose id is the database id of the alert, the columns [state],
    [scheduled_time_unix] and [scheduled_time_iso_8601] take the values of
    the alert; every other column of those rows, every other row, the
    tables [alertAssets] and [alertAssetPlayOrderItems] and the other files
    are unchanged.  And on a working engine [modify] succeeds for every
    alert whose token [alerts_v2] holds. *)
Theorem C4_modify_scope a :
  (forall s s',
     modify a s = (true, s') ->
     exists h db rows rows' fl',
       m_dbHandle s = Some h /\ files s !! h = Some db /\ alerts_v2 db = Some rows /\
       Exists (fun r => col_token r = m_token a) rows /\
       s' = sys h (set_alerts_v2 (Some rows') db) (files s) fl' /\
       Forall2 (modified_by a) rows rows') /\
  (forall h la rows oa oi fs,
     Exists (fun r => col_token r = m_token a) rows ->
     fst (modify a (sys h (mkDatabase la (Some rows) oa oi) fs [])) = true).
Proof.
  split.
  - intros s s' Hm. destruct (open_state s) as [(h & db & Hh & Hf & Hs)|Hclosed].
    + rewrite Hs in Hm. apply modify_any in Hm as (rows & fl' & Hrows & Hcount & ->).
      exists h, db, rows, (map (modify_row a) rows), fl'. split_and!; try done.
      * by apply Exists_exists, count_token_pos.
      * apply Forall2_fmap_r, Forall_Forall2_diag, Forall_forall. intros r _.
        unfold compose, modified_by, modify_row. case_bool_decide as Hid; cbn.
        -- split_and!; try done. intros _. split; [apply alertStateToDbField_code|done].
        -- split_and!; done.
    + exfalso. revert Hm. unfold modify. unfold bind at 1. unfold get_dbHandle.
      destruct (m_dbHandle s); cbn [is_some negb]; [|discriminate].
      unfold bind at 1. specialize (Hclosed (m_token a)).
      destruct (alertExists _ s) as [b s1]. cbn in Hclosed. subst b. discriminate.
  - intros h la rows oa oi fs Htok. rewrite modify_healthy.
    apply Exists_exists, count_token_pos in Htok. by rewrite Htok.
Qed.

(** ** The two [erase] *)

Lemma erased_rows_spec id rows r : r ∈ erased_rows id rows <-> col_id r <> id /\ r ∈ rows.
Proof. apply (list_elem_of_filter (fun r => col_id r <> id)). Qed.

Lemma erased_assets_spec id arows r :
  r ∈ erased_assets id arows <-> asset_col_alert_id r <> id /\ r ∈ arows.
Proof. apply (list_elem_of_filter (fun r => asset_col_alert_id r <> id)). Qed.

Lemma erased_items_spec id irows r :
  r ∈ erased_items id irows <-> item_col_alert_id r <> id /\ r ∈ irows.
Proof. apply (list_elem_of_filter (fun r => item_col_alert_id r <> id)). Qed.

Lemma filter_all {A : Type} (P : A -> Prop) `{!forall x, Decision (P x)} (l : list A) :
  (forall x, x ∈ l -> P x) -> filter P l = l.
Proof.
  induction l as [|x l IH]; intros Hall; [done|].
  rewrite filter_cons, decide_True by (apply Hall; left).
  f_equal. apply IH. intros y Hy. apply Hall. by right.
Qed.

Lemma filter_none {A : Type} (P : A -> Prop) `{!forall x, Decision (P x)} (l : list A) :
  (forall x, x ∈ l -> ~ P x) -> filter P l = [].
Proof.
  induction l as [|x l IH]; intros Hall; [done|].
  rewrite filter_cons, decide_False by (apply Hall; left).
  apply IH. intros y Hy. apply Hall. by right.
Qed.


(** C10. [erase] checks the token of the alert and deletes by its database
    id: for an alert whose token is in [alerts_v2] and whose database id is
    the id of no row there, [erase] returns success and [alerts_v2] is as
    it was, with every row that carries the token; of the two other tables
    the rows remain whose [alert_id] is not that database id, among them
    the rows of every alert of [alerts_v2], and all the rows when none
    refers to that database id. *)
Theorem C10_erase_by_token_and_id h la rows arows irows fs a :
  Exists (fun r => col_token r = m_token a) rows ->
  Forall (fun r => col_id r <> m_dbId a) rows ->
  erase a (sys h (v2db la rows arows irows) fs []) =
  (true,
   sys h (v2db la rows (erased_assets (m_dbId a) arows) (erased_items (m_dbId a) irows))
     fs []) /\
  (forall r x, r ∈ rows -> x ∈ arows -> asset_col_alert_id x = col_id r ->
               x ∈ erased_assets (m_dbId a) arows) /\
  (forall r x, r ∈ rows -> x ∈ irows -> item_col_alert_id x = col_id r ->
               x ∈ erased_items (m_dbId a) irows) /\
  (Forall (fun r => asset_col_alert_id r <> m_dbId a) arows ->
   Forall (fun r => item_col_alert_id r <> m_dbId a) irows ->
   erase a (sys h (v2db la rows arows irows) fs []) =
   (true, sys h (v2db la rows arows irows) fs [])).
Proof.
  intros Htok Hid. rewrite erase_healthy.
  apply Exists_exists in Htok. apply count_token_pos in Htok. rewrite Htok.
  rewrite Forall_forall in Hid.
  unfold erased_rows. rewrite (filter_all _ rows Hid). split; [done|].
  split; [|split].
  - intros r x Hr Hx Heq. apply erased_assets_spec. split; [|done].
    rewrite Heq. by apply Hid.
  - intros r x Hr Hx Heq. apply erased_items_spec. split; [|done].
    rewrite Heq. by apply Hid.
  - intros Ha Hi. rewrite Forall_forall in Ha. rewrite Forall_forall in Hi.
    unfold erased_assets, erased_items.
    by rewrite (filter_all _ arows Ha), (filter_all _ irows Hi).
Qed.

Lemma count_id_zero rows id :
  (forall r, r ∈ rows -> col_id r <> id) -> (0 <? count_id rows id) = false.
Proof.
  intros H. destruct (0 <? count_id rows id) eqn:E; [|done].
  apply count_id_pos in E as (r & Hr & Heq). by destruct (H r Hr).
Qed.

Lemma filter_filter_not_in {A : Type} (key : A -> Z) i pre (l : list A) :
  filter (fun r => key r ∉ pre) (filter (fun r => key r <> i) l) =
  filter (fun r => key r ∉ i :: pre) l.
Proof.
  rewrite list_filter_filter. apply list_filter_iff. intros r.
  rewrite not_elem_of_cons. tauto.
Qed.

Lemma erase_ids_loop_prefix h la fs pre :
  forall rows arows irows tail,
    NoDup pre ->
    (forall i, i ∈ pre -> exists r, r ∈ rows /\ col_id r = i) ->
    erase_ids_loop (Some h) (pre ++ tail) (sys h (v2db la rows arows irows) fs []) =
    erase_ids_loop (Some h) tail
      (sys h (v2db la (filter (fun r => col_id r ∉ pre) rows)
                (filter (fun r => asset_col_alert_id r ∉ pre) arows)
                (filter (fun r => item_col_alert_id r ∉ pre) irows)) fs []).
Proof.
  induction pre as [|i pre IH]; intros rows arows irows tail Hnd Hin.
  - cbn [app]. f_equal. f_equal.
    rewrite !filter_all; [done| | |]; intros; apply not_elem_of_nil.
  - apply NoDup_cons in Hnd as [Hi Hnd].
    cbn [app]. rewrite erase_ids_loop_cons.
    assert ((0 <? count_id rows i) = true) as ->
        by (apply count_id_pos, Hin; left).
    rewrite IH; [|done|].
    + unfold erased_rows, erased_assets, erased_items.
      by rewrite !filter_filter_not_in.
    + intros j Hj. destruct (Hin j) as (r & Hr & Heq); [by right|].
      exists r. split; [|done]. apply erased_rows_spec. split; [|done].
      intros Hri. apply Hi. by rewrite <- Hri, Heq.
Qed.

(** C6. The batch [erase] goes through the ids in the order of the list:
    an id is looked up in [alerts_v2] and, when it is there, its rows are
    deleted from the three tables before the next id is looked up; the first
    id that is not there makes the call fail, with the ids before it erased
    and none of the ids after it looked at.  When all the ids are there,
    without a repetition, the call succeeds and erases them all. *)
Theorem C6_batch_erase h la rows arows irows fs :
  (forall id rest,
     erase_ids (id :: rest) (sys h (v2db la rows arows irows) fs []) =
     if 0 <? count_id rows id
     then erase_ids rest
            (sys h (v2db la (erased_rows id rows) (erased_assets id arows)
                      (erased_items id irows)) fs [])
     else (false, sys h (v2db la rows arows irows) fs [])) /\
  (forall pre x post,
     NoDup pre ->
     (forall i, i ∈ pre -> exists r, r ∈ rows /\ col_id r = i) ->
     (x ∈ pre \/ forall r, r ∈ rows -> col_id r <> x) ->
     erase_ids (pre ++ x :: post) (sys h (v2db la rows arows irows) fs []) =
     (false,
      sys h (v2db la (filter (fun r => col_id r ∉ pre) rows)
               (filter (fun r => asset_col_alert_id r ∉ pre) arows)
               (filter (fun r => item_col_alert_id r ∉ pre) irows)) fs [])) /\
  (forall ids,
     NoDup ids ->
     (forall i, i ∈ ids -> exists r, r ∈ rows /\ col_id r = i) ->
     erase_ids ids (sys h (v2db la rows arows irows) fs []) =
     (true,
      sys h (v2db la (filter (fun r => col_id r ∉ ids) rows)
               (filter (fun r => asset_col_alert_id r ∉ ids) arows)
               (filter (fun r => item_col_alert_id r ∉ ids) irows)) fs [])).
Proof.
  split; [|split].
  - intros id rest. rewrite !erase_ids_healthy, erase_ids_loop_cons.
    by destruct (0 <? count_id rows id).
  - intros pre x post Hnd Hin Hx.
    rewrite erase_ids_healthy, erase_ids_loop_prefix by done.
    rewrite erase_ids_loop_cons, count_id_zero; [done|].
    intros r [Hr Hrows]%list_elem_of_filter Heq.
    destruct Hx as [Hx|Hx]; [apply Hr; by rewrite Heq | by apply (Hx r)].
  - intros ids Hnd Hin.
    rewrite erase_ids_healthy.
    rewrite <- (app_nil_r ids) at 1.
    by rewrite erase_ids_loop_prefix.
Qed.

(** ** Failures of the existence query *)

Lemma alertExists_faulty h la rows arows irows fs token :
  Forall (fun fl =>
            forall rest,
              alertExists token (sys h (v2db la rows arows irows) fs (fl ++ rest)) =
              (false, sys h (v2db la rows arows irows) fs rest))
    existence_query_faults.
Proof.
  unfold existence_query_faults, v2db.
  repeat apply Forall_cons_2; [| | | |apply Forall_nil_2]; intros rest;
    unfold alertExists, SQLiteStatement_new, bindStringParameter, bindParameter, step;
    mrun; rewrite ?stringToInt_empty; reflexivity.
Qed.

(** C9. [alertExists] answers [false] when no row of [alerts_v2] carries the
    token, and also when the creation of its statement, the binding of the
    token, the step or the conversion of the count fails.  [store] takes
    that answer for the absence of the token: when the existence query
    fails and the calls after it succeed, [store] inserts the alert as it
    does for a new token (the tables having room for its rows), so that a
    token which [alerts_v2] holds is then held by one more row. *)
Theorem C9_existence_query_failure h la rows arows irows fs :
  (forall token,
     alertExists token (sys h (v2db la rows arows irows) fs []) =
     (0 <? count_token rows token, sys h (v2db la rows arows irows) fs [])) /\
  Forall (fun fl =>
            forall token rest,
              fst (alertExists token (sys h (v2db la rows arows irows) fs (fl ++ rest)))
              = false)
    existence_query_faults /\
  Forall (fun fl =>
            forall a,
              room (map col_id rows) 1 ->
              room (map asset_col_id arows)
                (length (map_to_list (assets (m_assetConfiguration a)))) ->
              room (map item_col_id irows)
                (length (assetPlayOrderItems (m_assetConfiguration a))) ->
              exists rows' arows' irows',
                store a (sys h (v2db la rows arows irows) fs fl) =
                ((true, set_dbId (next_id (map col_id rows)) a),
                 sys h (v2db la rows' arows' irows') fs []) /\
                rows' = rows ++ [alert_row (next_id (map col_id rows)) a] /\
                count_token rows' (m_token a) = count_token rows (m_token a) + 1)
    existence_query_faults.
Proof.
  split; [|split].
  - intros token. apply alertExists_healthy.
  - apply Forall_forall. intros fl Hfl token rest.
    pose proof (alertExists_faulty h la rows arows irows fs token) as H.
    rewrite Forall_forall in H. by rewrite (H fl Hfl rest).
  - apply Forall_forall. intros fl Hfl a Hroom Hrooma Hroomi.
    pose proof (alertExists_faulty h la rows arows irows fs (m_token a)) as H.
    rewrite Forall_forall in H. specialize (H fl Hfl []). rewrite app_nil_r in H.
    eexists _, _, _. split; [by apply store_after_check|]. split; [done|].
    by rewrite count_token_app, count_token_alert_row.
Qed.

(** ** Round trip of [store] and [load] *)


Lemma state_code_is_int st : int_of (state_code st) = state_code st.
Proof. by destruct st. Qed.

Lemma dbFieldToAlertState_state_code st : dbFieldToAlertState (state_code st) = Some st.
Proof. by destruct st. Qed.




Lemma load_healthy_decoded h la rows arows irows fs alerts :
  mapM (decode_row true) rows = Some alerts ->
  load [] (sys h (v2db la rows arows irows) fs []) =
  ((true, map (loadHelper_attach (assets_map arows) (items_map irows)) alerts),
   sys h (v2db la rows arows irows) fs []).
Proof.
  intros Hdec. rewrite load_healthy. cbn zeta.
  pose proof (while_pure_decode true rows (mkAlertLocals 0 "" 0 0 "" 0 0 "") []) as Hd.
  rewrite Hdec in Hd. destruct Hd as [-> ->]; [discriminate|]. reflexivity.
Qed.

(** *** The asset rows of the stored alert *)

Lemma asset_rows_alert_id alertId l :
  forall id r, r ∈ asset_rows alertId l id -> asset_col_alert_id r = alertId.
Proof.
  induction l as [|e l IH]; intros id r; cbn; [inversion 1|].
  intros [->|Hr]%elem_of_cons; [done|]. eapply IH, Hr.
Qed.





(** *** The play-order rows of the stored alert *)

Lemma play_order_rows_alert_id alertId l :
  forall id idx r, r ∈ play_order_rows alertId l id idx -> item_col_alert_id r = alertId.
Proof.
  induction l as [|e l IH]; intros id idx r; cbn; [inversion 1|].
  intros [->|Hr]%elem_of_cons; [done|]. eapply IH, Hr.
Qed.






(** ** The migration *)

(** [open] on a closed storage and a working engine: the handle is bound to
    the file and the migration runs; when it fails the handle is released. *)
Lemma open_healthy h db fs :
  open h (closed_sys h db fs []) =
  let r := migrateAlertsDbFromV1ToV2 (sys h db fs []) in
  if fst r then (true, snd r) else (false, snd (close (snd r))).
Proof.
  unfold open, openSQLiteDatabase, fileExists, bind, ret, closed_sys, get_dbHandle,
    set_dbHandle, engine_call.
  cbn [m_dbHandle is_some files faults negb].
  rewrite lookup_insert_eq. cbn [is_some negb andb files faults].
  rewrite ?lookup_insert_eq. cbn [is_some negb andb files faults m_dbHandle].
  change (mkSystem (Some h) (<[h:=db]> fs) []) with (sys h db fs []).
  destruct (migrateAlertsDbFromV1ToV2 (sys h db fs [])) as [[] s]; cbn; [reflexivity|].
  by destruct (close s).
Qed.

Lemma migrate_up_to_date h la rows oa oi fs :
  migrateAlertsDbFromV1ToV2 (sys h (mkDatabase la (Some rows) oa oi) fs []) =
  (true, sys h (mkDatabase la (Some rows) oa oi) fs []).
Proof. unfold migrateAlertsDbFromV1ToV2, tableExists. mrun. reflexivity. Qed.


Lemma loadHelper_attach_empty a : loadHelper_attach ∅ ∅ a = a.
Proof. unfold loadHelper_attach. by rewrite !lookup_empty. Qed.


Lemma decode_row_fields b r a :
  decode_row b r = Some a ->
  m_dbId a = int_of (col_id r) /\
  m_token a = col_token r /\
  type_code (variant a) = int_of (col_type r) /\
  state_code (m_state a) = int_of (col_state r) /\
  m_loopCount a = int_of (col_asset_loop_count r) /\
  m_loopPause a = int_of (col_asset_loop_pause_milliseconds r) /\
  m_assetConfiguration a =
    mkAssetConfiguration ∅ [] (if b then col_background_asset r else "") /\
  match convert8601TimeStringToUnix (col_scheduled_time_iso_8601 r) with
  | Some unixTime =>
      m_scheduledTime_ISO_8601 a = col_scheduled_time_iso_8601 r /\
      m_scheduledTime_Unix a = unixTime
  | None => m_scheduledTime_ISO_8601 a = "" /\ m_scheduledTime_Unix a = 0
  end.
Proof.
  unfold decode_row, loadHelper_alert. cbn.
  destruct (int_of (col_type r) =? ALERT_EVENT_TYPE_ALARM) eqn:E1;
    [|destruct (int_of (col_type r) =? ALERT_EVENT_TYPE_TIMER) eqn:E2;
      [|destruct (int_of (col_type r) =? ALERT_EVENT_TYPE_REMINDER) eqn:E3]];
    cbn; try discriminate;
    (destruct (dbFieldToAlertState (int_of (col_state r))) as [st|] eqn:Est;
     cbn; [|discriminate]);
    intros [= <-]; unfold setTime_ISO_8601;
    (assert (state_code st = int_of (col_state r)) as Hst
        by (revert Est; unfold dbFieldToAlertState;
            repeat (case Z.eqb_spec; [intros -> [= <-]; reflexivity | intros _]);
            discriminate));
    destruct (convert8601TimeStringToUnix (col_scheduled_time_iso_8601 r)) as [u|];
    cbn; split_and!; try done;
    try (symmetry; by apply Z.eqb_eq); try (by intros ? [= <-]).
Qed.

Lemma valid_codes_decode b r : valid_codes r -> is_Some (decode_row b r).
Proof.
  unfold valid_codes, decode_row, loadHelper_alert. cbn. intros [Ht Hs].
  assert (int_of (col_type r) = 1 \/ int_of (col_type r) = 2 \/ int_of (col_type r) = 3)
    as [->| [->| ->]] by lia; cbn;
    (assert (Hst : exists st, dbFieldToAlertState (int_of (col_state r)) = Some st);
     [ assert (int_of (col_state r) = 1 \/ int_of (col_state r) = 2 \/
               int_of (col_state r) = 3 \/ int_of (col_state r) = 4 \/
               int_of (col_state r) = 5 \/ int_of (col_state r) = 6 \/
               int_of (col_state r) = 7 \/ int_of (col_state r) = 8 \/
               int_of (col_state r) = 9 \/ int_of (col_state r) = 10)
         as [->| [->| [->| [->| [->| [->| [->| [->| [->| ->]]]]]]]]] by lia;
       cbn; eauto
     | destruct Hst as [st ->]; cbn; eauto ]).
Qed.






(** ** Open databases

    A database that [createDatabase] or [open] has opened holds [alerts_v2]:
    the states of the theorems above are those of every open database. *)

Lemma createDatabase_healthy h fs :
  fs !! h = None ->
  createDatabase h (mkSystem None fs []) = (true, sys h (v2db None [] [] []) fs []).
Proof.
  intros Hnone.
  unfold createDatabase, fileExists, createSQLiteDatabase, bind, ret, get_dbHandle,
    set_dbHandle, engine_call.
  cbn [m_dbHandle is_some files faults negb]. rewrite Hnone.
  cbn [is_some negb files faults m_dbHandle]. rewrite Hnone.
  cbn [is_some negb files faults m_dbHandle].
  change (mkSystem (Some h) (<[h:=empty_database]> fs) [])
    with (sys h empty_database fs []).
  unfold createAlertsTable, createAlertAssetsTable, createAlertAssetPlayOrderItemsTable,
    performQuery, empty_database.
  mrun. reflexivity.
Qed.

Lemma loadHelper_legacy_state h b lrows v2 arows irows fs container :
  exists r,
    loadHelper ALERTS_DATABASE_VERSION_ONE container
      (sys h (mkDatabase (Some (mkLegacyAlerts b lrows)) v2 (Some arows) (Some irows))
         fs []) =
    (r, sys h (mkDatabase (Some (mkLegacyAlerts b lrows)) v2 (Some arows) (Some irows))
          fs []).
Proof.
  unfold loadHelper, SQLiteStatement_new, step. mrun.
  rewrite (while_SQLITE_ROW_healthy _ (loadHelper_row_pure b))
    by (intros; apply loadHelper_row_healthy).
  destruct (while_pure _ lrows _) as [ok [l c]]. cbn [fst snd].
  destruct ok; cbn [negb]; [|eauto].
  rewrite loadAlertAssets_healthy. cbn.
  rewrite loadAlertAssetPlayOrderItems_healthy. cbn. eauto.
Qed.

Lemma migrate_store_loop_any h la fs alerts :
  forall rows oa oi,
    exists ok rows' oa' oi',
      migrate_store_loop alerts (sys h (mkDatabase la (Some rows) oa oi) fs []) =
      (ok, sys h (mkDatabase la (Some rows') oa' oi') fs []).
Proof.
  induction alerts as [|a alerts IH]; intros rows oa oi; [cbn; eauto|].
  cbn [migrate_store_loop]. unfold bind at 1.
  destruct (store_any h la rows oa oi fs a) as (ok & a' & rows' & oa' & oi' & -> & _).
  cbn [fst]. destruct ok; cbn [negb]; [apply IH|cbn; eauto].
Qed.

Lemma open_holds_alerts_v2 h db fs s' :
  open h (closed_sys h db fs []) = (true, s') ->
  exists la rows oa oi, s' = sys h (mkDatabase la (Some rows) oa oi) fs [].
Proof.
  rewrite open_healthy. cbn zeta.
  destruct (migrateAlertsDbFromV1ToV2 (sys h db fs [])) as [ok s] eqn:Hm.
  cbn [fst snd]. destruct ok; [|discriminate]. intros [= <-].
  revert Hm. destruct db as [ol [rows|] oa oi].
  { rewrite migrate_up_to_date. intros [= <-]. eauto. }
  unfold migrateAlertsDbFromV1ToV2.
  unfold tableExists at 1, createAlertsTable, createAlertAssetsTable,
    createAlertAssetPlayOrderItemsTable, performQuery.
  unfold tableExists at 1. unfold tableExists at 1. unfold tableExists at 1.
  destruct ol as [[b lrows]|], oa as [arows|], oi as [irows|]; mrun;
    try (intros [= <-]; eauto; fail);
    match goal with
    | |- context [loadHelper _ [] (sys h (mkDatabase (Some (mkLegacyAlerts ?b' ?lrows')) ?v2
                                           (Some ?ar) (Some ?ir)) fs [])] =>
        destruct (loadHelper_legacy_state h b' lrows' v2 ar ir fs []) as [[ok c] ->]
    end;
    cbn; (destruct ok; cbn; [|discriminate]);
    match goal with
    | |- context [migrate_store_loop ?c' (sys h (mkDatabase ?la (Some ?rows) ?oa ?oi) fs [])] =>
        destruct (migrate_store_loop_any h la fs c' rows oa oi)
          as (ok2 & rows' & oa' & oi' & ->)
    end;
    cbn; (destruct ok2; cbn; [|discriminate]);
    unfold dropTable; mrun; intros [= <-]; eauto.
Qed.

(** ** The order of the play-order items *)

(** C8. On a working engine and play-order rows of which no two of one
    alert share a position (the alert ids and the positions being the
    values that the load reads, as [int]s): [load] succeeds when the types
    and the states of the rows of [alerts_v2] are codes; a [load] that
    succeeds returns one alert for each row of [alerts_v2], in the order of
    the rows, with the id and the token of its row, and the play-order list
    of each alert is the tokens of exactly its play-order rows in strictly
    ascending [asset_play_order_position]; and it returns the same alerts
    in whatever order the engine returns the play-order rows. *)
Theorem C8_load_sorts_play_order h la rows arows irows fs :
  NoDup (map (fun r => (int_of (item_col_alert_id r),
                        int_of (item_col_asset_play_order_position r))) irows) ->
  (Forall valid_codes rows ->
   fst (fst (load [] (sys h (v2db la rows arows irows) fs []))) = true) /\
  (forall out s',
     load [] (sys h (v2db la rows arows irows) fs []) = ((true, out), s') ->
     Forall2 (fun r a =>
                m_dbId a = int_of (col_id r) /\
                m_token a = col_token r /\
                exists items,
                  items ≡ₚ map item_of (items_of_alert (m_dbId a) irows) /\
                  StronglySorted index_lt items /\
                  assetPlayOrderItems (m_assetConfiguration a) = map name items)
       rows out /\
     (forall irows', irows' ≡ₚ irows ->
        fst (load [] (sys h (v2db la rows arows irows') fs [])) = (true, out))).
Proof.
  intros Hnd. split.
  - intros Hvalid.
    assert (Hsome : is_Some (mapM (decode_row true) rows)).
    { apply mapM_is_Some. eapply Forall_impl; [exact Hvalid|].
      intros r Hr. by apply valid_codes_decode. }
    destruct Hsome as [alerts Hdec]. by rewrite (load_healthy_decoded _ _ _ _ _ _ _ Hdec).
  - intros out s' Hload.
    apply load_healthy_alerts in Hload as (alerts & Hdec & -> & ->).
    split.
    + apply mapM_Some_1 in Hdec. apply Forall2_fmap_r.
      eapply Forall2_impl; [exact Hdec|]. intros r a0 Hr. cbn.
      pose proof (decode_row_fields true r a0 Hr) as (Hid & Htok & _).
      rewrite loadHelper_attach_eq.
      cbn [m_dbId m_token m_assetConfiguration set_assetConfiguration assetPlayOrderItems].
      rewrite (decode_row_configuration _ _ _ Hr). cbn [assetPlayOrderItems app].
      split; [done|]. split; [done|].
      exists (default [] (items_map irows !! m_dbId a0)).
      destruct (items_map_default_sorted irows (m_dbId a0) Hnd) as [Hp Hs].
      auto.
    + intros irows' Hperm. rewrite load_healthy. cbn zeta.
      pose proof (while_pure_decode true rows (mkAlertLocals 0 "" 0 0 "" 0 0 "") []) as Hd.
      rewrite Hdec in Hd. destruct Hd as [-> ->]; [discriminate|]. cbn.
      by rewrite (items_map_permutation irows irows' Hnd Hperm).
Qed.

(** * Further properties of the storage *)

(** ** Calls that only read *)

Lemma read_only_ret {A : Type} (a : A) : read_only (ret a).
Proof. by intros s. Qed.

Lemma read_only_bind_post {A B : Type} (P : A -> Prop) (m : M A) (k : A -> M B) :
  read_only m -> (forall s, P (fst (m s))) -> (forall a, P a -> read_only (k a)) ->
  read_only (bind m k).
Proof.
  intros Hm HP Hk s. unfold bind.
  specialize (Hm s). specialize (HP s).
  destruct (m s) as [a s1]. cbn in Hm, HP. destruct Hm as (Hf & Hh & Hfl).
  destruct (Hk a HP s1) as (Hf' & Hh' & Hfl').
  split_and!; [congruence|congruence|auto].
Qed.

Lemma read_only_bind {A B : Type} (m : M A) (k : A -> M B) :
  read_only m -> (forall a, read_only (k a)) -> read_only (bind m k).
Proof. intros Hm Hk. apply (read_only_bind_post (fun _ => True)); auto. Qed.

Lemma read_only_get_dbHandle : read_only get_dbHandle.
Proof. by intros s. Qed.

Lemma read_only_engine_call : read_only engine_call.
Proof.
  intros [h fs fl]. unfold engine_call. cbn. destruct fl; cbn; [done|].
  split_and!; [done|done|discriminate].
Qed.

Lemma read_only_engine_do {A : Type} dbHandle (f : Database -> option (A * Database)) :
  (forall db a db', f db = Some (a, db') -> db' = db) ->
  read_only (engine_do dbHandle f).
Proof.
  intros Hf. unfold engine_do. destruct dbHandle as [path|]; [|apply read_only_ret].
  apply read_only_bind; [apply read_only_engine_call|].
  intros ok. destruct ok; cbn [negb]; [|apply read_only_ret].
  intros s. destruct (files s !! path) as [db|] eqn:Hdb; [|done].
  destruct (f db) as [[a db']|] eqn:Hfdb; [|done].
  apply Hf in Hfdb as ->. cbn. by rewrite insert_id.
Qed.

Lemma read_only_and_then {A B : Type} (m : M (option A)) (k : A -> M (option B)) :
  read_only m -> (forall a, read_only (k a)) -> read_only (m >>? k).
Proof.
  intros Hm Hk. unfold and_then. apply read_only_bind; [done|].
  intros [a|]; [apply Hk | apply read_only_ret].
Qed.

Lemma read_only_foldM {A B : Type} (f : B -> A -> M A) (l : list B) :
  (forall x a, read_only (f x a)) -> forall a, read_only (foldM f l a).
Proof.
  intros Hf. induction l as [|x l IH]; intros a; cbn; [apply read_only_ret|].
  apply read_only_bind; [apply Hf | apply IH].
Qed.

Lemma read_only_while {St : Type} (body : Row -> St -> M (bool * St)) (rows : list Row) :
  (forall r st, read_only (body r st)) ->
  forall st, read_only (while_SQLITE_ROW body rows st).
Proof.
  intros Hb. induction rows as [|r rows IH]; intros st; cbn; [apply read_only_ret|].
  apply read_only_bind; [apply Hb|].
  intros [continue st']. destruct continue; cbn [negb]; [|apply read_only_ret].
  apply read_only_bind; [apply read_only_engine_call|].
  intros ok. destruct ok; [apply IH | apply read_only_ret].
Qed.

Lemma read_only_getColumnText v : read_only (getColumnText v).
Proof.
  destruct v; cbn; [|apply read_only_ret].
  apply read_only_bind; [apply read_only_engine_call | intros ok; apply read_only_ret].
Qed.

Lemma read_only_SQLiteStatement_new dbHandle sql :
  read_only (SQLiteStatement_new dbHandle sql).
Proof.
  unfold SQLiteStatement_new. apply read_only_bind; [|intros r; apply read_only_ret].
  apply read_only_engine_do. by intros db a db' [= _ ->].
Qed.

Lemma SQLiteStatement_new_sql dbHandle sql s :
  statement_sql (fst (SQLiteStatement_new dbHandle sql s)) = sql.
Proof.
  unfold SQLiteStatement_new, bind. by destruct (engine_do _ _ s).
Qed.

Lemma read_only_bindParameter index value statement :
  read_only (bindParameter index value statement).
Proof.
  unfold bindParameter.
  apply read_only_bind; [apply read_only_engine_call | intros ok; apply read_only_ret].
Qed.

Lemma bindParameter_sql index value statement s :
  match fst (bindParameter index value statement s) with
  | Some statement' => statement_sql statement' = statement_sql statement
  | None => True
  end.
Proof.
  unfold bindParameter, bind, ret. destruct (engine_call s) as [ok s1]. cbn.
  by destruct (_ && _).
Qed.

Lemma run_select statement db r db' :
  is_select (statement_sql statement) = true -> run statement db = Some (r, db') -> db' = db.
Proof.
  unfold run. destruct (statement_sql statement) as [| | | | |t| | | |]; try discriminate;
    intros _ H; [| |destruct t]; by simplify_option_eq.
Qed.

Lemma read_only_step statement :
  is_select (statement_sql statement) = true -> read_only (step statement).
Proof.
  intros Hsel. unfold step. destruct (negb (isValid statement)); [apply read_only_ret|].
  apply read_only_engine_do. intros db a db'. by apply run_select.
Qed.

Ltac read_only_step :=
  match goal with
  | |- read_only (ret _) => apply read_only_ret
  | |- read_only get_dbHandle => apply read_only_get_dbHandle
  | |- read_only engine_call => apply read_only_engine_call
  | |- read_only (getColumnText _) => apply read_only_getColumnText
  | |- read_only (bindParameter _ _ _) => apply read_only_bindParameter
  | |- read_only (SQLiteStatement_new _ _) => apply read_only_SQLiteStatement_new
  | |- read_only (foldM _ _ _) => apply read_only_foldM; intros ? ?
  | |- read_only (while_SQLITE_ROW _ _ _) => apply read_only_while; intros ? ?
  | |- read_only (bind (SQLiteStatement_new ?h ?sql) _) =>
      apply (read_only_bind_post (fun st => statement_sql st = sql));
      [apply read_only_SQLiteStatement_new
      |intros ?; apply SQLiteStatement_new_sql
      |intros ? ?]
  | |- read_only (bind (bindParameter ?i ?v ?st) _) =>
      apply (read_only_bind_post
               (fun r => match r with
                         | Some st' => statement_sql st' = statement_sql st
                         | None => True
                         end));
      [apply read_only_bindParameter
      |intros ?; apply bindParameter_sql
      |intros ? ?]
  | |- read_only (bind (step ?st) _) =>
      apply read_only_bind;
      [apply read_only_step;
       repeat match goal with H : statement_sql _ = _ |- _ => rewrite H; clear H end;
       reflexivity
      |intros ?]
  | |- read_only (bind _ _) => apply read_only_bind; [|intros ?]
  | |- read_only (if ?b then _ else _) => destruct b
  | |- read_only (match ?x with _ => _ end) => destruct x
  end.

Lemma read_only_alertExistsByAlertId dbHandle alertId :
  read_only (alertExistsByAlertId dbHandle alertId).
Proof.
  unfold alertExistsByAlertId, bindIntParameter.
  repeat read_only_step.
Qed.

Lemma read_only_alertExists token : read_only (alertExists token).
Proof.
  unfold alertExists, bindStringParameter.
  repeat read_only_step.
Qed.

Lemma read_only_loadAlertAssets dbHandle m : read_only (loadAlertAssets dbHandle m).
Proof. unfold loadAlertAssets, loadAlertAssets_row. repeat read_only_step. Qed.

Lemma read_only_loadAlertAssetPlayOrderItems dbHandle m :
  read_only (loadAlertAssetPlayOrderItems dbHandle m).
Proof.
  unfold loadAlertAssetPlayOrderItems, loadAlertAssetPlayOrderItems_row.
  repeat read_only_step.
Qed.

Lemma read_only_loadHelper dbVersion container : read_only (loadHelper dbVersion container).
Proof.
  unfold loadHelper.
  apply read_only_bind; [apply read_only_get_dbHandle|]. intros dbHandle.
  destruct (negb (is_some dbHandle)); [apply read_only_ret|].
  destruct (_ && _); [apply read_only_ret|].
  match goal with
  | |- read_only (bind (SQLiteStatement_new _ ?sql) _) =>
      apply (read_only_bind_post (fun st => statement_sql st = sql));
      [apply read_only_SQLiteStatement_new
      |intros s; apply SQLiteStatement_new_sql
      |intros statement Hsql]
  end.
  destruct (negb (isValid statement)); [apply read_only_ret|].
  apply read_only_bind; [apply read_only_step; rewrite Hsql; reflexivity|].
  intros [rows|]; [|apply read_only_ret].
  apply read_only_bind.
  - apply read_only_while. intros r st. unfold loadHelper_row.
    apply read_only_bind.
    + apply read_only_foldM. intros c l. unfold loadHelper_column. repeat read_only_step.
    + intros locals. destruct (loadHelper_alert locals); apply read_only_ret.
  - intros r. cbn zeta. destruct (negb (fst r)); [apply read_only_ret|].
    apply read_only_bind; [apply read_only_loadAlertAssets|]. intros assetsLoaded.
    destruct (negb (fst assetsLoaded)); [apply read_only_ret|].
    apply read_only_bind; [apply read_only_loadAlertAssetPlayOrderItems|]. intros itemsLoaded.
    destruct (negb (fst itemsLoaded)); apply read_only_ret.
Qed.

(** On the states [sys], a computation that only reads returns the state
    with the faults it consumed removed. *)
Lemma read_only_sys {A : Type} (m : M A) h db fs fl :
  read_only m ->
  exists a fl', m (sys h db fs fl) = (a, sys h db fs fl') /\ (fl = [] -> fl' = []).
Proof.
  intros Hm. destruct (Hm (sys h db fs fl)) as (Hf & Hh & Hfl).
  destruct (m (sys h db fs fl)) as [a s'] eqn:E. cbn in Hf, Hh, Hfl.
  exists a, (faults s'). split; [|exact Hfl].
  f_equal. destruct s' as [h' fs' fl']. cbn in *. by subst.
Qed.

(** ** The codec *)

Lemma dbFieldToAlertState_Some code st :
  dbFieldToAlertState code = Some st -> alertStateToDbField st = Some code.
Proof.
  unfold dbFieldToAlertState.
  repeat match goal with
         | |- context [?x =? ?c] =>
             destruct (Z.eqb_spec x c); [subst; by intros [= <-]|]
         end.
  discriminate.
Qed.

(** X1. The state codec is a bijection between the ten states and the codes 1
    to 10: every state has a code that decodes to it, a code that decodes
    comes from its state, and the codes that do not decode are those
    outside 1..10. *)
Theorem alert_state_codec_round_trip :
  (forall st, exists code,
      alertStateToDbField st = Some code /\ dbFieldToAlertState code = Some st) /\
  (forall code st, dbFieldToAlertState code = Some st -> alertStateToDbField st = Some code) /\
  (forall code, dbFieldToAlertState code = None <-> ~ (1 <= code <= 10)).
Proof.
  split_and!.
  - intros st. destruct st; eexists; split; reflexivity.
  - apply dbFieldToAlertState_Some.
  - intros code. unfold dbFieldToAlertState.
    unfold ALERT_STATE_UNSET, ALERT_STATE_SET, ALERT_STATE_READY, ALERT_STATE_ACTIVATING,
      ALERT_STATE_ACTIVE, ALERT_STATE_SNOOZING, ALERT_STATE_SNOOZED, ALERT_STATE_STOPPING,
      ALERT_STATE_STOPPED, ALERT_STATE_COMPLETED.
    repeat match goal with
           | |- context [code =? ?c] =>
               destruct (Z.eqb_spec code c); [split; [discriminate|lia]|]
           end.
    split; [lia|done].
Qed.

Lemma setTime_ISO_8601_variant t a : variant (setTime_ISO_8601 t a) = variant a.
Proof. unfold setTime_ISO_8601. by destruct (convert8601TimeStringToUnix t). Qed.

(** X2. The type codec: [alertTypeToDbField] accepts the three type names and
    nothing else, with the codes 1, 2 and 3; and the alert that [loadHelper]
    makes of a row encodes back to the type and the state codes it was made
    of. *)
Theorem alert_type_codec_round_trip :
  (forall typeName code,
     alertTypeToDbField typeName = Some code <->
     (typeName = "ALARM" /\ code = 1) \/ (typeName = "TIMER" /\ code = 2) \/
     (typeName = "REMINDER" /\ code = 3)) /\
  (forall l a,
     loadHelper_alert l = Some a ->
     alertTypeToDbField (getTypeName a) = Some (l_type l) /\
     alertStateToDbField (m_state a) = Some (l_state l)).
Proof.
  split.
  - intros typeName code. unfold alertTypeToDbField.
    unfold ALERT_EVENT_TYPE_ALARM_STRING, ALERT_EVENT_TYPE_TIMER_STRING,
      ALERT_EVENT_TYPE_REMINDER_STRING.
    destruct (String.eqb_spec "ALARM" typeName) as [<-|H1].
    { split; [intros [= <-]; by left | intros [[_ ->]|[[[=] _]|[[=] _]]]; done]. }
    destruct (String.eqb_spec "TIMER" typeName) as [<-|H2].
    { split; [intros [= <-]; right; by left | intros [[[=] _]|[[_ ->]|[[=] _]]]; done]. }
    destruct (String.eqb_spec "REMINDER" typeName) as [<-|H3].
    { split; [intros [= <-]; right; by right | intros [[[=] _]|[[[=] _]|[_ ->]]]; done]. }
    split; [discriminate | intros [[-> _]|[[-> _]|[-> _]]]; done].
  - intros l a. unfold loadHelper_alert.
    intros H. apply bind_Some in H as (v & Hv & H).
    apply bind_Some in H as (st & Hst & [= <-]).
    split.
    + unfold getTypeName. cbn [variant set_state setBackgroundAssetId set_assetConfiguration
                                 setLoopPause setLoopCount].
      rewrite setTime_ISO_8601_variant. cbn.
      repeat match type of Hv with
             | context [?x =? ?c] =>
                 destruct (Z.eqb_spec x c) as [->|?]; [by injection Hv as <-|]
             end.
      discriminate.
    + cbn. by apply dbFieldToAlertState_Some.
Qed.

(** ** [load] only reads *)

(** X3. [load] and the load of the migration leave every file and the handle
    as they are, in any state and whatever the outcomes of the calls into
    the engine. *)
Theorem load_only_reads container s :
  files (snd (load container s)) = files s /\
  m_dbHandle (snd (load container s)) = m_dbHandle s /\
  files (snd (loadHelper ALERTS_DATABASE_VERSION_ONE container s)) = files s /\
  m_dbHandle (snd (loadHelper ALERTS_DATABASE_VERSION_ONE container s)) = m_dbHandle s.
Proof.
  destruct (read_only_loadHelper ALERTS_DATABASE_VERSION_TWO container s) as (? & ? & _).
  destruct (read_only_loadHelper ALERTS_DATABASE_VERSION_ONE container s) as (? & ? & _).
  done.
Qed.

(** ** A [modify] that fails *)

Lemma engine_do_None {A : Type} dbHandle (f : Database -> option (A * Database)) s s' :
  engine_do dbHandle f s = (None, s') ->
  files s' = files s /\ m_dbHandle s' = m_dbHandle s.
Proof.
  unfold engine_do. destruct dbHandle as [path|]; [|by intros [= <-]].
  unfold bind. pose proof (read_only_engine_call s) as (Hf & Hh & _).
  destruct (engine_call s) as [ok s1]. cbn in Hf, Hh.
  destruct ok; cbn; [|by intros [= <-]].
  destruct (files s1 !! path) as [db|]; [|by intros [= <-]].
  destruct (f db) as [[a db']|]; [discriminate | by intros [= <-]].
Qed.

Lemma fails_without_effect_ret b : fails_without_effect (ret b).
Proof. by intros s s' [= _ <-]. Qed.

Lemma fails_without_effect_bind {A : Type} (m : M A) (k : A -> M bool) :
  read_only m -> (forall a, fails_without_effect (k a)) -> fails_without_effect (bind m k).
Proof.
  intros Hm Hk s s'. unfold bind. pose proof (Hm s) as (Hf & Hh & _).
  destruct (m s) as [a s1]. cbn in Hf, Hh. intros H. apply Hk in H as [? ?].
  split; congruence.
Qed.

Lemma modify_fails_without_effect a : fails_without_effect (modify a).
Proof.
  unfold modify.
  apply fails_without_effect_bind; [apply read_only_get_dbHandle|]. intros dbHandle.
  destruct (negb (is_some dbHandle)); [apply fails_without_effect_ret|].
  apply fails_without_effect_bind; [apply read_only_alertExists|]. intros present.
  destruct (negb present); [apply fails_without_effect_ret|].
  destruct (alertStateToDbField (m_state a)) as [alertState|];
    [|apply fails_without_effect_ret].
  apply fails_without_effect_bind; [apply read_only_SQLiteStatement_new|]. intros statement.
  destruct (negb (isValid statement)); [apply fails_without_effect_ret|].
  apply fails_without_effect_bind.
  { unfold bindIntParameter, bindInt64Parameter, bindStringParameter.
    repeat (apply read_only_and_then; [|intros ?]); apply read_only_bindParameter. }
  intros [bound|]; [|apply fails_without_effect_ret].
  intros s s'. unfold bind, step, ret.
  destruct (negb (isValid bound)); [by intros [= <-]|].
  destruct (engine_do _ _ s) as [[r|] s1] eqn:E; cbn; [discriminate|].
  intros [= <-]. by apply engine_do_None in E.
Qed.

(** X4. [modify] is all or nothing: when it returns [false], in any state and
    whatever the outcomes of the calls into the engine, every file and the
    handle are as they were; and on a working engine it returns [false] for
    an alert whose token [alerts_v2] does not hold. *)
Theorem modify_all_or_nothing a :
  (forall s s',
     modify a s = (false, s') -> files s' = files s /\ m_dbHandle s' = m_dbHandle s) /\
  (forall h la rows oa oi fs,
     Forall (fun r => col_token r <> m_token a) rows ->
     modify a (sys h (mkDatabase la (Some rows) oa oi) fs []) =
     (false, sys h (mkDatabase la (Some rows) oa oi) fs [])).
Proof.
  split; [apply modify_fails_without_effect|].
  intros h la rows oa oi fs Hnone. rewrite modify_healthy.
  destruct (0 <? count_token rows (m_token a)) eqn:E; [|done].
  apply count_token_pos in E as (r & Hr & Ht).
  rewrite Forall_forall in Hnone. by destruct (Hnone r Hr).
Qed.

(** ** A storage that is not open *)

(** X5. On a storage whose handle is null, as the constructor leaves it and as
    [close] leaves it, every operation fails and changes nothing, including
    [clearDatabase], which does not check the handle itself; the
    diagnostics print nothing. *)
Theorem closed_storage_refuses s :
  m_dbHandle s = None ->
  isOpen s = (false, s) /\
  (forall a, store a s = ((false, a), s)) /\
  (forall container, load container s = ((false, container), s)) /\
  (forall a, modify a s = (false, s)) /\
  (forall a, erase a s = (false, s)) /\
  (forall ids, erase_ids ids s = (false, s)) /\
  clearDatabase s = (false, s) /\
  (forall level, printStats level s = ([], s)) /\
  close s = (tt, s).
Proof.
  destruct s as [h fs fl]. cbn. intros ->.
  split_and!; try reflexivity; try (intros ?; reflexivity).
  intros level. by destruct level.
Qed.

(** ** What [store] leaves behind *)

Lemma fmap_app_nil {A : Type} (o : option (list A)) : (fun l => l ++ []) <$> o = o.
Proof. destruct o; cbn; by rewrite ?app_nil_r. Qed.

Lemma storeAlertAssets_loop_prefix h la ov2 oi fs alertId l :
  forall id oa bound0 fl,
    exists ok k fl',
      storeAlertAssets_loop
        (mkSQLiteStatement (Some h) INSERT_INTO_ALERT_ASSETS true bound0) alertId l id
        (sys h (mkDatabase la ov2 oa oi) fs fl) =
      (ok, sys h (mkDatabase la ov2
                    ((fun arows => arows ++ take k (asset_rows alertId l id)) <$> oa) oi)
             fs fl') /\
      (fl = [] -> fl' = []) /\
      (ok = true -> k = length l).
Proof.
  induction l as [|e l IH]; intros id oa bound0 fl.
  { exists true, 0%nat, fl. destruct oa; cbn; by rewrite ?app_nil_r. }
  cbn [storeAlertAssets_loop].
  unfold bindIntParameter, bindStringParameter, bindParameter, step, reset.
  destruct oa as [arows|]; engine_cases;
    first [ by (exists false, 0%nat; eexists; cbn; rewrite ?app_nil_r;
                split; [reflexivity|split; [intros ->; reflexivity|discriminate]])
          | by (exists false, 1%nat; eexists; cbn;
                split; [reflexivity|split; [intros ->; reflexivity|discriminate]])
          | edestruct IH as (ok & k & fl' & Heq & Hfl & Hk); rewrite Heq;
            exists ok, (S k), fl'; cbn; rewrite <- app_assoc;
            split; [reflexivity|split; [intros ->; by apply Hfl|intros Hok; by rewrite Hk]] ].
Qed.

Lemma storeAlertAssets_prefix h la ov2 oa oi fs fl alertId c :
  exists ok k fl',
    storeAlertAssets (Some h) alertId c (sys h (mkDatabase la ov2 oa oi) fs fl) =
    (ok, sys h (mkDatabase la ov2
                  ((fun arows =>
                      arows ++ take k (asset_rows alertId (map_to_list (assets c))
                                         (next_id (map asset_col_id arows)))) <$> oa) oi)
           fs fl') /\
    (fl = [] -> fl' = []) /\
    (ok = true -> k = length (map_to_list (assets c))).
Proof.
  unfold storeAlertAssets. case_bool_decide as Hempty.
  { exists true, 0%nat, fl. rewrite Hempty, map_to_list_empty.
    destruct oa; cbn; by rewrite ?app_nil_r. }
  unfold getTableMaxIntValue, SQLiteStatement_new.
  destruct oa as [arows|]; engine_cases;
    first [ by (exists false, 0%nat; eexists; cbn; rewrite ?app_nil_r;
                split; [reflexivity|split; [intros ->; reflexivity|discriminate]])
          | edestruct storeAlertAssets_loop_prefix as (ok & k & fl' & Heq & Hfl & Hk);
            rewrite Heq; exists ok, k, fl';
            split; [reflexivity|split; [intros ->; by apply Hfl|exact Hk]] ].
Qed.

Lemma storeAlertAssetPlayOrderItems_loop_prefix h la ov2 oa fs alertId l :
  forall id itemIndex oi bound0 fl,
    exists ok k fl',
      storeAlertAssetPlayOrderItems_loop
        (mkSQLiteStatement (Some h) INSERT_INTO_ALERT_ASSET_PLAY_ORDER_ITEMS true bound0)
        alertId l id itemIndex
        (sys h (mkDatabase la ov2 oa oi) fs fl) =
      (ok, sys h (mkDatabase la ov2 oa
                    ((fun irows => irows ++ take k (play_order_rows alertId l id itemIndex))
                       <$> oi)) fs fl') /\
      (fl = [] -> fl' = []) /\
      (ok = true -> k = length l).
Proof.
  induction l as [|e l IH]; intros id itemIndex oi bound0 fl.
  { exists true, 0%nat, fl. destruct oi; cbn; by rewrite ?app_nil_r. }
  cbn [storeAlertAssetPlayOrderItems_loop].
  unfold bindIntParameter, bindStringParameter, bindParameter, step, reset.
  destruct oi as [irows|]; engine_cases;
    first [ by (exists false, 0%nat; eexists; cbn; rewrite ?app_nil_r;
                split; [reflexivity|split; [intros ->; reflexivity|discriminate]])
          | by (exists false, 1%nat; eexists; cbn;
                split; [reflexivity|split; [intros ->; reflexivity|discriminate]])
          | edestruct IH as (ok & k & fl' & Heq & Hfl & Hk); rewrite Heq;
            exists ok, (S k), fl'; cbn; rewrite <- app_assoc;
            split; [reflexivity|split; [intros ->; by apply Hfl|intros Hok; by rewrite Hk]] ].
Qed.

Lemma storeAlertAssetPlayOrderItems_prefix h la ov2 oa oi fs fl alertId c :
  exists ok k fl',
    storeAlertAssetPlayOrderItems (Some h) alertId c
      (sys h (mkDatabase la ov2 oa oi) fs fl) =
    (ok, sys h (mkDatabase la ov2 oa
                  ((fun irows =>
                      irows ++ take k (play_order_rows alertId (assetPlayOrderItems c)
                                         (next_id (map item_col_id irows)) 1)) <$> oi))
           fs fl') /\
    (fl = [] -> fl' = []) /\
    (ok = true -> k = length (assetPlayOrderItems c)).
Proof.
  unfold storeAlertAssetPlayOrderItems. case_bool_decide as Hempty.
  { exists true, 0%nat, fl. rewrite Hempty. destruct oi; cbn; by rewrite ?app_nil_r. }
  unfold getTableMaxIntValue, SQLiteStatement_new.
  destruct oi as [irows|]; engine_cases;
    first [ by (exists false, 0%nat; eexists; cbn; rewrite ?app_nil_r;
                split; [reflexivity|split; [intros ->; reflexivity|discriminate]])
          | edestruct storeAlertAssetPlayOrderItems_loop_prefix
              as (ok & k & fl' & Heq & Hfl & Hk);
            rewrite Heq; exists ok, k, fl';
            split; [reflexivity|split; [intros ->; by apply Hfl|exact Hk]] ].
Qed.

Lemma store_prefix h la rows oa oi fs fl a :
  let id := next_id (map col_id rows) in
  let c := m_assetConfiguration a in
  exists ok a' s',
    store a (sys h (mkDatabase la (Some rows) oa oi) fs fl) = ((ok, a'), s') /\
    ((ok = false /\ a' = a /\
      exists fl', s' = sys h (mkDatabase la (Some rows) oa oi) fs fl' /\
                  (fl = [] -> fl' = [])) \/
     (a' = set_dbId id a /\
      exists k j fl',
        s' = sys h (mkDatabase la (Some (rows ++ [alert_row id a]))
                      ((fun arows =>
                          arows ++ take k (asset_rows id (map_to_list (assets c))
                                             (next_id (map asset_col_id arows)))) <$> oa)
                      ((fun irows =>
                          irows ++ take j (play_order_rows id (assetPlayOrderItems c)
                                             (next_id (map item_col_id irows)) 1)) <$> oi))
               fs fl' /\
        (fl = [] -> fl' = []) /\
        (j <> 0%nat -> k = length (map_to_list (assets c))) /\
        (ok = true ->
         k = length (map_to_list (assets c)) /\ j = length (assetPlayOrderItems c)))).
Proof.
  intros id c. subst id c.
  unfold store. unfold bind at 1. rewrite get_dbHandle_sys. cbn [is_some negb].
  unfold bind at 1.
  destruct (alertExists_any h (mkDatabase la (Some rows) oa oi) fs fl (m_token a))
    as (b & fl1 & Hex & _).
  assert (Hfl1 : fl = [] -> fl1 = []).
  { intros ->. destruct (alertExists_rest h (mkDatabase la (Some rows) oa oi) fs (m_token a))
      as [b' Hrest].
    rewrite Hrest in Hex. apply (f_equal snd) in Hex. cbn [snd] in Hex.
    apply (f_equal faults) in Hex. by rewrite !faults_sys in Hex. }
  rewrite Hex. clear Hex.
  destruct b; [eexists _, _, _; split; [reflexivity|]; left; eauto|].
  rewrite alertTypeToDbField_getTypeName, alertStateToDbField_code.
  unfold getTableMaxIntValue, SQLiteStatement_new.
  unfold bindIntParameter, bindInt64Parameter, bindStringParameter, bindParameter, step.
  engine_cases;
    try (eexists _, _, _; split; [reflexivity|]; left; split; [done|]; split; [done|];
         eexists; split; [reflexivity|]; intros Hfl; by rewrite (Hfl1 Hfl)).
  fold (next_id (map col_id rows)).
  edestruct storeAlertAssets_prefix as (ok1 & k & fl2 & Heq1 & Hfl2 & Hk). rewrite Heq1.
  destruct ok1; cbn [negb].
  - edestruct storeAlertAssetPlayOrderItems_prefix as (ok2 & j & fl3 & Heq2 & Hfl3 & Hj).
    rewrite Heq2.
    destruct ok2; cbn [negb]; (eexists _, _, _; split; [reflexivity|]; right;
      split; [reflexivity|]; exists k, j, fl3; split; [reflexivity|]; split;
      [intros Hfl; apply Hfl3, Hfl2; by rewrite (Hfl1 Hfl)|]; split; auto).
  - eexists _, _, _. split; [reflexivity|]. right. split; [reflexivity|].
    exists k, 0%nat, fl2.
    split; [by (destruct oi; cbn; rewrite ?app_nil_r)|].
    split; [intros Hfl; apply Hfl2; by rewrite (Hfl1 Hfl)|]. split; [done|discriminate].
Qed.

(** X6. [store] only adds rows, and adds them in one order: the row of the
    alert, then its asset rows, then its play-order rows.  Whatever the
    outcomes of the calls into the engine, either nothing was added (and
    [store] failed and left the alert as it was), or the row of the alert
    was added under the next id, which the alert now carries, followed by
    the asset rows of the first [k] assets of an enumeration of the catalog
    (the order in which the [std::unordered_map] is gone through, which is
    not specified) and the first [j] play-order rows; play-order rows are
    added only after all asset rows, and a [store] that succeeded added
    them all.  No row that was there is changed or removed. *)
Theorem store_inserts_a_prefix h la rows oa oi fs fl a :
  let id := next_id (map col_id rows) in
  let c := m_assetConfiguration a in
  exists ok a' s',
    store a (sys h (mkDatabase la (Some rows) oa oi) fs fl) = ((ok, a'), s') /\
    ((ok = false /\ a' = a /\
      exists fl', s' = sys h (mkDatabase la (Some rows) oa oi) fs fl') \/
     (a' = set_dbId id a /\
      exists catalog k j fl',
        catalog ≡ₚ map_to_list (assets c) /\
        s' = sys h (mkDatabase la (Some (rows ++ [alert_row id a]))
                      ((fun arows =>
                          arows ++ take k (asset_rows id catalog
                                             (next_id (map asset_col_id arows)))) <$> oa)
                      ((fun irows =>
                          irows ++ take j (play_order_rows id (assetPlayOrderItems c)
                                             (next_id (map item_col_id irows)) 1)) <$> oi))
               fs fl' /\
        (j <> 0%nat -> k = length catalog) /\
        (ok = true -> k = length catalog /\ j = length (assetPlayOrderItems c)))).
Proof.
  intros id c.
  destruct (store_prefix h la rows oa oi fs fl a) as (ok & a' & s' & Heq & H).
  exists ok, a', s'. split; [exact Heq|].
  destruct H as [(? & ? & fl' & ? & _)|(? & k & j & fl' & ? & _ & ? & ?)].
  - left. eauto.
  - right. split; [done|]. by exists (map_to_list (assets c)), k, j, fl'.
Qed.

(** X7. [store] on a file that has no table [alertAssets] (as [open] leaves a
    file that holds [alerts_v2] alone), for an alert with assets and on a
    working engine: the call returns [false], yet the row of the alert is
    inserted and the alert carries its id; storing the alert again then
    fails on its token and changes nothing. *)
Theorem store_without_asset_table h la rows oi fs a :
  assets (m_assetConfiguration a) <> ∅ ->
  Forall (fun r => col_token r <> m_token a) rows ->
  room (map col_id rows) 1 ->
  let id := next_id (map col_id rows) in
  let s' := sys h (mkDatabase la (Some (rows ++ [alert_row id a])) None oi) fs [] in
  store a (sys h (mkDatabase la (Some rows) None oi) fs []) = ((false, set_dbId id a), s') /\
  store (set_dbId id a) s' = ((false, set_dbId id a), s') /\
  store a s' = ((false, a), s').
Proof.
  intros Hassets Htok Hroom id s'. subst id s'.
  assert ((0 <? count_token rows (m_token a)) = false) as E.
  { destruct (0 <? count_token rows (m_token a)) eqn:E; [|done].
    apply count_token_pos in E as (r & Hr & Ht).
    rewrite Forall_forall in Htok. by destruct (Htok r Hr). }
  split_and!.
  - unfold store. unfold bind at 1. rewrite get_dbHandle_sys. cbn [is_some negb].
    unfold bind at 1. rewrite alertExists_healthy, E.
    rewrite alertTypeToDbField_getTypeName, alertStateToDbField_code.
    unfold getTableMaxIntValue, SQLiteStatement_new.
    unfold bindIntParameter, bindInt64Parameter, bindStringParameter, bindParameter, step.
    destruct (room_next _ _ Hroom) as (_ & Hlt & _).
    mrun. fold (next_id (map col_id rows)). rewrite (holds_id_above _ _ Hlt). mrun.
    unfold storeAlertAssets. rewrite bool_decide_eq_false_2 by done.
    unfold getTableMaxIntValue. mrun. reflexivity.
  - apply store_present. apply count_token_pos.
    exists (alert_row (next_id (map col_id rows)) a). split; [|done].
    apply elem_of_app. right. by left.
  - apply store_present. apply count_token_pos.
    exists (alert_row (next_id (map col_id rows)) a). split; [|done].
    apply elem_of_app. right. by left.
Qed.

(** ** What [erase] leaves behind *)

(** X8. [erase] deletes in one order: the row of the alert, then its asset
    rows, then its play-order rows.  Whatever the outcomes of the calls into
    the engine, the tables after the call are those before it with the
    deletions of a prefix of that order done, and the call succeeds exactly
    when all three are done; nothing else changes.  A failure after the
    first deletion is such a case: the asset rows and the play-order rows
    of the alert stay without their row in [alerts_v2]. *)
Theorem erase_deletes_in_stages h la rows arows irows fs a :
  let id := m_dbId a in
  (forall fl, exists ok s' fl',
     erase a (sys h (v2db la rows arows irows) fs fl) = (ok, s') /\
     ((ok = false /\ s' = sys h (v2db la rows arows irows) fs fl') \/
      (ok = false /\ s' = sys h (v2db la (erased_rows id rows) arows irows) fs fl') \/
      (ok = false /\
       s' = sys h (v2db la (erased_rows id rows) (erased_assets id arows) irows) fs fl') \/
      (ok = true /\
       s' = sys h (v2db la (erased_rows id rows) (erased_assets id arows)
                     (erased_items id irows)) fs fl'))) /\
  (Exists (fun r => col_token r = m_token a) rows ->
   erase a (sys h (v2db la rows arows irows) fs (replicate 7 false ++ [true])) =
   (false, sys h (v2db la (erased_rows id rows) arows irows) fs [])).
Proof.
  intros id. subst id. split.
  - intros fl.
    unfold erase. unfold bind at 1. rewrite get_dbHandle_sys. cbn [is_some negb].
    unfold bind at 1.
    destruct (alertExists_any h (v2db la rows arows irows) fs fl (m_token a))
      as (b & fl1 & -> & _).
    destruct b; cbn [negb]; [|eexists _, _, _; split; [reflexivity|]; by left].
    unfold eraseAlertByAlertId, eraseAlert, eraseAlertAssets, eraseAlertAssetPlayOrderItems,
      erase_where, SQLiteStatement_new, bindIntParameter, bindParameter, step, v2db.
    engine_cases;
      (eexists _, _, _; split; [reflexivity|];
       first [ by left | by (right; left) | by (right; right; left)
             | by (right; right; right) ]).
  - intros Hex.
    assert ((0 <? count_token rows (m_token a)) = true) as E.
    { apply count_token_pos. apply Exists_exists in Hex as (r & Hr & Ht). eauto. }
    unfold erase, alertExists, SQLiteStatement_new, bindStringParameter.
    unfold eraseAlertByAlertId, eraseAlert, eraseAlertAssets, eraseAlertAssetPlayOrderItems,
      erase_where, SQLiteStatement_new, bindIntParameter, bindParameter, step, v2db.
    mrun. rewrite stringToInt_string_of_Z. fold (count_token rows (m_token a)).
    rewrite E. mrun. reflexivity.
Qed.

(** ** Invariants of the calls on a working engine *)

(** The database after [store] on a working engine: as it was, or with the
    row of an alert whose token is new, and a prefix of its asset rows and
    of its play-order rows. *)
Lemma store_step_healthy h la rows arows irows fs a :
  let id := next_id (map col_id rows) in
  let c := m_assetConfiguration a in
  snd (store a (sys h (v2db la rows arows irows) fs [])) =
    sys h (v2db la rows arows irows) fs [] \/
  exists k j,
    (0 <? count_token rows (m_token a)) = false /\
    snd (store a (sys h (v2db la rows arows irows) fs [])) =
    sys h (v2db la (rows ++ [alert_row id a])
             (arows ++ take k (asset_rows id (map_to_list (assets c))
                                 (next_id (map asset_col_id arows))))
             (irows ++ take j (play_order_rows id (assetPlayOrderItems c)
                                 (next_id (map item_col_id irows)) 1))) fs [].
Proof.
  intros id c.
  destruct (0 <? count_token rows (m_token a)) eqn:E.
  { left. unfold v2db. by rewrite store_present. }
  destruct (store_prefix h la rows (Some arows) (Some irows) fs [] a)
    as (ok & a' & s' & Heq & H).
  unfold v2db. rewrite Heq. cbn [snd].
  destruct H as [(_ & _ & fl' & -> & Hfl)|(_ & k & j & fl' & -> & Hfl & _)].
  - left. by rewrite Hfl.
  - right. exists k, j. split; [done|]. by rewrite Hfl.
Qed.

Section Invariant.

Variable P : list AlertRow -> list AssetRow -> list PlayOrderRow -> Prop.

Hypothesis P_clear : P [] [] [].

Hypothesis P_store :
  forall rows arows irows a k j,
    P rows arows irows ->
    (0 <? count_token rows (m_token a)) = false ->
    P (rows ++ [alert_row (next_id (map col_id rows)) a])
      (arows ++ take k (asset_rows (next_id (map col_id rows))
                          (map_to_list (assets (m_assetConfiguration a)))
                          (next_id (map asset_col_id arows))))
      (irows ++ take j (play_order_rows (next_id (map col_id rows))
                          (assetPlayOrderItems (m_assetConfiguration a))
                          (next_id (map item_col_id irows)) 1)).

Hypothesis P_modify :
  forall rows arows irows a,
    P rows arows irows -> P (map (modify_row a) rows) arows irows.

Hypothesis P_erase :
  forall rows arows irows id,
    P rows arows irows ->
    P (erased_rows id rows) (erased_assets id arows) (erased_items id irows).

Lemma erase_ids_loop_invariant h la fs ids :
  forall rows arows irows,
    P rows arows irows ->
    exists rows' arows' irows',
      snd (erase_ids_loop (Some h) ids (sys h (v2db la rows arows irows) fs [])) =
      sys h (v2db la rows' arows' irows') fs [] /\
      P rows' arows' irows'.
Proof.
  induction ids as [|id ids IH]; intros rows arows irows HP; [by eexists _, _, _|].
  rewrite erase_ids_loop_cons.
  destruct (0 <? count_id rows id); [|by eexists _, _, _].
  apply IH. by apply P_erase.
Qed.

Lemma run_calls_invariant calls :
  forall h la rows arows irows fs,
    P rows arows irows ->
    exists rows' arows' irows',
      snd (run_calls calls (sys h (v2db la rows arows irows) fs [])) =
      sys h (v2db la rows' arows' irows') fs [] /\
      P rows' arows' irows'.
Proof.
  induction calls as [|c calls IH]; intros h la rows arows irows fs HP;
    [by eexists _, _, _|].
  destruct c as [a|a| |a|ids|]; cbn [run_calls]; unfold bind at 1.
  - destruct (store_step_healthy h la rows arows irows fs a) as [Hs|(k & j & E & Hs)];
      destruct (store a _) as [r s1]; cbn [snd] in Hs; subst s1; unfold bind, ret.
    + destruct (IH h la rows arows irows fs HP) as (rows' & arows' & irows' & Heq & HP').
      destruct (run_calls calls _) as [ids s2]. cbn [snd] in *. by eexists _, _, _.
    + destruct (IH h la _ _ _ fs (P_store rows arows irows a k j HP E))
        as (rows' & arows' & irows' & Heq & HP').
      destruct (run_calls calls _) as [ids s2]. cbn [snd] in *. by eexists _, _, _.
  - unfold v2db. rewrite modify_healthy.
    destruct (0 <? count_token rows (m_token a)); [|by apply IH].
    apply (IH h la _ arows irows fs). by apply P_modify.
  - rewrite load_healthy. cbn zeta. by apply IH.
  - rewrite erase_healthy.
    destruct (0 <? count_token rows (m_token a)); [|by apply IH].
    apply IH. by apply P_erase.
  - rewrite erase_ids_healthy.
    destruct (erase_ids_loop_invariant h la fs ids rows arows irows HP)
      as (rows' & arows' & irows' & Heq & HP').
    destruct (erase_ids_loop _ _ _) as [ok s1]. cbn [snd] in Heq. subst s1.
    by apply IH.
  - rewrite clearDatabase_healthy. by apply IH.
Qed.

End Invariant.

Lemma NoDup_tokens_sublist (rows rows' : list AlertRow) :
  rows' `sublist_of` rows -> NoDup (map col_token rows) -> NoDup (map col_token rows').
Proof.
  intros Hsub Hnd. eapply sublist_NoDup; [exact Hnd|].
  by apply (fmap_sublist col_token).
Qed.

Lemma map_modify_row_tokens a rows :
  map col_token (map (modify_row a) rows) = map col_token rows.
Proof.
  rewrite map_map. apply map_ext. intros r. unfold modify_row. by case_bool_decide.
Qed.

(** X9. Tokens stay unique: on a working engine, whatever sequence of [store],
    [modify], [load], the two [erase] and [clearDatabase] runs on a database
    whose rows of [alerts_v2] carry distinct tokens, the rows carry distinct
    tokens afterwards. *)
Theorem tokens_stay_distinct calls h la rows arows irows fs :
  NoDup (map col_token rows) ->
  exists rows' arows' irows',
    snd (run_calls calls (sys h (v2db la rows arows irows) fs [])) =
    sys h (v2db la rows' arows' irows') fs [] /\
    NoDup (map col_token rows').
Proof.
  apply (run_calls_invariant (fun rows _ _ => NoDup (map col_token rows))).
  - constructor.
  - intros rows0 _ _ a _ _ Hnd E. rewrite map_app. cbn.
    apply NoDup_app. split; [done|]. split; [|apply NoDup_singleton].
    intros t Ht ->%list_elem_of_singleton.
    apply list_elem_of_fmap in Ht as (r & Hr & Hin).
    assert ((0 <? count_token rows0 (m_token a)) = true) as E';
      [apply count_token_pos; eauto | congruence].
  - intros rows0 _ _ a Hnd. by rewrite map_modify_row_tokens.
  - intros rows0 _ _ id. apply NoDup_tokens_sublist. apply sublist_filter.
Qed.

(** X10. No orphan rows: on a working engine, whatever sequence of calls runs on
    a database in which every asset row and every play-order row refers to
    a row of [alerts_v2], every such row refers to a row of [alerts_v2]
    afterwards (also after a [store] that stops half-way, and after an
    [erase] by an id that belongs to another alert). *)
Theorem children_stay_owned calls h la rows arows irows fs :
  no_orphans rows arows irows ->
  exists rows' arows' irows',
    snd (run_calls calls (sys h (v2db la rows arows irows) fs [])) =
    sys h (v2db la rows' arows' irows') fs [] /\
    no_orphans rows' arows' irows'.
Proof.
  apply (run_calls_invariant no_orphans).
  - by split.
  - intros rows0 arows0 irows0 a k j [Ha Hi] _. split.
    + apply Forall_app. split.
      * eapply Forall_impl; [exact Ha|]. intros x Hx. rewrite map_app.
        apply elem_of_app. by left.
      * apply Forall_forall. intros x Hx. apply subseteq_take in Hx.
        apply asset_rows_alert_id in Hx. rewrite Hx, map_app.
        apply elem_of_app. right. by left.
    + apply Forall_app. split.
      * eapply Forall_impl; [exact Hi|]. intros x Hx. rewrite map_app.
        apply elem_of_app. by left.
      * apply Forall_forall. intros x Hx. apply subseteq_take in Hx.
        apply play_order_rows_alert_id in Hx. rewrite Hx, map_app.
        apply elem_of_app. right. by left.
  - intros rows0 arows0 irows0 a [Ha Hi]. split; by rewrite map_modify_row_ids.
  - intros rows0 arows0 irows0 id [Ha Hi]. split.
    + apply Forall_forall. intros x [Hne Hx]%erased_assets_spec.
      rewrite Forall_forall in Ha. specialize (Ha x Hx).
      apply list_elem_of_fmap in Ha as (r & Hr & Hin).
      apply list_elem_of_fmap. exists r. split; [done|].
      apply erased_rows_spec. split; [congruence|done].
    + apply Forall_forall. intros x [Hne Hx]%erased_items_spec.
      rewrite Forall_forall in Hi. specialize (Hi x Hx).
      apply list_elem_of_fmap in Hi as (r & Hr & Hin).
      apply list_elem_of_fmap. exists r. split; [done|].
      apply erased_rows_spec. split; [congruence|done].
Qed.

(** ** What [load] returns *)

Lemma decode_row_valid b r : is_Some (decode_row b r) -> valid_codes r.
Proof.
  intros [a Ha]. apply decode_row_fields in Ha as (_ & _ & Ht & Hs & _).
  unfold valid_codes. rewrite <- Ht, <- Hs. split.
  - by destruct (variant a).
  - by destruct (m_state a).
Qed.

Lemma mapM_decode_valid b rows :
  is_Some (mapM (decode_row b) rows) <-> Forall valid_codes rows.
Proof.
  rewrite mapM_is_Some. apply Forall_proper; [|done].
  intros r. split; [apply decode_row_valid | apply valid_codes_decode].
Qed.

Lemma loadHelper_attach_token am im a : m_token (loadHelper_attach am im a) = m_token a.
Proof. by rewrite loadHelper_attach_eq. Qed.

Lemma load_container h la rows arows irows fs container :
  load container (sys h (v2db la rows arows irows) fs []) =
  match mapM (decode_row true) rows with
  | Some alerts =>
      ((true, map (loadHelper_attach (assets_map arows) (items_map irows))
                (container ++ alerts)),
       sys h (v2db la rows arows irows) fs [])
  | None =>
      ((false, snd (snd (while_pure (loadHelper_row_pure true) rows
                           (mkAlertLocals 0 "" 0 0 "" 0 0 "", container)))),
       sys h (v2db la rows arows irows) fs [])
  end.
Proof.
  rewrite load_healthy. cbn zeta.
  pose proof (while_pure_decode true rows (mkAlertLocals 0 "" 0 0 "" 0 0 "") container)
    as Hd.
  destruct (mapM (decode_row true) rows) as [alerts|].
  - destruct Hd as [-> ->]; [discriminate|]. done.
  - rewrite Hd by discriminate. done.
Qed.

(** X11. [load] appends to the container it is given and then attaches the
    assets to every alert of the container, those it held before the call
    included.  For a container of pairwise different alerts (so that no
    object is in it twice), on a working engine and rows that decode, the
    result is the container followed by the alerts of the rows, each with
    the assets of its id put into its catalog and the play-order tokens of
    its id added at the end of its play-order list.  So alerts that are
    loaded into a container twice have their play-order tokens twice. *)
Theorem load_appends_to_container h la rows arows irows fs container alerts :
  NoDup container ->
  mapM (decode_row true) rows = Some alerts ->
  let s := sys h (v2db la rows arows irows) fs [] in
  let attach := loadHelper_attach (assets_map arows) (items_map irows) in
  load container s = ((true, map attach (container ++ alerts)), s) /\
  (forall x,
     m_dbId (attach x) = m_dbId x /\
     assetPlayOrderItems (m_assetConfiguration (attach x)) =
     assetPlayOrderItems (m_assetConfiguration x)
     ++ map name (default [] (items_map irows !! m_dbId x))) /\
  (NoDup (map attach alerts) ->
   load (map attach alerts) s =
   ((true, map attach (map attach alerts) ++ map attach alerts), s)).
Proof.
  intros _ Hdec s attach. subst s attach. split_and!.
  - by rewrite load_container, Hdec.
  - intros x. by rewrite loadHelper_attach_eq.
  - intros _. by rewrite load_container, Hdec, map_app.
Qed.

(** X12. [load] succeeds exactly on the tables whose rows all carry a type code
    in 1..3 and a state code in 1..10 (on a working engine); it then
    returns one alert for each row, in the order of the rows, with the id
    and the token of its row. *)
Theorem load_succeeds_iff_codes_valid h la rows arows irows fs container :
  let s := sys h (v2db la rows arows irows) fs [] in
  (fst (fst (load container s)) = true <-> Forall valid_codes rows) /\
  (forall out s',
     load [] s = ((true, out), s') ->
     map m_dbId out = map (fun r => int_of (col_id r)) rows /\
     map m_token out = map col_token rows).
Proof.
  intros s. subst s. split.
  - rewrite load_container, <- (mapM_decode_valid true).
    destruct (mapM (decode_row true) rows) as [alerts|]; cbn.
    + split; [eauto|done].
    + split; [discriminate|]. intros [? [=]].
  - intros out s'. rewrite load_container.
    destruct (mapM (decode_row true) rows) as [alerts|] eqn:Hdec; [|discriminate].
    cbn [app]. intros [= <- _].
    apply mapM_Some_1 in Hdec.
    induction Hdec as [|r a rows alerts Hra _ IH]; [done|].
    apply decode_row_fields in Hra as (Hid & Htok & _). destruct IH as [IH1 IH2].
    cbn. rewrite loadHelper_attach_dbId, loadHelper_attach_token.
    split; congruence.
Qed.

Lemma while_pure_app {St R : Type} (body : R -> St -> bool * St) l1 l2 :
  forall st,
    fst (while_pure body l1 st) = true ->
    while_pure body (l1 ++ l2) st = while_pure body l2 (snd (while_pure body l1 st)).
Proof.
  induction l1 as [|r l1 IH]; intros st; [done|].
  cbn. destruct (body r st) as [continue st']. destruct continue; cbn; [apply IH|discriminate].
Qed.

(** X13. [load] stops at the first row whose type or state is not a code: it
    returns [false] and leaves in the container the alerts of the rows
    before that row, without their assets; the rows after it are not
    read. *)
Theorem load_stops_at_invalid_row h la good bad rest arows irows fs container :
  Forall valid_codes good ->
  ~ valid_codes bad ->
  let s := sys h (v2db la (good ++ bad :: rest) arows irows) fs [] in
  exists alerts,
    mapM (decode_row true) good = Some alerts /\
    load container s = ((false, container ++ alerts), s).
Proof.
  intros Hgood Hbad s. subst s.
  apply (mapM_decode_valid true) in Hgood as [alerts Hdec].
  exists alerts. split; [done|].
  rewrite load_healthy. cbn zeta.
  pose proof (while_pure_decode true good (mkAlertLocals 0 "" 0 0 "" 0 0 "") container)
    as Hd.
  rewrite Hdec in Hd. destruct Hd as [Hfst Hsnd]; [discriminate|].
  rewrite while_pure_app by done.
  destruct (while_pure (loadHelper_row_pure true) good _) as [ok [l c]].
  cbn [fst snd] in *. subst c. cbn [while_pure].
  assert (loadHelper_row_pure true bad (l, container ++ alerts) =
          (false, (alert_locals true bad l, container ++ alerts))) as ->.
  { unfold loadHelper_row_pure. cbn [fst snd].
    change (loadHelper_alert (alert_locals true bad l)) with (decode_row true bad).
    destruct (decode_row true bad) as [a|] eqn:E; [|done].
    destruct Hbad. apply (decode_row_valid true). eauto. }
  reflexivity.
Qed.

(** *** Play-order rows with one position *)

Lemma set_insert_index x s : index x ∈ map index (set_insert x s).
Proof.
  induction s as [|y s IH]; cbn; [by left|].
  unfold AssetOrderItemCompare.
  destruct (Z.ltb_spec (index x) (index y)); [by left|].
  destruct (Z.ltb_spec (index y) (index x)); cbn; [by right|].
  assert (index x = index y) as -> by lia. by left.
Qed.

Lemma set_insert_keeps x s i : i ∈ map index s -> i ∈ map index (set_insert x s).
Proof.
  induction s as [|y s IH]; cbn; [inversion 1|].
  unfold AssetOrderItemCompare.
  destruct (Z.ltb_spec (index x) (index y)); [by right|].
  destruct (Z.ltb_spec (index y) (index x)); cbn; [|done].
  intros [->|Hi]%elem_of_cons; [by left | right; by apply IH].
Qed.

Lemma fold_set_insert_keeps (l : list AssetOrderItem) :
  forall s i,
    i ∈ map index s \/ i ∈ map index l ->
    i ∈ map index (fold_left (fun s x => set_insert x s) l s).
Proof.
  induction l as [|x l IH]; intros s i; cbn.
  - intros [Hi|Hi]; [done | inversion Hi].
  - intros [Hi|Hi]; apply IH.
    + left. by apply set_insert_keeps.
    + apply elem_of_cons in Hi as [->|Hi]; [left; apply set_insert_index | by right].
Qed.

Lemma set_insert_tied x s :
  StronglySorted index_lt s -> index x ∈ map index s -> set_insert x s = s.
Proof.
  induction 1 as [|y s Hs IH Hy]; cbn; [inversion 1|].
  unfold AssetOrderItemCompare.
  intros Hin.
  destruct (Z.ltb_spec (index x) (index y)) as [Hlt|Hge].
  { apply elem_of_cons in Hin as [Heq|Hin]; [lia|].
    apply list_elem_of_fmap in Hin as (z & Hz & Hzs).
    rewrite Forall_forall in Hy. specialize (Hy z Hzs). unfold index_lt in Hy. lia. }
  destruct (Z.ltb_spec (index y) (index x)) as [Hlt|Hge']; [|done].
  apply elem_of_cons in Hin as [Heq|Hin]; [lia|]. by rewrite IH.
Qed.

Lemma items_map_snoc irows r :
  items_map (irows ++ [r]) =
  <[int_of (item_col_alert_id r) :=
      set_insert (item_of r) (default [] (items_map irows !! int_of (item_col_alert_id r)))]>
    (items_map irows).
Proof. unfold items_map. rewrite !while_pure_items. by rewrite fold_left_app. Qed.

Lemma items_map_app irows irows' :
  items_map (irows ++ irows') =
  fold_left (fun m r =>
               <[int_of (item_col_alert_id r) :=
                   set_insert (item_of r)
                     (default [] (m !! int_of (item_col_alert_id r)))]> m)
    irows' (items_map irows).
Proof. unfold items_map. rewrite !while_pure_items. by rewrite fold_left_app. Qed.

Lemma items_map_tied irows r0 r :
  r0 ∈ irows ->
  int_of (item_col_alert_id r0) = int_of (item_col_alert_id r) ->
  int_of (item_col_asset_play_order_position r0) =
  int_of (item_col_asset_play_order_position r) ->
  items_map (irows ++ [r]) = items_map irows.
Proof.
  intros Hin Hid Hpos.
  rewrite items_map_snoc. rewrite items_map_lookup.
  assert (r0 ∈ items_of_alert (int_of (item_col_alert_id r)) irows) as Hr0
      by (by apply list_elem_of_filter).
  destruct (items_of_alert (int_of (item_col_alert_id r)) irows) as [|r1 l] eqn:El;
    [inversion Hr0|].
  cbn [default from_option id].
  rewrite <- (fold_left_fmap (fun s x => set_insert x s) item_of).
  rewrite set_insert_tied.
  - apply insert_id. rewrite items_map_lookup, El.
    by rewrite <- (fold_left_fmap (fun s x => set_insert x s) item_of).
  - apply fold_set_insert_sorted. constructor.
  - apply fold_set_insert_keeps. right.
    apply list_elem_of_fmap. exists (item_of r0). split; [by cbn|].
    apply list_elem_of_fmap. by exists r0.
Qed.

(** X14. Two play-order rows of one alert with one position, wherever they
    are in the table: the [std::set] that orders the items by position
    keeps the row that the engine returns first and drops the token of the
    later one, so [load] returns what it returns on the table without the
    later row. *)
Theorem load_drops_tied_position h la rows arows before r after fs container r0 :
  r0 ∈ before ->
  int_of (item_col_alert_id r0) = int_of (item_col_alert_id r) ->
  int_of (item_col_asset_play_order_position r0) =
  int_of (item_col_asset_play_order_position r) ->
  fst (load container (sys h (v2db la rows arows (before ++ r :: after)) fs [])) =
  fst (load container (sys h (v2db la rows arows (before ++ after)) fs [])).
Proof.
  intros Hin Hid Hpos.
  assert (items_map (before ++ r :: after) = items_map (before ++ after)) as Hmap.
  { change (r :: after) with ([r] ++ after). rewrite app_assoc.
    rewrite (items_map_app (before ++ [r]) after), (items_map_app before after).
    by rewrite (items_map_tied before r0 r Hin Hid Hpos). }
  rewrite !load_healthy. cbn zeta. by rewrite Hmap.
Qed.

(** ** Creating, opening and closing *)

Lemma files_sys_eq h db fs fl : files (sys h db fs fl) = <[h := db]> fs.
Proof. reflexivity. Qed.

Lemma close_sys h db fs fl : close (sys h db fs fl) = (tt, closed_sys h db fs fl).
Proof. reflexivity. Qed.

Lemma createDatabase_tables filePath fs fl :
  fs !! filePath = None ->
  exists ok s' fl',
    createDatabase filePath (mkSystem None fs fl) = (ok, s') /\
    (fl = [] -> ok = true) /\
    ((ok = true /\ s' = sys filePath (v2db None [] [] []) fs fl') \/
     (ok = false /\ s' = mkSystem None fs fl') \/
     (ok = false /\ exists db, s' = closed_sys filePath db fs fl')).
Proof.
  intros Hnone.
  unfold createDatabase, fileExists, createSQLiteDatabase, bind, ret, get_dbHandle,
    set_dbHandle.
  cbn [m_dbHandle is_some files faults negb]. rewrite Hnone.
  cbn [is_some negb files faults m_dbHandle].
  unfold engine_call at 1. cbn [faults m_dbHandle files].
  destruct fl as [|fault fl]; [|destruct fault]; cbn [negb fst snd files m_dbHandle faults].
  - rewrite Hnone. cbn [is_some negb files faults m_dbHandle].
    change (mkSystem (Some filePath) (<[filePath:=empty_database]> fs) [])
      with (sys filePath empty_database fs []).
    unfold createAlertsTable, createAlertAssetsTable, createAlertAssetPlayOrderItemsTable,
      performQuery, empty_database.
    mrun. eexists _, _, _. split; [reflexivity|]. split; [done|]. by left.
  - eexists _, _, _. split; [reflexivity|]. split; [discriminate|]. right. by left.
  - rewrite Hnone. cbn [is_some negb files faults m_dbHandle].
    change (mkSystem (Some filePath) (<[filePath:=empty_database]> fs) fl)
      with (sys filePath empty_database fs fl).
    unfold createAlertsTable, createAlertAssetsTable, createAlertAssetPlayOrderItemsTable,
      performQuery, empty_database.
    engine_cases; rewrite ?close_sys;
      (eexists _, _, _; split; [reflexivity|]; split; [discriminate|]);
      first [ by left | right; right; split; [done|]; by eexists ].
Qed.

Lemma createDatabase_refused filePath s :
  m_dbHandle s <> None \/ is_Some (files s !! filePath) ->
  createDatabase filePath s = (false, s).
Proof.
  destruct s as [hd fs fl]. unfold createDatabase, fileExists, bind, ret, get_dbHandle.
  cbn [m_dbHandle files]. destruct hd as [p|]; [done|]. cbn [is_some m_dbHandle files].
  intros [H|[db Hdb]]; [done|]. by rewrite Hdb.
Qed.

(** X15. The outcomes of [createDatabase], in any state and whatever the
    outcomes of the calls into the engine.  When it succeeds, the storage
    was closed, the file did not exist, and the storage is now open on the
    file, which holds the three tables of version two, empty.  When it
    fails, the handle is as it was, no other file is touched and a file
    that existed is not overwritten.  On a working engine it succeeds on a
    closed storage for a file that does not exist.  A failure of a table
    creation releases the handle but leaves the new file behind. *)
Theorem createDatabase_outcomes filePath :
  (forall s s',
     createDatabase filePath s = (true, s') ->
     m_dbHandle s = None /\ files s !! filePath = None /\
     exists fl', s' = sys filePath (v2db None [] [] []) (files s) fl') /\
  (forall s s',
     createDatabase filePath s = (false, s') ->
     m_dbHandle s' = m_dbHandle s /\
     (forall other, other <> filePath -> files s' !! other = files s !! other) /\
     (is_Some (files s !! filePath) -> files s' = files s)) /\
  (forall fs,
     fs !! filePath = None ->
     createDatabase filePath (SQLiteAlertStorage_new fs []) =
     (true, sys filePath (v2db None [] [] []) fs [])) /\
  (forall fs,
     fs !! filePath = None ->
     createDatabase filePath (SQLiteAlertStorage_new fs [false; true]) =
     (false, SQLiteAlertStorage_new (<[filePath := empty_database]> fs) [])).
Proof.
  split_and!.
  - intros s s' H.
    destruct (m_dbHandle s) as [p|] eqn:Hh;
      [rewrite createDatabase_refused in H by (left; congruence); discriminate|].
    destruct (files s !! filePath) as [db|] eqn:Hf;
      [rewrite createDatabase_refused in H by (right; eauto); discriminate|].
    split; [done|]. split; [done|].
    destruct s as [hd fs fl]. cbn in Hh, Hf. subst hd.
    destruct (createDatabase_tables filePath fs fl Hf) as (ok & s1 & fl' & Heq & _ & Hcase).
    rewrite Heq in H. injection H as -> ->.
    destruct Hcase as [[_ ->]|[[[=] _]|[[=] _]]]. by exists fl'.
  - intros s s' H.
    destruct (m_dbHandle s) as [p|] eqn:Hh.
    { rewrite createDatabase_refused in H by (left; congruence).
      injection H as <-. by rewrite Hh. }
    destruct (files s !! filePath) as [db|] eqn:Hf.
    { rewrite createDatabase_refused in H by (right; eauto).
      injection H as <-. by rewrite Hh. }
    destruct s as [hd fs fl]. cbn in Hh, Hf. subst hd.
    destruct (createDatabase_tables filePath fs fl Hf) as (ok & s1 & fl' & Heq & _ & Hcase).
    rewrite Heq in H. injection H as -> ->.
    destruct Hcase as [[[=] _]|[[_ ->]|[_ [db ->]]]]; cbn.
    + split; [done|]. split; [done|]. intros [? ?]. congruence.
    + split; [done|]. split; [intros other Hne; by rewrite lookup_insert_ne|].
      intros [? ?]. congruence.
  - intros fs Hf. unfold SQLiteAlertStorage_new. by apply createDatabase_healthy.
  - intros fs Hf.
    unfold SQLiteAlertStorage_new, createDatabase, fileExists, createSQLiteDatabase, bind,
      ret, get_dbHandle, set_dbHandle.
    cbn [m_dbHandle is_some files faults negb]. rewrite Hf.
    cbn [is_some negb files faults m_dbHandle].
    unfold engine_call at 1. cbn [faults m_dbHandle files negb fst snd]. rewrite Hf.
    cbn [is_some negb files faults m_dbHandle].
    change (mkSystem (Some filePath) (<[filePath:=empty_database]> fs) [true])
      with (sys filePath empty_database fs [true]).
    unfold createAlertsTable, performQuery. mrun. reflexivity.
Qed.

Lemma migrate_store_loop_shape h la fs alerts :
  forall rows oa oi fl,
    exists ok rows' oa' oi' fl',
      migrate_store_loop alerts (sys h (mkDatabase la (Some rows) oa oi) fs fl) =
      (ok, sys h (mkDatabase la (Some rows') oa' oi') fs fl').
Proof.
  induction alerts as [|a alerts IH]; intros rows oa oi fl; [cbn; by eexists _, _, _, _, _|].
  cbn [migrate_store_loop]. unfold bind at 1.
  destruct (store_shape h la rows oa oi fs fl a)
    as (ok & a' & rows' & oa' & oi' & fl' & -> & _).
  cbn [fst]. destruct ok; cbn [negb]; [apply IH|cbn; by eexists _, _, _, _, _].
Qed.

(** The migration under any outcome of the engine: the handle and the
    other files stay, and [alerts_v2] exists when it succeeds. *)
Lemma migrate_shape h db fs fl :
  exists ok db' fl',
    migrateAlertsDbFromV1ToV2 (sys h db fs fl) = (ok, sys h db' fs fl') /\
    (ok = true -> is_some (alerts_v2 db') = true).
Proof.
  destruct db as [ol ov2 oa oi].
  unfold migrateAlertsDbFromV1ToV2.
  unfold tableExists at 1, createAlertsTable, createAlertAssetsTable,
    createAlertAssetPlayOrderItemsTable, performQuery.
  unfold tableExists at 1. unfold tableExists at 1. unfold tableExists at 1.
  destruct ov2 as [rows|], ol as [[b lrows]|], oa as [arows|], oi as [irows|];
    engine_cases;
    try (by (eexists _, _, _; split; [reflexivity|first [done|discriminate]]));
    match goal with
    | |- context [loadHelper ?v ?c (sys h ?db fs ?fl0)] =>
        destruct (read_only_sys (loadHelper v c) h db fs fl0 (read_only_loadHelper v c))
          as ([ok c'] & fl1 & -> & _)
    end;
    cbn; (destruct ok; cbn;
          [|by (eexists _, _, _; split; [reflexivity|discriminate])]);
    match goal with
    | |- context [migrate_store_loop ?c' (sys h (mkDatabase ?la (Some ?rows) ?oa ?oi) fs ?fl0)] =>
        destruct (migrate_store_loop_shape h la fs c' rows oa oi fl0)
          as (ok2 & rows' & oa' & oi' & fl2 & ->)
    end;
    cbn; (destruct ok2; cbn;
          [|by (eexists _, _, _; split; [reflexivity|discriminate])]);
    unfold dropTable; engine_cases;
    by (eexists _, _, _; split; [reflexivity|first [done|discriminate]]).
Qed.

Lemma open_shape filePath db fs fl :
  exists (ok : bool) db' fl',
    open filePath (closed_sys filePath db fs fl) =
    (ok, if ok then sys filePath db' fs fl' else closed_sys filePath db' fs fl') /\
    (ok = true -> is_some (alerts_v2 db') = true).
Proof.
  unfold open, openSQLiteDatabase, fileExists, bind, ret, closed_sys, get_dbHandle,
    set_dbHandle.
  cbn [m_dbHandle is_some files faults negb].
  rewrite lookup_insert_eq. cbn [is_some negb andb files faults].
  unfold engine_call at 1. cbn [faults m_dbHandle files].
  destruct fl as [|fault fl]; [|destruct fault]; cbn [negb fst snd files m_dbHandle faults];
    rewrite ?lookup_insert_eq; cbn [is_some negb andb files faults m_dbHandle].
  - change (mkSystem (Some filePath) (<[filePath:=db]> fs) [])
      with (sys filePath db fs []).
    destruct (migrate_shape filePath db fs []) as (ok & db' & fl' & -> & Hok).
    destruct ok; cbn [negb]; [by eexists true, _, _|].
    rewrite close_sys. by eexists false, _, _.
  - by eexists false, _, _.
  - change (mkSystem (Some filePath) (<[filePath:=db]> fs) fl)
      with (sys filePath db fs fl).
    destruct (migrate_shape filePath db fs fl) as (ok & db' & fl' & -> & Hok).
    destruct ok; cbn [negb]; [by eexists true, _, _|].
    rewrite close_sys. by eexists false, _, _.
Qed.

Lemma open_refused filePath s :
  m_dbHandle s <> None \/ files s !! filePath = None -> open filePath s = (false, s).
Proof.
  destruct s as [hd fs fl]. unfold open, fileExists, bind, ret, get_dbHandle.
  cbn [m_dbHandle files]. destruct hd as [p|]; [done|]. cbn [is_some m_dbHandle files].
  intros [H|Hdb]; [done|]. by rewrite Hdb.
Qed.

Lemma closed_sys_of_state s filePath db :
  m_dbHandle s = None -> files s !! filePath = Some db ->
  s = closed_sys filePath db (files s) (faults s).
Proof.
  destruct s as [hd fs fl]. cbn. intros -> Hdb. unfold closed_sys. by rewrite insert_id.
Qed.

(** X16. The outcomes of [open], in any state and whatever the outcomes of the
    calls into the engine.  When it succeeds, the storage was closed, the
    file existed, and the storage is now open on the file, which holds
    [alerts_v2].  When it fails, the handle is as it was and no other file
    is touched.  It fails without any effect on a storage that is open and
    for a file that does not exist: [open] never creates a file. *)
Theorem open_outcomes filePath :
  (forall s s',
     open filePath s = (true, s') ->
     m_dbHandle s = None /\
     exists db db' fl',
       files s !! filePath = Some db /\
       s' = sys filePath db' (files s) fl' /\
       is_some (alerts_v2 db') = true) /\
  (forall s s',
     open filePath s = (false, s') ->
     m_dbHandle s' = m_dbHandle s /\
     (forall other, other <> filePath -> files s' !! other = files s !! other)) /\
  (forall s,
     m_dbHandle s <> None \/ files s !! filePath = None -> open filePath s = (false, s)).
Proof.
  split_and!; [| |apply open_refused].
  - intros s s' H.
    destruct (m_dbHandle s) as [p|] eqn:Hh;
      [rewrite open_refused in H by (left; congruence); discriminate|].
    destruct (files s !! filePath) as [db|] eqn:Hf;
      [|rewrite open_refused in H by (by right); discriminate].
    split; [done|].
    rewrite (closed_sys_of_state s filePath db Hh Hf) in H.
    destruct (open_shape filePath db (files s) (faults s)) as (ok & db' & fl' & Heq & Hok).
    rewrite Heq in H. destruct ok; [|discriminate]. injection H as <-.
    exists db, db', fl'. auto.
  - intros s s' H.
    destruct (m_dbHandle s) as [p|] eqn:Hh.
    { rewrite open_refused in H by (left; congruence). injection H as <-. by rewrite Hh. }
    destruct (files s !! filePath) as [db|] eqn:Hf.
    2:{ rewrite open_refused in H by (by right). injection H as <-. by rewrite Hh. }
    rewrite (closed_sys_of_state s filePath db Hh Hf) in H.
    destruct (open_shape filePath db (files s) (faults s)) as (ok & db' & fl' & Heq & Hok).
    rewrite Heq in H. destruct ok; [discriminate|]. injection H as <-.
    cbn. split; [done|]. intros other Hne. by rewrite lookup_insert_ne.
Qed.

(** X17. Closing and opening again returns to the same state: on a working
    engine, after [open] or [createDatabase] succeeded, [close] releases
    the handle and keeps every file, and [open] of the same file then
    succeeds and gives the state before the [close], so that every call
    behaves as before it. *)
Theorem reopen_restores_state filePath :
  (forall db fs s',
     open filePath (closed_sys filePath db fs []) = (true, s') ->
     open filePath (snd (close s')) = (true, s')) /\
  (forall fs s',
     createDatabase filePath (SQLiteAlertStorage_new fs []) = (true, s') ->
     open filePath (snd (close s')) = (true, s')) /\
  (forall s, m_dbHandle (snd (close s)) = None /\ files (snd (close s)) = files s).
Proof.
  split_and!.
  - intros db fs s' H.
    apply open_holds_alerts_v2 in H as (la & rows & oa & oi & ->).
    rewrite close_sys. cbn [snd]. rewrite open_healthy. cbn zeta.
    by rewrite migrate_up_to_date.
  - intros fs s' H.
    destruct (fs !! filePath) as [db|] eqn:Hf.
    { unfold SQLiteAlertStorage_new in H.
      rewrite createDatabase_refused in H by (right; cbn; eauto). discriminate. }
    unfold SQLiteAlertStorage_new in H. rewrite createDatabase_healthy in H by done.
    injection H as <-.
    rewrite close_sys. cbn [snd]. rewrite open_healthy. cbn zeta. unfold v2db.
    by rewrite migrate_up_to_date.
  - intros [hd fs fl]. unfold close, bind, get_dbHandle. cbn. by destruct hd.
Qed.

(** ** [clearDatabase] *)

(** X18. [clearDatabase] empties the three tables in one order, [alerts_v2],
    [alertAssets], [alertAssetPlayOrderItems], and stops at the first
    failure: whatever the outcomes of the calls into the engine, the tables
    of a prefix of that order are empty afterwards, the others are as they
    were, and the call succeeds exactly when the three are empty; the
    legacy table and the other files are not touched.  On a working engine
    it succeeds, and a [load] that follows adds nothing to its
    container. *)
Theorem clearDatabase_in_stages h la rows arows irows fs :
  (forall fl, exists ok s' fl',
     clearDatabase (sys h (v2db la rows arows irows) fs fl) = (ok, s') /\
     ((ok = false /\ s' = sys h (v2db la rows arows irows) fs fl') \/
      (ok = false /\ s' = sys h (v2db la [] arows irows) fs fl') \/
      (ok = false /\ s' = sys h (v2db la [] [] irows) fs fl') \/
      (ok = true /\ s' = sys h (v2db la [] [] []) fs fl'))) /\
  clearDatabase (sys h (v2db la rows arows irows) fs []) =
  (true, sys h (v2db la [] [] []) fs []) /\
  (forall container,
     load container (sys h (v2db la [] [] []) fs []) =
     ((true, container), sys h (v2db la [] [] []) fs [])).
Proof.
  split_and!.
  - intros fl. unfold clearDatabase, clearTable, v2db.
    engine_cases;
      (eexists _, _, _; split; [reflexivity|];
       first [ by left | by (right; left) | by (right; right; left)
             | by (right; right; right) ]).
  - apply clearDatabase_healthy.
  - intros container. rewrite load_container. cbn [mapM mret option_ret].
    rewrite app_nil_r. f_equal. f_equal.
    change (assets_map []) with (∅ : gmap Z (list Asset)).
    change (items_map []) with (∅ : gmap Z (list AssetOrderItem)).
    induction container as [|x c IH]; [done|].
    cbn. by rewrite loadHelper_attach_empty, IH.
Qed.

(** ** The diagnostics *)

Lemma read_only_printStats level : read_only (printStats level).
Proof.
  unfold printStats.
  apply read_only_bind; [apply read_only_loadHelper|]. intros loaded.
  apply read_only_bind; [apply read_only_get_dbHandle|]. intros dbHandle.
  assert (read_only (printOneLineSummary dbHandle)) as Hone.
  { unfold printOneLineSummary, getNumberTableRows.
    apply read_only_bind.
    - apply read_only_engine_do. intros db n db' H. by simplify_option_eq.
    - intros [n|]; apply read_only_ret. }
  destruct level; [done| |];
    (unfold printAlertsSummary; apply read_only_bind; [done|]; intros ?; apply read_only_ret).
Qed.

(** X19. [printStats] only reads: at every level, in any state and whatever the
    outcomes of the calls into the engine, it leaves every file and the
    handle as they are. *)
Theorem printStats_only_reads level s :
  files (snd (printStats level s)) = files s /\
  m_dbHandle (snd (printStats level s)) = m_dbHandle s.
Proof. destruct (read_only_printStats level s) as (? & ? & _). done. Qed.

(** X20. What [printStats] prints on a working engine: at the level [ONE_LINE]
    the line with the number of rows of [alerts_v2]; at the level
    [ALERTS_SUMMARY] that line and then the diagnostic of every alert that
    [load] left in its container, in their order, also when [load] failed
    half-way; and at the level [EVERYTHING] the same as at
    [ALERTS_SUMMARY], in every state, the flag that tells the two apart
    being read by no statement. *)
Theorem printStats_output h la rows arows irows fs :
  let s := sys h (v2db la rows arows irows) fs [] in
  let line :=
    String.append "ONE-LINE-STAT: Number of alerts:"
      (string_of_Z (int_of (Z.of_nat (length rows)))) in
  printStats ONE_LINE s = ([line], s) /\
  printStats ALERTS_SUMMARY s =
    (line :: concat (map printDiagnostic (snd (fst (load [] s)))), s) /\
  (forall s0, printStats EVERYTHING s0 = printStats ALERTS_SUMMARY s0).
Proof.
  intros s line. subst s line. split_and!; [| |reflexivity].
  - unfold printStats. unfold bind at 1. rewrite load_healthy. cbn zeta.
    unfold printOneLineSummary, getNumberTableRows, v2db. mrun.
    by rewrite length_map.
  - unfold printStats. unfold bind at 1. rewrite load_healthy. cbn zeta.
    unfold printAlertsSummary, printOneLineSummary, getNumberTableRows, v2db. mrun.
    by rewrite length_map.
Qed.

(** ** [load] after [modify], [erase] and [store] *)

Lemma decode_row_modify_row a r x :
  is_int (col_id r) ->
  times_agree a ->
  decode_row true r = Some x ->
  decode_row true (modify_row a r) = Some (modified_alert a x).
Proof.
  intros Hint Htimes Hdec.
  pose proof (decode_row_fields true r x Hdec) as (Hid & _).
  rewrite (int_of_int _ Hint) in Hid.
  unfold modify_row, modified_alert.
  destruct (decide (col_id r = m_dbId a)) as [Heq|Hne].
  2:{ rewrite !bool_decide_eq_false_2 by congruence. done. }
  rewrite !bool_decide_eq_true_2 by congruence. clear Hid.
  revert Hdec. unfold decode_row, loadHelper_alert, alert_locals. cbn.
  rewrite state_code_is_int, dbFieldToAlertState_state_code.
  destruct (if int_of (col_type r) =? ALERT_EVENT_TYPE_ALARM then Some Alarm
            else if int_of (col_type r) =? ALERT_EVENT_TYPE_TIMER then Some Timer
            else if int_of (col_type r) =? ALERT_EVENT_TYPE_REMINDER then Some Reminder
            else None) as [v|]; cbn; [|discriminate].
  destruct (dbFieldToAlertState (int_of (col_state r))) as [st|]; cbn; [|discriminate].
  intros [= <-]. f_equal.
  unfold times_agree in Htimes. unfold setTime_ISO_8601.
  destruct (convert8601TimeStringToUnix (m_scheduledTime_ISO_8601 a)) as [u|] eqn:Eu;
    destruct (convert8601TimeStringToUnix (col_scheduled_time_iso_8601 r)) as [u'|];
    cbn; [subst u|subst u|destruct Htimes as [Hiso Hunix]|destruct Htimes as [Hiso Hunix]];
    rewrite ?Hiso, ?Hunix; reflexivity.
Qed.

Lemma mapM_decode_modify a rows :
  forall alerts,
    Forall is_int (map col_id rows) ->
    times_agree a ->
    mapM (decode_row true) rows = Some alerts ->
    mapM (decode_row true) (map (modify_row a) rows) = Some (map (modified_alert a) alerts).
Proof.
  induction rows as [|r rows IH]; intros alerts Hint Htimes; cbn.
  - by intros [= <-].
  - apply Forall_cons in Hint as [Hr Hint].
    destruct (decode_row true r) as [x|] eqn:Hx; cbn; [|discriminate].
    destruct (mapM (decode_row true) rows) as [l|] eqn:Hl; cbn; [|discriminate].
    intros [= <-]. rewrite (decode_row_modify_row a r x Hr Htimes Hx). cbn.
    by rewrite (IH l Hint Htimes eq_refl).
Qed.

Lemma loadHelper_attach_modified am im a x :
  loadHelper_attach am im (modified_alert a x) = modified_alert a (loadHelper_attach am im x).
Proof.
  rewrite !loadHelper_attach_eq. unfold modified_alert.
  cbn [m_dbId set_assetConfiguration].
  by case_bool_decide.
Qed.

(** X21. [modify] then [load]: on a working engine, for a table whose ids are
    [int]s and an alert whose scheduled times agree and whose token the
    table holds, [modify] succeeds and a [load] that succeeded before it
    succeeds after it and returns the same alerts in the same order, those
    of the id of the alert with its state and its scheduled times and
    everything else (assets included) as before. *)
Theorem modify_then_load h la rows arows irows fs a out :
  Forall is_int (map col_id rows) ->
  times_agree a ->
  Exists (fun r => col_token r = m_token a) rows ->
  let s := sys h (v2db la rows arows irows) fs [] in
  load [] s = ((true, out), s) ->
  exists s',
    modify a s = (true, s') /\
    load [] s' = ((true, map (modified_alert a) out), s').
Proof.
  intros Hint Htimes Hex s Hload. subst s.
  assert ((0 <? count_token rows (m_token a)) = true) as E.
  { apply count_token_pos. apply Exists_exists in Hex as (r & Hr & Ht). eauto. }
  apply load_healthy_alerts in Hload as (alerts & Hdec & -> & _).
  eexists. split.
  - unfold v2db. rewrite modify_healthy, E. reflexivity.
  - fold (v2db la (map (modify_row a) rows) arows irows).
    rewrite load_container, (mapM_decode_modify a rows alerts Hint Htimes Hdec).
    cbn [app]. do 2 f_equal. rewrite !map_map. apply map_ext.
    intros x. apply loadHelper_attach_modified.
Qed.

Lemma assets_map_erased id arows k :
  is_int id -> k <> id ->
  assets_map (erased_assets id arows) !! k = assets_map arows !! k.
Proof.
  intros Hint Hne. rewrite !assets_map_lookup.
  assert (assets_of_alert k (erased_assets id arows) = assets_of_alert k arows) as ->; [|done].
  unfold assets_of_alert, erased_assets. rewrite list_filter_filter.
  apply list_filter_iff. intros r. split; [by intros [? ?]|].
  intros Hk. split; [done|]. intros Heq. rewrite Heq, (int_of_int _ Hint) in Hk. congruence.
Qed.

Lemma items_map_erased id irows k :
  is_int id -> k <> id ->
  items_map (erased_items id irows) !! k = items_map irows !! k.
Proof.
  intros Hint Hne. rewrite !items_map_lookup.
  assert (items_of_alert k (erased_items id irows) = items_of_alert k irows) as ->; [|done].
  unfold items_of_alert, erased_items. rewrite list_filter_filter.
  apply list_filter_iff. intros r. split; [by intros [? ?]|].
  intros Hk. split; [done|]. intros Heq. rewrite Heq, (int_of_int _ Hint) in Hk. congruence.
Qed.

Lemma mapM_cons_Some {A B : Type} (f : A -> option B) r l x k :
  f r = Some x -> mapM f l = Some k -> mapM f (r :: l) = Some (x :: k).
Proof. intros H1 H2. cbn. rewrite H1. cbn. by rewrite H2. Qed.

Lemma mapM_decode_erased id rows :
  forall alerts,
    Forall is_int (map col_id rows) ->
    mapM (decode_row true) rows = Some alerts ->
    mapM (decode_row true) (erased_rows id rows) =
    Some (filter (fun x => m_dbId x <> id) alerts).
Proof.
  unfold erased_rows.
  induction rows as [|r rows IH]; intros alerts Hint; cbn [mapM].
  - by intros [= <-].
  - apply Forall_cons in Hint as [Hr Hint].
    destruct (decode_row true r) as [x|] eqn:Hx; cbn; [|discriminate].
    destruct (mapM (decode_row true) rows) as [l|] eqn:Hl; cbn; [|discriminate].
    intros [= <-].
    pose proof (decode_row_fields true r x Hx) as (Hid & _).
    rewrite (int_of_int _ Hr) in Hid.
    rewrite !filter_cons. rewrite Hid.
    destruct (decide (col_id r <> id)).
    + apply mapM_cons_Some; [done | by apply IH].
    + by apply IH.
Qed.

(** X22. [erase] then [load]: on a working engine, for a table whose ids are
    [int]s and an alert whose token the table holds, [erase] succeeds and a
    [load] that succeeded before it succeeds after it and returns the alerts
    it returned before without those of the id of the alert: the other
    alerts are returned as before, in their order, with their assets. *)
Theorem erase_then_load h la rows arows irows fs a out :
  Forall is_int (map col_id rows) ->
  is_int (m_dbId a) ->
  Exists (fun r => col_token r = m_token a) rows ->
  let s := sys h (v2db la rows arows irows) fs [] in
  load [] s = ((true, out), s) ->
  exists s',
    erase a s = (true, s') /\
    load [] s' = ((true, filter (fun x => m_dbId x <> m_dbId a) out), s').
Proof.
  intros Hint Hida Hex s Hload. subst s.
  assert ((0 <? count_token rows (m_token a)) = true) as E.
  { apply count_token_pos. apply Exists_exists in Hex as (r & Hr & Ht). eauto. }
  apply load_healthy_alerts in Hload as (alerts & Hdec & -> & _).
  eexists. split.
  - rewrite erase_healthy, E. reflexivity.
  - rewrite load_container, (mapM_decode_erased (m_dbId a) rows alerts Hint Hdec).
    cbn [app]. do 2 f_equal.
    clear Hdec. induction alerts as [|x alerts IH]; [done|].
    cbn [map]. rewrite !filter_cons. rewrite loadHelper_attach_dbId.
    destruct (decide (m_dbId x <> m_dbId a)) as [Hne|Heq]; [|exact IH].
    cbn [map]. rewrite IH. f_equal.
    rewrite !loadHelper_attach_eq.
    by rewrite assets_map_erased, items_map_erased.
Qed.

Lemma holds_id_false ids id : holds_id ids id = false -> id ∉ ids.
Proof. unfold holds_id. intros H Hin. by rewrite bool_decide_eq_true_2 in H. Qed.

(** X23. [erase] undoes [store]: on a working engine and a database without
    orphan rows, the [erase] of an alert that [store] has just stored (the
    alert as [store] left it, with its id) succeeds and gives the database
    as it was before the [store]. *)
Theorem erase_undoes_store h la rows arows irows fs a a' s' :
  no_orphans rows arows irows ->
  store a (sys h (v2db la rows arows irows) fs []) = ((true, a'), s') ->
  erase a' s' = (true, sys h (v2db la rows arows irows) fs []).
Proof.
  intros [Ha Hi] Hstore. unfold v2db in Hstore.
  apply store_success in Hstore as (-> & Hfree & fl' & -> & Hfl).
  rewrite Hfl by done. cbn [fmap option_fmap option_map].
  apply holds_id_false in Hfree.
  set (id := next_id (map col_id rows)) in *.
  match goal with
  | |- erase _ (sys h (mkDatabase la (Some ?r) (Some ?ar) (Some ?ir)) fs []) = _ =>
      change (mkDatabase la (Some r) (Some ar) (Some ir)) with (v2db la r ar ir)
  end.
  rewrite erase_healthy. cbn [m_token m_dbId set_dbId].
  assert ((0 <? count_token (rows ++ [alert_row id a]) (m_token a)) = true) as ->.
  { apply count_token_pos. exists (alert_row id a). split; [|done].
    apply elem_of_app. right. by left. }
  do 3 f_equal.
  - unfold erased_rows. rewrite filter_app, filter_all, filter_none.
    + by rewrite app_nil_r.
    + intros r ->%list_elem_of_singleton. cbn. by intros ?.
    + intros r Hr Heq. apply Hfree. rewrite <- Heq. apply list_elem_of_fmap. eauto.
  - unfold erased_assets. rewrite filter_app, filter_all, filter_none.
    + by rewrite app_nil_r.
    + intros r Hr%asset_rows_alert_id. by intros ?.
    + intros r Hr Heq. rewrite Forall_forall in Ha. specialize (Ha r Hr).
      rewrite Heq in Ha. done.
  - unfold erased_items. rewrite filter_app, filter_all, filter_none.
    + by rewrite app_nil_r.
    + intros r Hr%play_order_rows_alert_id. by intros ?.
    + intros r Hr Heq. rewrite Forall_forall in Hi. specialize (Hi r Hr).
      rewrite Heq in Hi. done.
Qed.

(** *** A step that fails while the rows are read *)

Lemma while_SQLITE_ROW_truncated {St R : Type} (body : Row -> St -> M (bool * St))
    (pure : R -> St -> bool * St) (cols : R -> Row) h db fs :
  (forall r st s, body (cols r) st s = (pure r st, s)) ->
  forall n rows st,
    (n < length rows)%nat ->
    fst (while_pure pure (take (S n) rows) st) = true ->
    while_SQLITE_ROW body (map cols rows) st (sys h db fs (replicate n false ++ [true])) =
    ((true, snd (while_pure pure (take (S n) rows) st)), sys h db fs []).
Proof.
  intros Hbody. induction n as [|n IH]; intros rows st Hlen Hok;
    (destruct rows as [|r rows]; [cbn in Hlen; lia|]);
    cbn [map while_SQLITE_ROW]; unfold bind at 1; rewrite Hbody;
    cbn [take firstn while_pure] in Hok |- *;
    destruct (pure r st) as [continue st'] eqn:E;
    (destruct continue; cbn [negb] in Hok |- *; [|discriminate]).
  - destruct rows; cbn [replicate app]; unfold bind, ret; rewrite engine_call_sys;
      reflexivity.
  - cbn [replicate app]. unfold bind at 1. rewrite engine_call_sys. cbn [next_ok negb tl].
    apply IH; [cbn in Hlen; lia | exact Hok].
Qed.

(** X24. The result of the [step] that ends an iteration of the loop of
    [loadHelper] is not checked: when that step fails after a row that is
    not the last one, on a table whose rows decode, [load] returns [true]
    with the alerts of the rows read so far only. *)
Theorem load_truncated_by_failing_step h la rows arows irows fs n alerts :
  (S n < length rows)%nat ->
  mapM (decode_row true) (take (S n) rows) = Some alerts ->
  load [] (sys h (v2db la rows arows irows) fs (replicate (2 + n) false ++ [true])) =
  ((true, map (loadHelper_attach (assets_map arows) (items_map irows)) alerts),
   sys h (v2db la rows arows irows) fs []) /\
  length alerts = S n.
Proof.
  intros Hlen Hdec. split.
  - pose proof (while_pure_decode true (take (S n) rows) (mkAlertLocals 0 "" 0 0 "" 0 0 "") [])
      as Hd.
    rewrite Hdec in Hd. destruct Hd as [Hfst Hsnd]; [discriminate|].
    unfold load, loadHelper, SQLiteStatement_new, step, v2db.
    cbn [replicate Nat.add app]. mrun.
    rewrite (while_SQLITE_ROW_truncated _ (loadHelper_row_pure true))
      by first [ intros; apply loadHelper_row_healthy | lia | exact Hfst ].
    destruct (while_pure _ (take (S n) rows) _) as [ok [l c]]. cbn [fst snd] in *.
    subst ok c. cbn [negb].
    rewrite loadAlertAssets_healthy. cbn.
    rewrite loadAlertAssetPlayOrderItems_healthy. reflexivity.
  - apply mapM_Some_1, Forall2_length in Hdec. rewrite <- Hdec, length_take. lia.
Qed.

(** ** Calls that are repeated *)

Lemma modify_row_idempotent a r : modify_row a (modify_row a r) = modify_row a r.
Proof.
  unfold modify_row. destruct (decide (col_id r = m_dbId a)) as [H|H].
  - rewrite (bool_decide_eq_true_2 _ H). cbn. by rewrite (bool_decide_eq_true_2 _ H).
  - by rewrite !(bool_decide_eq_false_2 _ H).
Qed.

(** X25. [modify] is idempotent: on a working engine, repeating a [modify] that
    succeeded succeeds again and changes nothing. *)
Theorem modify_idempotent h la rows oa oi fs a s' :
  modify a (sys h (mkDatabase la (Some rows) oa oi) fs []) = (true, s') ->
  modify a s' = (true, s').
Proof.
  rewrite modify_healthy.
  destruct (0 <? count_token rows (m_token a)) eqn:E; [|discriminate].
  intros [= <-]. rewrite modify_healthy.
  assert ((0 <? count_token (map (modify_row a) rows) (m_token a)) = true) as ->.
  { apply count_token_pos in E as (r & Hr & Ht). apply count_token_pos.
    exists (modify_row a r). split; [apply list_elem_of_fmap; eauto|].
    unfold modify_row. by case_bool_decide. }
  rewrite map_map. do 4 f_equal. apply map_ext. intros r. apply modify_row_idempotent.
Qed.

(** X26. An alert that was erased is gone: on a working engine, when the rows
    that carry the token of the alert carry its id, [erase] succeeds once;
    after it no row carries the token, and [erase] and [modify] of the
    alert fail and change nothing. *)
Theorem erased_alert_is_gone h la rows arows irows fs a s' :
  Forall (fun r => col_token r = m_token a -> col_id r = m_dbId a) rows ->
  erase a (sys h (v2db la rows arows irows) fs []) = (true, s') ->
  (forall token, fst (alertExists token s') = true -> token <> m_token a) /\
  erase a s' = (false, s') /\
  modify a s' = (false, s').
Proof.
  intros Hown. rewrite erase_healthy.
  destruct (0 <? count_token rows (m_token a)) eqn:E; [|discriminate].
  intros [= <-].
  assert ((0 <? count_token (erased_rows (m_dbId a) rows) (m_token a)) = false) as Hgone.
  { destruct (0 <? count_token (erased_rows (m_dbId a) rows) (m_token a)) eqn:E'; [|done].
    apply count_token_pos in E' as (r & Hin & Ht).
    apply erased_rows_spec in Hin as [Hne Hr].
    rewrite Forall_forall in Hown. by destruct (Hne (Hown r Hr Ht)). }
  split_and!.
  - intros token. unfold v2db. rewrite alertExists_healthy. cbn [fst].
    intros Ht ->. congruence.
  - by rewrite erase_healthy, Hgone.
  - unfold v2db. by rewrite modify_healthy, Hgone.
Qed.

End Storage.

(** * The theorems on the worked scenario *)

Lemma createDatabase_example :
  createDatabase example_path (mkSystem None ∅ []) = (true, example_created).
Proof. vm_compute. reflexivity. Qed.


Lemma example_stored_eq :
  example_stored =
  sys example_path (v2db None example_rows example_asset_rows example_item_rows) ∅ [].
Proof. vm_compute. reflexivity. Qed.



(** And the migration is not complete when a call into the engine fails
    while the legacy rows are read: the result of the step that ends the
    first row, the eleventh call, is not checked, [open] succeeds, the table
    [alerts] is dropped and [alerts_v2] holds one of the two legacy rows. *)
Example open_migrates_a_part_on_failing_step :
  fst (open example_convert example_path
         (closed_sys example_path
            (example_legacy_database [example_legacy_row 5 "t1"; example_legacy_row 9 "t2"])
            ∅ (replicate 10 false ++ [true]))) = true /\
  files (snd (open example_convert example_path
                (closed_sys example_path
                   (example_legacy_database
                      [example_legacy_row 5 "t1"; example_legacy_row 9 "t2"])
                   ∅ (replicate 10 false ++ [true])))) !! example_path =
  Some (mkDatabase None (Some [example_legacy_row 1 "t1"]) (Some []) (Some [])).
Proof. split; vm_compute; reflexivity. Qed.

Lemma C3_token_uniqueness_witness :
  store (set_token "t1" example_timer) (snd (store example_alert example_created)) =
  ((false, set_token "t1" example_timer), snd (store example_alert example_created)).
Proof.
  exact (proj1 (C3_token_uniqueness example_convert example_path None [] (Some [])
                  (Some []) ∅ example_alert (set_token "t1" example_timer) eq_refl)).
Defined.

(** C3, as stated, fails when a call into the engine fails: the first
    [store] succeeds, in the second [store] of the same alert the creation
    of the statement of the existence query, the seventeenth call into the
    engine, fails, the query reads as "no such token", and the second
    [store] succeeds as well and leaves two rows of the token in
    [alerts_v2]. *)
Lemma C3_counterexample :
  fst (fst (store example_plain_alarm example_failing_query)) = true /\
  fst (fst (store example_plain_alarm
              (snd (store example_plain_alarm example_failing_query)))) = true /\
  (alerts_v2 <$>
   files (snd (store example_plain_alarm
                 (snd (store example_plain_alarm example_failing_query))))
   !! example_path) =
  Some (Some [alert_row 1 example_plain_alarm; alert_row 2 example_plain_alarm]).
Proof. split_and!; vm_compute; reflexivity. Qed.

Lemma C4_modify_scope_witness :
  exists h db rows rows' fl',
    m_dbHandle example_stored = Some h /\ files example_stored !! h = Some db /\
    alerts_v2 db = Some rows /\
    Exists (fun r => col_token r = m_token example_modified) rows /\
    snd (modify example_modified example_stored) =
    sys h (set_alerts_v2 (Some rows') db) (files example_stored) fl' /\
    Forall2 (modified_by example_modified) rows rows'.
Proof.
  apply (proj1 (C4_modify_scope example_modified) example_stored).
  vm_compute. reflexivity.
Defined.


(** The [id] of a row of [alertAssets] is the key of that table and not
    an alert id: after the reminder of id 3 is erased, the asset row of the
    timer (alert id 2), whose own id is 3, is still there. *)
Example erase_keeps_asset_row_of_other_alert :
  fst (erase (set_dbId 3 example_reminder) example_stored) = true /\
  exists db,
    files (snd (erase (set_dbId 3 example_reminder) example_stored)) !! example_path
    = Some db /\
    alertAssets db = Some example_asset_rows /\
    mkAssetRow 3 2 "b1" "v1" ∈ example_asset_rows /\
    asset_col_id (mkAssetRow 3 2 "b1" "v1") = m_dbId (set_dbId 3 example_reminder).
Proof.
  split; [vm_compute; reflexivity|].
  eexists. split; [vm_compute; reflexivity|].
  split; [reflexivity|]. split; [|reflexivity].
  unfold example_asset_rows. set_solver.
Qed.

Lemma C6_batch_erase_witness :
  erase_ids ([1; 3] ++ 4 :: [2])
    (sys example_path (v2db None example_rows example_asset_rows example_item_rows) ∅ []) =
  (false,
   sys example_path
     (v2db None (filter (fun r => col_id r ∉ [1; 3]) example_rows)
        (filter (fun r => asset_col_alert_id r ∉ [1; 3]) example_asset_rows)
        (filter (fun r => item_col_alert_id r ∉ [1; 3]) example_item_rows)) ∅ []).
Proof.
  apply (proj1 (proj2 (C6_batch_erase example_path None example_rows example_asset_rows
                         example_item_rows ∅)) [1; 3] 4 [2]).
  - compute_done.
  - intros i Hi. exists (alert_row i (if bool_decide (i = 1) then example_alert
                                      else example_reminder)).
    apply elem_of_cons in Hi as [->|Hi]; [|apply list_elem_of_singleton in Hi as ->].
    + split; [left|reflexivity].
    + split; [right; right; left|reflexivity].
  - right. intros r Hr. unfold example_rows in Hr.
    repeat (apply elem_of_cons in Hr as [->|Hr]; [vm_compute; discriminate|]).
    inversion Hr.
Defined.

Lemma C7_ids_increase_without_deletion_witness :
  StronglySorted Z.lt
    (fst (run_calls example_convert
            [ CallStore example_alert; CallModify example_modified;
              CallStore example_timer; CallLoad; CallStore example_reminder ]
            (sys example_path (v2db None [] [] []) ∅ []))).
Proof.
  apply (proj2 (C7_ids_increase_without_deletion example_convert example_path None []
                  (Some []) (Some []) ∅ [] (Forall_nil_2 _))).
  - reflexivity.
  - vm_compute. discriminate.
Defined.

(** C7, as stated, fails when an [erase] comes between two stores: the id
    of the erased alert, which was the greatest, is assigned again. *)
Lemma C7_counterexample :
  Forall (fun c => c <> CallClearDatabase)
    [ CallStore example_alert; CallStore example_timer;
      CallErase (set_dbId 2 example_timer); CallStore example_reminder ] /\
  fst (run_calls example_convert
         [ CallStore example_alert; CallStore example_timer;
           CallErase (set_dbId 2 example_timer); CallStore example_reminder ]
         example_created) = [1; 2; 2] /\
  ~ StronglySorted Z.lt [1; 2; 2].
Proof.
  split; [repeat constructor; discriminate|].
  split; [vm_compute; reflexivity|].
  intros H. apply StronglySorted_inv in H as [H _].
  apply StronglySorted_inv in H as [_ H].
  apply Forall_inv in H. lia.
Qed.

Lemma C8_load_sorts_play_order_witness :
  Forall2 (fun r a =>
             m_dbId a = int_of (col_id r) /\
             m_token a = col_token r /\
             exists items,
               items ≡ₚ map item_of (items_of_alert (m_dbId a) example_shuffled_item_rows) /\
               StronglySorted index_lt items /\
               assetPlayOrderItems (m_assetConfiguration a) = map name items)
    example_rows
    (snd (fst (load example_convert []
                 (sys example_path
                    (v2db None example_rows example_asset_rows
                       example_shuffled_item_rows) ∅ [])))) /\
  (forall irows',
     irows' ≡ₚ example_shuffled_item_rows ->
     fst (load example_convert []
            (sys example_path (v2db None example_rows example_asset_rows irows') ∅ [])) =
     (true,
      snd (fst (load example_convert []
                  (sys example_path
                     (v2db None example_rows example_asset_rows
                        example_shuffled_item_rows) ∅ []))))).
Proof.
  apply (proj2 (C8_load_sorts_play_order example_convert example_path None example_rows
                  example_asset_rows example_shuffled_item_rows ∅ ltac:(compute_done))
           _
           (snd (load example_convert []
                   (sys example_path
                      (v2db None example_rows example_asset_rows
                         example_shuffled_item_rows) ∅ [])))).
  vm_compute. reflexivity.
Defined.

(** C8, as stated, fails on play-order rows whose positions differ in the
    table and are one position once they are read as [int]s: the positions
    1 and 4294967297 of the two rows of the alert are distinct, the load
    succeeds on a working engine, and the alert gets the token of the row
    that the engine returns first and not the other one. *)
Lemma C8_counterexample :
  NoDup (map item_col_asset_play_order_position example_wide_item_rows) /\
  (fst (load example_convert []
          (sys example_path
             (v2db None [alert_row 1 example_plain_alarm] [] example_wide_item_rows)
             ∅ [])) =
   (true,
    [assetPlayOrderItems_push_back "a" (set_dbId 1 example_plain_alarm)])) /\
  (fst (load example_convert []
          (sys example_path
             (v2db None [alert_row 1 example_plain_alarm] []
                (reverse example_wide_item_rows)) ∅ [])) =
   (true,
    [assetPlayOrderItems_push_back "b" (set_dbId 1 example_plain_alarm)])).
Proof.
  split; [compute_done|]. split; vm_compute; reflexivity.
Qed.

(** The same holds of a step that fails while the play-order rows are read:
    its result is not checked, the load succeeds, and the alert of the
    scenario gets the token of its first play-order row only. *)
Example load_loses_play_order_on_failing_step :
  map (fun a => assetPlayOrderItems (m_assetConfiguration a))
    (snd (fst (load example_convert []
                 (sys example_path
                    (v2db None example_rows example_asset_rows example_item_rows)
                    ∅ (replicate 12 false ++ [true]))))) =
  [ ["a1"]; []; [] ] /\
  fst (fst (load example_convert []
              (sys example_path
                 (v2db None example_rows example_asset_rows example_item_rows)
                 ∅ (replicate 12 false ++ [true])))) = true.
Proof. split; vm_compute; reflexivity. Qed.

(** The load of the shuffled rows gives the alert of the scenario its
    play-order list in sequence. *)
Example load_shuffled_play_order :
  map (fun a => assetPlayOrderItems (m_assetConfiguration a))
    (snd (fst (load example_convert []
                 (sys example_path
                    (v2db None example_rows example_asset_rows example_shuffled_item_rows)
                    ∅ [])))) =
  [ ["a1"; "a2"; "a1"]; ["b1"]; [] ].
Proof. vm_compute. reflexivity. Qed.

(** A second [store] of the token of the scenario, with the creation of
    the statement of the existence query failing, leaves two rows of that
    token in [alerts_v2]. *)
Example store_duplicates_token_on_failure :
  exists a' rows arows irows,
    store example_plain_alarm
      (sys example_path (v2db None [alert_row 1 example_plain_alarm] [] []) ∅ [true]) =
    ((true, a'), sys example_path (v2db None rows arows irows) ∅ []) /\
    map col_token rows = ["t0"; "t0"].
Proof. eexists _, _, _, _. split; vm_compute; reflexivity. Qed.

Lemma C9_existence_query_failure_witness :
  exists rows' arows' irows',
    store example_plain_alarm
      (sys example_path (v2db None [alert_row 1 example_plain_alarm] [] []) ∅ [true]) =
    ((true, set_dbId (next_id (map col_id [alert_row 1 example_plain_alarm]))
              example_plain_alarm),
     sys example_path (v2db None rows' arows' irows') ∅ []) /\
    rows' = [alert_row 1 example_plain_alarm]
            ++ [alert_row (next_id (map col_id [alert_row 1 example_plain_alarm]))
                  example_plain_alarm] /\
    count_token rows' (m_token example_plain_alarm) =
    count_token [alert_row 1 example_plain_alarm] (m_token example_plain_alarm) + 1.
Proof.
  apply (Forall_inv
           (proj2 (proj2 (C9_existence_query_failure example_path None
                            [alert_row 1 example_plain_alarm] [] [] ∅)))
           example_plain_alarm).
  - right. split; [apply Forall_singleton; vm_compute; split; discriminate|].
    vm_compute. discriminate.
  - left. vm_compute. reflexivity.
  - left. vm_compute. reflexivity.
Defined.

Lemma C10_erase_by_token_and_id_witness :
  erase (set_dbId 7 example_alert)
    (sys example_path (v2db None example_rows example_asset_rows example_item_rows) ∅ []) =
  (true,
   sys example_path (v2db None example_rows example_asset_rows example_item_rows) ∅ []).
Proof.
  apply (proj2 (proj2 (proj2 (C10_erase_by_token_and_id example_path None example_rows
                                example_asset_rows example_item_rows ∅
                                (set_dbId 7 example_alert)
                                ltac:(compute_done) ltac:(compute_done)))));
    compute_done.
Defined.


(** The database of that counterexample is what an [erase] leaves when the
    engine fails after the first of its three deletions: the plain alarm
    and the timer are stored on a database as [createDatabase] leaves it,
    and in the [erase] of the timer the creation of the statement that
    deletes from [alertAssets], the fifty-sixth call into the engine,
    fails. *)
Example orphans_after_failed_erase :
  erase (set_dbId 2 example_timer)
    (snd (store example_timer
            (snd (store example_plain_alarm
                    (sys example_path (v2db None [] [] []) ∅
                       (replicate 55 false ++ [true])))))) =
  (false, sys example_path example_orphan_database ∅ []).
Proof. vm_compute. reflexivity. Qed.

(** The working engine matters as well: when the step that ends the first
    row of [alertAssets] fails during the load (the fifty-sixth call), its
    result is not checked, [store] and [load] both succeed, and the alert
    comes back with one of its two assets. *)
Example round_trip_loses_asset_on_failing_step :
  exists a' s' loaded s'',
    store example_alert
      (sys example_path (v2db None [] [] []) ∅ (replicate 55 false ++ [true])) =
    ((true, a'), s') /\
    load example_convert [] s' = ((true, [loaded]), s'') /\
    size (assets (m_assetConfiguration loaded)) = 1%nat /\
    size (assets (m_assetConfiguration example_alert)) = 2%nat.
Proof.
  eexists _, _, _, _.
  split; [vm_compute; reflexivity|].
  split; [vm_compute; reflexivity|].
  split; vm_compute; reflexivity.
Qed.

(** The other conditions of the round trip matter as well: a loop pause
    beyond the range of [int] is stored narrowed, *)
Example round_trip_narrows_loop_pause :
  let a := setLoopPause 4294967296 example_plain_alarm in
  map m_loopPause
    (snd (fst (load example_convert [] (snd (store a example_created))))) = [0].
Proof. vm_compute. reflexivity. Qed.

(** and the Unix time is not read back but converted from the ISO-8601
    string. *)
Example round_trip_converts_time :
  let a := mkAlert Alarm 0 "t0" SET 5 "2023-11-14T22:13:20Z" 0 0
             (mkAssetConfiguration ∅ [] "") in
  map m_scheduledTime_Unix
    (snd (fst (load example_convert [] (snd (store a example_created))))) = [1700000000].
Proof. vm_compute. reflexivity. Qed.

(** And an asset that the catalog files under a key other than its own id
    comes back under its id. *)
Example round_trip_files_assets_by_id :
  let a := set_assetConfiguration
             (mkAssetConfiguration (<["key" := mkAsset "a1" "u1"]> ∅) [] "")
             example_plain_alarm in
  map (fun x => map_to_list (assets (m_assetConfiguration x)))
    (snd (fst (load example_convert [] (snd (store a example_created))))) =
  [ [("a1", mkAsset "a1" "u1")] ].
Proof. vm_compute. reflexivity. Qed.

(** ** The further properties on the worked scenario *)

Lemma closed_storage_refuses_witness :
  store example_alert (SQLiteAlertStorage_new ∅ []) =
    ((false, example_alert), SQLiteAlertStorage_new ∅ []) /\
  clearDatabase (SQLiteAlertStorage_new ∅ []) = (false, SQLiteAlertStorage_new ∅ []) /\
  printStats example_convert example_printDiagnostic EVERYTHING (SQLiteAlertStorage_new ∅ []) =
    ([], SQLiteAlertStorage_new ∅ []).
Proof.
  destruct (closed_storage_refuses example_convert example_printDiagnostic
              (SQLiteAlertStorage_new ∅ [])) as (_ & Hs & _ & _ & _ & _ & Hc & Hp & _).
  - reflexivity.
  - split; [apply Hs|]. split; [exact Hc | apply Hp].
Defined.

Lemma store_without_asset_table_witness :
  store example_alert (sys example_path (mkDatabase None (Some []) None None) ∅ []) =
  ((false, set_dbId (next_id (map col_id [])) example_alert),
   sys example_path
     (mkDatabase None (Some ([] ++ [alert_row (next_id (map col_id [])) example_alert]))
        None None) ∅ []).
Proof.
  apply (store_without_asset_table example_path None [] None ∅ example_alert).
  - intros H. apply (f_equal (fun m => m !! "a1")) in H. vm_compute in H. discriminate.
  - constructor.
  - right. split; [constructor|]. vm_compute. discriminate.
Defined.

Lemma tokens_stay_distinct_witness :
  exists rows' arows' irows',
    snd (run_calls example_convert
           [CallStore example_alert; CallStore example_alert; CallModify example_modified;
            CallErase example_timer; CallStore example_timer]
           (sys example_path (v2db None [] [] []) ∅ [])) =
    sys example_path (v2db None rows' arows' irows') ∅ [] /\
    NoDup (map col_token rows').
Proof.
  apply (tokens_stay_distinct example_convert
           [CallStore example_alert; CallStore example_alert; CallModify example_modified;
            CallErase example_timer; CallStore example_timer]
           example_path None [] [] [] ∅).
  constructor.
Defined.

Lemma children_stay_owned_witness :
  exists rows' arows' irows',
    snd (run_calls example_convert
           [CallStore example_alert; CallStore example_timer;
            CallErase (set_dbId 2 example_alert); CallEraseIds [1; 5]]
           (sys example_path (v2db None [] [] []) ∅ [])) =
    sys example_path (v2db None rows' arows' irows') ∅ [] /\
    no_orphans rows' arows' irows'.
Proof.
  apply (children_stay_owned example_convert
           [CallStore example_alert; CallStore example_timer;
            CallErase (set_dbId 2 example_alert); CallEraseIds [1; 5]]
           example_path None [] [] [] ∅).
  split; constructor.
Defined.

Lemma load_appends_to_container_witness :
  exists alerts,
    load example_convert [example_timer]
      (sys example_path (v2db None example_rows example_asset_rows example_item_rows) ∅ []) =
    ((true,
      map (loadHelper_attach (assets_map example_asset_rows) (items_map example_item_rows))
        ([example_timer] ++ alerts)),
     sys example_path (v2db None example_rows example_asset_rows example_item_rows) ∅ []).
Proof.
  eexists.
  apply (load_appends_to_container example_convert example_path None example_rows
           example_asset_rows example_item_rows ∅ [example_timer]).
  - apply NoDup_singleton.
  - vm_compute. reflexivity.
Defined.

Lemma load_stops_at_invalid_row_witness :
  exists alerts,
    mapM (decode_row example_convert true) [alert_row 1 example_plain_alarm] = Some alerts /\
    load example_convert []
      (sys example_path
         (v2db None ([alert_row 1 example_plain_alarm]
                     ++ example_invalid_row :: [alert_row 3 example_reminder]) [] []) ∅ []) =
    ((false, [] ++ alerts),
     sys example_path
       (v2db None ([alert_row 1 example_plain_alarm]
                   ++ example_invalid_row :: [alert_row 3 example_reminder]) [] []) ∅ []).
Proof.
  apply (load_stops_at_invalid_row example_convert example_path None
           [alert_row 1 example_plain_alarm] example_invalid_row
           [alert_row 3 example_reminder] [] [] ∅ []).
  - apply Forall_singleton. vm_compute. repeat split; discriminate.
  - intros [[_ H] _]. vm_compute in H. by apply H.
Defined.

Lemma load_drops_tied_position_witness :
  fst (load example_convert []
         (sys example_path
            (v2db None example_rows example_asset_rows
               (example_item_rows ++ mkPlayOrderRow 5 1 2 "b1" :: [mkPlayOrderRow 6 2 2 "b2"]))
            ∅ [])) =
  fst (load example_convert []
         (sys example_path
            (v2db None example_rows example_asset_rows
               (example_item_rows ++ [mkPlayOrderRow 6 2 2 "b2"])) ∅ [])).
Proof.
  apply (load_drops_tied_position example_convert example_path None example_rows
           example_asset_rows example_item_rows (mkPlayOrderRow 5 1 2 "b1")
           [mkPlayOrderRow 6 2 2 "b2"] ∅ [] (mkPlayOrderRow 2 1 2 "a2")).
  - unfold example_item_rows. right. left.
  - reflexivity.
  - reflexivity.
Defined.

Lemma modify_then_load_witness :
  exists out s',
    modify example_modified
      (sys example_path (v2db None example_rows example_asset_rows example_item_rows) ∅ []) =
    (true, s') /\
    load example_convert [] s' = ((true, map (modified_alert example_modified) out), s').
Proof.
  eexists.
  apply (modify_then_load example_convert example_path None example_rows
           example_asset_rows example_item_rows ∅ example_modified).
  - repeat constructor; vm_compute; discriminate.
  - vm_compute. reflexivity.
  - apply Exists_cons_hd. reflexivity.
  - vm_compute. reflexivity.
Defined.

Lemma erase_then_load_witness :
  exists out s',
    erase example_modified
      (sys example_path (v2db None example_rows example_asset_rows example_item_rows) ∅ []) =
    (true, s') /\
    load example_convert [] s' =
    ((true, filter (fun x => m_dbId x <> m_dbId example_modified) out), s').
Proof.
  eexists.
  apply (erase_then_load example_convert example_path None example_rows
           example_asset_rows example_item_rows ∅ example_modified).
  - repeat constructor; vm_compute; discriminate.
  - vm_compute. split; discriminate.
  - apply Exists_cons_hd. reflexivity.
  - vm_compute. reflexivity.
Defined.

Lemma erase_undoes_store_witness :
  erase (snd (fst (store example_alert example_created)))
    (snd (store example_alert example_created)) =
  (true, sys example_path (v2db None [] [] []) ∅ []).
Proof.
  apply (erase_undoes_store example_path None [] [] [] ∅ example_alert).
  - split; constructor.
  - vm_compute. reflexivity.
Defined.

Lemma load_truncated_by_failing_step_witness :
  exists alerts,
    load example_convert []
      (sys example_path (v2db None example_rows example_asset_rows example_item_rows) ∅
         (replicate (2 + 0) false ++ [true])) =
    ((true,
      map (loadHelper_attach (assets_map example_asset_rows) (items_map example_item_rows))
        alerts),
     sys example_path (v2db None example_rows example_asset_rows example_item_rows) ∅ []) /\
    length alerts = 1%nat.
Proof.
  eexists.
  apply (load_truncated_by_failing_step example_convert example_path None example_rows
           example_asset_rows example_item_rows ∅ 0).
  - cbn. lia.
  - vm_compute. reflexivity.
Defined.

Lemma modify_idempotent_witness :
  modify example_modified
    (snd (modify example_modified
            (sys example_path (mkDatabase None (Some example_rows) None None) ∅ []))) =
  (true,
   snd (modify example_modified
          (sys example_path (mkDatabase None (Some example_rows) None None) ∅ []))).
Proof.
  apply (modify_idempotent example_path None example_rows None None ∅ example_modified).
  vm_compute. reflexivity.
Defined.

Lemma erased_alert_is_gone_witness :
  erase example_modified
    (snd (erase example_modified
            (sys example_path (v2db None example_rows example_asset_rows example_item_rows)
               ∅ []))) =
  (false,
   snd (erase example_modified
          (sys example_path (v2db None example_rows example_asset_rows example_item_rows)
             ∅ []))).
Proof.
  apply (erased_alert_is_gone example_path None example_rows example_asset_rows
           example_item_rows ∅ example_modified).
  - repeat constructor; vm_compute; intros H; first [reflexivity | discriminate H].
  - vm_compute. reflexivity.
Defined.
